(** * Programmatic tool calling: the MCP bridge, the sandbox monitor,
      the context filter and the savings accountant

    A shallow embedding of the TypeScript sources
    ([lib/tool-wrapper.ts], the package's [sandbox] and [context-manager])
    together with the properties the specification states about them.

    JavaScript values are modelled as a tree type; numbers are the integers
    plus [NaN]; strings are held in UTF-8, and their [length] counts
    UTF-16 code units as JavaScript does; an object is its list of own
    enumerable properties in insertion order (keys are unique, integer-like
    keys are not reordered).  The platform functions whose full behaviour
    the code does not depend on, [JSON.parse], the string-to-number
    conversion and the locale's number format, are fields of the class
    [Platform]; general theorems hold for every platform, closed examples
    run on [model_platform]. *)

From Stdlib Require Import Ascii.
From stdpp Require Import gmap strings list pretty sorting.

#[local] Set Warnings "-register-all".
#[local] Open Scope string_scope.

(* ================================================================== *)
(** * Part I: JavaScript values and built-ins                          *)
(* ================================================================== *)

Inductive jsnum : Type :=
| NaN
| Num (z : Z).

(** [VArr elems own]: an array with its elements and the named properties
    that were assigned to it ([parsed.success = true] on a parsed array). *)
Inductive value : Type :=
| VUndefined
| VNull
| VBool (b : bool)
| VNum (n : jsnum)
| VStr (s : string)
| VArr (elems : list value) (own : list (string * value))
| VObj (fields : list (string * value)).

Abbreviation Arr l := (VArr l []).
Abbreviation VInt z := (VNum (Num z)).

(** Exceptions: a computation completes normally or throws an [Error]
    with a message. *)
Inductive completion (A : Type) : Type :=
| Normal (a : A)
| Throw (message : string).
Arguments Normal {A} a.
Arguments Throw {A} message.

#[global] Instance completion_ret : MRet completion := @Normal.
#[global] Instance completion_bind : MBind completion := fun A B k c =>
  match c with
  | Normal a => k a
  | Throw m => Throw m
  end.

(** Characters that cannot be written inside a string literal. *)
Definition dquote : string := String "034"%char "".
Definition newline : string := String "010"%char "".

(** [s.includes(t)] *)
Fixpoint includes (s t : string) : bool :=
  String.prefix t s ||
  match s with
  | EmptyString => false
  | String _ s' => includes s' t
  end.

(** The rest of [s] after the prefix [p], when [s.startsWith(p)]. *)
Fixpoint strip_prefix (p s : string) : option string :=
  match p, s with
  | EmptyString, _ => Some s
  | String a p', String b s' => if Ascii.eqb a b then strip_prefix p' s' else None
  | String _ _, EmptyString => None
  end.

(** [s.endsWith(t)] *)
Fixpoint endsWith (s t : string) : bool :=
  String.eqb s t ||
  match s with
  | EmptyString => false
  | String _ s' => endsWith s' t
  end.

(** [s.replace(pat, rep)] for string arguments: the first occurrence. *)
Fixpoint replace (pat rep s : string) : string :=
  match strip_prefix pat s with
  | Some rest => rep ++ rest
  | None =>
      match s with
      | EmptyString => s
      | String c s' => String c (replace pat rep s')
      end
  end.

(** [typeof v] *)
Definition typeof (v : value) : string :=
  match v with
  | VUndefined => "undefined"
  | VNull => "object"
  | VBool _ => "boolean"
  | VNum _ => "number"
  | VStr _ => "string"
  | VArr _ _ => "object"
  | VObj _ => "object"
  end.

(** ToBoolean: [if (v)], [!v], [a || b]. *)
Definition truthy (v : value) : bool :=
  match v with
  | VUndefined | VNull => false
  | VBool b => b
  | VNum NaN => false
  | VNum (Num z) => negb (Z.eqb z 0)
  | VStr s => negb (String.eqb s "")
  | VArr _ _ | VObj _ => true
  end.

Definition or_else (a b : value) : value := if truthy a then a else b.
Infix "|||" := or_else (at level 50, left associativity).

Definition Array_isArray (v : value) : bool :=
  match v with VArr _ _ => true | _ => false end.

Definition is_undefined (v : value) : bool :=
  match v with VUndefined => true | _ => false end.

(** [v === false], [v === 'text'] *)
Definition is_false (v : value) : bool :=
  match v with VBool false => true | _ => false end.

Definition is_str (v : value) (s : string) : bool :=
  match v with VStr t => String.eqb t s | _ => false end.

(** Own properties: lookup, assignment (in place when the key exists, at
    the end otherwise) and the [in] operator. *)
Fixpoint assoc (k : string) (l : list (string * value)) : option value :=
  match l with
  | [] => None
  | (k', x) :: l' => if String.eqb k' k then Some x else assoc k l'
  end.

Fixpoint set (k : string) (x : value) (l : list (string * value)) : list (string * value) :=
  match l with
  | [] => [(k, x)]
  | (k', y) :: l' => if String.eqb k' k then (k', x) :: l' else (k', y) :: set k x l'
  end.

Definition has_key (k : string) (l : list (string * value)) : bool :=
  match assoc k l with Some _ => true | None => false end.

(** [s.length]: the UTF-16 code units of a string that is held in UTF-8.
    A byte below 128 and the first byte of a sequence of two or three bytes
    stand for one unit, the first byte of a sequence of four bytes for two
    (a surrogate pair), a continuation byte for none. *)
Definition units_of_byte (c : ascii) : nat :=
  let n := nat_of_ascii c in
  if Nat.ltb n 128 then 1
  else if Nat.ltb n 192 then 0
  else if Nat.ltb n 240 then 1
  else 2.

Fixpoint js_length (s : string) : nat :=
  match s with
  | EmptyString => 0
  | String c s' => units_of_byte c + js_length s'
  end.

(** [v.k] for a receiver that is neither [null] nor [undefined]; the
    property names the code reads are never array indices. *)
Definition get (v : value) (k : string) : value :=
  match v with
  | VObj fields => default VUndefined (assoc k fields)
  | VArr elems own =>
      if String.eqb k "length" then VInt (Z.of_nat (length elems))
      else default VUndefined (assoc k own)
  | VStr s =>
      if String.eqb k "length" then VInt (Z.of_nat (js_length s))
      else VUndefined
  | _ => VUndefined
  end.

(** [v.k] where the receiver may be [null] or [undefined]. *)
Definition get_checked (v : value) (k : string) : completion value :=
  match v with
  | VUndefined =>
      Throw ("Cannot read properties of undefined (reading '" ++ k ++ "')")
  | VNull =>
      Throw ("Cannot read properties of null (reading '" ++ k ++ "')")
  | _ => Normal (get v k)
  end.

(** [k in v] for an object or an array. *)
Definition key_in (k : string) (v : value) : bool :=
  match v with
  | VObj fields => has_key k fields
  | VArr _ own => String.eqb k "length" || has_key k own
  | _ => false
  end.

(** [v.k = x] *)
Definition assign (v : value) (k : string) (x : value) : value :=
  match v with
  | VObj fields => VObj (set k x fields)
  | VArr elems own => VArr elems (set k x own)
  | _ => v
  end.

(** [arr[i]] *)
Definition index (l : list value) (i : nat) : value :=
  default VUndefined (l !! i).

Fixpoint indexed (i : nat) (l : list value) : list (string * value) :=
  match l with
  | [] => []
  | x :: l' => (pretty i, x) :: indexed (S i) l'
  end.

(** [Object.entries(v)], also the properties copied by [{...v}]. *)
Definition Object_entries (v : value) : list (string * value) :=
  match v with
  | VObj fields => fields
  | VArr elems own => indexed 0 elems ++ own
  | VStr s => indexed 0 ((fun c => VStr (String c "")) <$> String.list_ascii_of_string s)
  | _ => []
  end.

(** [Object.assign(target, source)] on the property lists. *)
Definition Object_assign (target source : list (string * value)) : list (string * value) :=
  foldl (fun acc kx => set kx.1 kx.2 acc) target source.

Fixpoint join (sep : string) (l : list string) : string :=
  match l with
  | [] => ""
  | [s] => s
  | s :: l' => s ++ sep ++ join sep l'
  end.

(** [String(v)] *)
Fixpoint ToString (v : value) : string :=
  match v with
  | VUndefined => "undefined"
  | VNull => "null"
  | VBool true => "true"
  | VBool false => "false"
  | VNum NaN => "NaN"
  | VNum (Num z) => pretty z
  | VStr s => s
  | VArr elems _ =>
      join "," ((fix each (l : list value) : list string :=
                   match l with
                   | [] => []
                   | x :: l' =>
                       match x with
                       | VUndefined | VNull => ""
                       | _ => ToString x
                       end :: each l'
                   end) elems)
  | VObj _ => "[object Object]"
  end.

(** [arr.join(sep)] *)
Definition Array_join (sep : string) (l : list value) : string :=
  join sep ((fun x => match x with
                      | VUndefined | VNull => ""
                      | _ => ToString x
                      end) <$> l).

(** [Boolean(v)] *)
Definition ToBoolean (v : value) : value := VBool (truthy v).

(** ** JSON.stringify *)

Definition hex_digit (n : nat) : string :=
  String.substring n 1 "0123456789abcdef".

Definition escape_char (c : ascii) : string :=
  let n := nat_of_ascii c in
  if Nat.eqb n 34 then "\" ++ dquote
  else if Nat.eqb n 92 then "\\"
  else if Nat.eqb n 8 then "\b"
  else if Nat.eqb n 9 then "\t"
  else if Nat.eqb n 10 then "\n"
  else if Nat.eqb n 12 then "\f"
  else if Nat.eqb n 13 then "\r"
  else if Nat.ltb n 32 then "\u00" ++ hex_digit (n / 16) ++ hex_digit (n mod 16)
  else String c "".

Fixpoint escape (s : string) : string :=
  match s with
  | EmptyString => ""
  | String c s' => escape_char c ++ escape s'
  end.

Definition quote (s : string) : string := dquote ++ escape s ++ dquote.

(** [JSON.stringify(v)]; [None] is the result [undefined]. *)
Fixpoint JSON_stringify (v : value) : option string :=
  match v with
  | VUndefined => None
  | VNull => Some "null"
  | VBool true => Some "true"
  | VBool false => Some "false"
  | VNum NaN => Some "null"
  | VNum (Num z) => Some (pretty z)
  | VStr s => Some (quote s)
  | VArr elems _ =>
      Some ("[" ++ join "," ((fix each (l : list value) : list string :=
                                match l with
                                | [] => []
                                | x :: l' => default "null" (JSON_stringify x) :: each l'
                                end) elems) ++ "]")
  | VObj fields =>
      Some ("{" ++ join "," ((fix each (l : list (string * value)) : list string :=
                                match l with
                                | [] => []
                                | (k, x) :: l' =>
                                    match JSON_stringify x with
                                    | Some s => (quote k ++ ":" ++ s) :: each l'
                                    | None => each l'
                                    end
                                end) fields) ++ "}")
  end.

(** A template literal prints the result [undefined] as such. *)
Definition template (o : option string) : string := default "undefined" o.

(** ** The platform *)

Class Platform : Type := {
  (** [JSON.parse(text)]; [None] when it throws a [SyntaxError]. *)
  JSON_parse : string -> option value;
  (** [Number(text)] for a string. *)
  StringToNumber : string -> jsnum;
  (** [n.toLocaleString()], which depends on the host's locale. *)
  toLocaleString : Z -> string
}.

(** [Number(v)] *)
Definition ToNumber `{Platform} (v : value) : jsnum :=
  match v with
  | VUndefined => NaN
  | VNull => Num 0
  | VBool true => Num 1
  | VBool false => Num 0
  | VNum n => n
  | VStr s => StringToNumber s
  | VArr _ _ => StringToNumber (ToString v)
  | VObj _ => NaN
  end.

Definition isNaN (n : jsnum) : bool :=
  match n with NaN => true | Num _ => false end.

(* ================================================================== *)
(** * Part II: the Response Normalizer ([lib/tool-wrapper.ts])         *)
(* ================================================================== *)

(** [result.k] on the property list under construction. *)
Definition prop (result : list (string * value)) (k : string) : value :=
  default VUndefined (assoc k result).

(** [arr[arr.length - 1]] *)
Definition last_elem (l : list value) : value :=
  match l with
  | [] => VUndefined
  | _ => index l (length l - 1)
  end.

(** The "main data" that [normalizeResponseStructure] unwraps from [data]. *)
Definition mainDataOf (data : value) : value :=
  if negb (is_undefined (get data "data")) then get data "data"
  else if negb (is_undefined (get data "result")) then get data "result"
  else if negb (is_undefined (get data "results")) then get data "results"
  else if negb (is_undefined (get data "content"))
          && negb (truthy (get data "markdown")) then get data "content"
  else data.

(** The body of [normalizeResponseStructure] below its two guards: the
    properties of [result]. *)
Definition normalizedFields (data : value) : list (string * value) :=
  let result :=
    [("success", VBool (negb (is_false (get data "success"))
                        && negb (truthy (get data "error"))
                        && negb (truthy (get data "isError"))));
     ("_normalized", VBool true);
     ("_raw", data)] in
  let mainData := mainDataOf data in
  let textContent :=
    if String.eqb (typeof (get data "text")) "string" then get data "text"
    else if String.eqb (typeof mainData) "string" then mainData
    else if negb (is_undefined (get data "stdout")) then get data "stdout"
    else if negb (is_undefined (get data "output"))
         then VStr (ToString (get data "output"))
    else VStr "" in
  let '(result, textContent) :=
    match mainData with
    | VArr elems _ =>
        let result := set "items" mainData result in
        let result := set "data" mainData result in
        let result := set "length" (VInt (Z.of_nat (length elems))) result in
        let result := set "first" (index elems 0 ||| VNull) result in
        let result := set "last" (last_elem elems ||| VNull) result in
        (result, textContent)
    | VObj fields =>
        let result := set "items" (Arr [mainData]) result in
        let result := set "data" mainData result in
        let result := set "length" (VInt 1) result in
        let result := set "first" mainData result in
        let result := set "last" mainData result in
        (Object_assign result fields, textContent)
    | _ =>
        let result := set "items" (Arr [mainData]) result in
        let result := set "data" mainData result in
        let result := set "value" mainData result in
        let result := set "length" (VInt 1) result in
        (result,
         if String.eqb (typeof mainData) "string" then mainData
         else textContent)
    end in
  let result :=
    set "text" (textContent ||| prop result "text" ||| VStr "") result in
  let result :=
    set "output" (textContent ||| prop result "output" ||| VStr "") result in
  let result :=
    set "stdout" (textContent ||| prop result "stdout" ||| VStr "") result in
  let result :=
    set "content" (textContent ||| prop result "content" ||| prop result "data")
        result in
  let result :=
    set "value" (prop result "value" ||| textContent ||| prop result "data")
        result in
  if truthy (get data "error") then
    let result := set "error" (get data "error") result in
    let result := set "stderr" (get data "error") result in
    set "success" (VBool false) result
  else result.

(** [normalizeResponseStructure(data)] *)
Definition normalizeResponseStructure (data : value) : value :=
  match data with
  | VNull | VUndefined =>
      VObj [("success", VBool false); ("data", VNull); ("items", Arr []);
            ("output", VStr ""); ("text", VStr "");
            ("error", VStr "No data returned")]
  | _ =>
      if truthy (get data "_normalized") then data
      else VObj (normalizedFields data)
  end.

(** What [transformMCPResponse] hands to [normalizeResponseStructure]:
    [{ ...rawResponse, success: true }] for an object without a [success]
    key, [rawResponse] itself otherwise. *)
Definition structureInput (rawResponse : value) : value :=
  if String.eqb (typeof rawResponse) "object"
     && negb (match rawResponse with VNull => true | _ => false end)
     && negb (key_in "success" rawResponse)
  then VObj (set "success" (VBool true) (Object_entries rawResponse))
  else rawResponse.

(** [content.filter((c) => c.type === 'text')]: reading [c.type] throws a
    [TypeError] on a [null] or [undefined] element. *)
Fixpoint filter_text (l : list value) : completion (list value) :=
  match l with
  | [] => Normal []
  | c :: l' =>
      t ← get_checked c "type";
      rest ← filter_text l';
      Normal (if is_str t "text" then c :: rest else rest)
  end.

Section ResponseNormalizer.
Context `{Platform}.

(** The [try { JSON.parse(c.text) } catch { c.text }] of the multi-part case. *)
Definition parse_or_text (c : value) : value :=
  match JSON_parse (ToString (get c "text")) with
  | Some parsed => parsed
  | None => get c "text"
  end.

(** [transformMCPResponse(rawResponse)] *)
Definition transformMCPResponse (rawResponse : value) : completion value :=
  if negb (truthy rawResponse) then Normal rawResponse else
  match get rawResponse "content" with
  | VArr content _ => (* a truthy value that is an array *)
      if truthy (get rawResponse "isError") then
        texts ← filter_text content;
        let errorText := Array_join newline ((fun c => get c "text") <$> texts) in
        Normal (VObj [("success", VBool false);
                      ("error", VStr errorText ||| VStr "MCP tool returned an error");
                      ("_raw", rawResponse)])
      else
        textContents ← filter_text content;
        match textContents with
        | [] =>
            Normal (VObj [("success", VBool true);
                          ("content", get rawResponse "content");
                          ("_raw", rawResponse)])
        | [c] =>
            let textContent := get c "text" in
            match JSON_parse (ToString textContent) with
            | Some parsed =>
                if String.eqb (typeof parsed) "object"
                   && negb (match parsed with VNull => true | _ => false end)
                   && negb (key_in "success" parsed)
                then Normal (assign parsed "success" (VBool true))
                else Normal parsed
            | None =>
                Normal (VObj [("success", VBool true);
                              ("text", textContent);
                              ("_raw", rawResponse)])
            end
        | _ =>
            Normal (VObj [("success", VBool true);
                          ("results", Arr (parse_or_text <$> textContents));
                          ("_raw", rawResponse)])
        end
  | _ =>
      Normal (normalizeResponseStructure (structureInput rawResponse))
  end.

End ResponseNormalizer.

(* ================================================================== *)
(** * A concrete platform for closed examples                          *)
(* ================================================================== *)

(** A JSON reader for the value model: objects, arrays, strings with the
    standard escapes, integers, [true], [false], [null].  Numbers with a
    fraction or an exponent lie outside the value model and are rejected. *)

Definition is_ws (c : ascii) : bool :=
  let n := nat_of_ascii c in
  Nat.eqb n 32 || Nat.eqb n 9 || Nat.eqb n 10 || Nat.eqb n 13.

Fixpoint skip_ws (s : string) : string :=
  match s with
  | String c s' => if is_ws c then skip_ws s' else s
  | EmptyString => s
  end.

Definition digit_of (c : ascii) : option Z :=
  let n := nat_of_ascii c in
  if Nat.leb 48 n && Nat.leb n 57 then Some (Z.of_nat (n - 48)) else None.

Fixpoint read_digits (acc : Z) (s : string) : Z * string :=
  match s with
  | String c s' =>
      match digit_of c with
      | Some d => read_digits (10 * acc + d) s'
      | None => (acc, s)
      end
  | EmptyString => (acc, s)
  end.

(** An unsigned JSON integer: no leading zero, no fraction, no exponent. *)
Definition read_nat (s : string) : option (Z * string) :=
  match s with
  | String c s' =>
      match digit_of c with
      | Some d =>
          let '(z, rest) := read_digits d s' in
          let ok_lead :=
            match s' with
            | String c' _ => negb (Z.eqb d 0 && bool_decide (is_Some (digit_of c')))
            | EmptyString => true
            end in
          let ok_tail :=
            match rest with
            | String c' _ =>
                let n := nat_of_ascii c' in
                negb (Nat.eqb n 46 || Nat.eqb n 101 || Nat.eqb n 69)
            | EmptyString => true
            end in
          if ok_lead && ok_tail then Some (z, rest) else None
      | None => None
      end
  | EmptyString => None
  end.

Definition hex_of (c : ascii) : option nat :=
  let n := nat_of_ascii c in
  if Nat.leb 48 n && Nat.leb n 57 then Some (n - 48)
  else if Nat.leb 97 n && Nat.leb n 102 then Some (n - 87)
  else if Nat.leb 65 n && Nat.leb n 70 then Some (n - 55)
  else None.

(** The body of a string literal, after the opening quote. *)
Fixpoint read_string (fuel : nat) (s : string) : option (string * string) :=
  match fuel with
  | 0 => None
  | S fuel =>
      match s with
      | EmptyString => None
      | String c s' =>
          let n := nat_of_ascii c in
          if Nat.eqb n 34 then Some ("", s')
          else if Nat.ltb n 32 then None
          else if Nat.eqb n 92 then
            match s' with
            | String e s'' =>
                let cont (ch : ascii) (rest : string) :=
                  '(body, out) ← read_string fuel rest;
                  Some (String ch body, out) in
                let m := nat_of_ascii e in
                if Nat.eqb m 34 then cont e s''
                else if Nat.eqb m 92 then cont e s''
                else if Nat.eqb m 47 then cont e s''
                else if Nat.eqb m 98 then cont (ascii_of_nat 8) s''
                else if Nat.eqb m 102 then cont (ascii_of_nat 12) s''
                else if Nat.eqb m 110 then cont (ascii_of_nat 10) s''
                else if Nat.eqb m 114 then cont (ascii_of_nat 13) s''
                else if Nat.eqb m 116 then cont (ascii_of_nat 9) s''
                else if Nat.eqb m 117 then
                  match s'' with
                  | String h1 (String h2 (String h3 (String h4 rest))) =>
                      a ← hex_of h1; b ← hex_of h2; c' ← hex_of h3; d ← hex_of h4;
                      if Nat.eqb a 0 && Nat.eqb b 0
                      then cont (ascii_of_nat (16 * c' + d)) rest
                      else None
                  | _ => None
                  end
                else None
            | EmptyString => None
            end
          else
            '(body, out) ← read_string fuel s';
            Some (String c body, out)
      end
  end.

Fixpoint read_value (fuel : nat) (s : string) : option (value * string) :=
  match fuel with
  | 0 => None
  | S fuel =>
      let s := skip_ws s in
      match s with
      | EmptyString => None
      | String c rest =>
          let n := nat_of_ascii c in
          if Nat.eqb n 123 then
            match skip_ws rest with
            | String c' rest' =>
                if Nat.eqb (nat_of_ascii c') 125 then Some (VObj [], rest')
                else read_members fuel rest []
            | EmptyString => None
            end
          else if Nat.eqb n 91 then
            match skip_ws rest with
            | String c' rest' =>
                if Nat.eqb (nat_of_ascii c') 93 then Some (Arr [], rest')
                else read_elements fuel rest []
            | EmptyString => None
            end
          else if Nat.eqb n 34 then
            '(str, out) ← read_string (String.length rest + 1) rest;
            Some (VStr str, out)
          else if Nat.eqb n 45 then
            '(z, out) ← read_nat rest;
            Some (VInt (- z), out)
          else
            match strip_prefix "true" s, strip_prefix "false" s,
                  strip_prefix "null" s with
            | Some out, _, _ => Some (VBool true, out)
            | _, Some out, _ => Some (VBool false, out)
            | _, _, Some out => Some (VNull, out)
            | _, _, _ =>
                '(z, out) ← read_nat s;
                Some (VInt z, out)
            end
      end
  end
with read_elements (fuel : nat) (s : string) (acc : list value)
  : option (value * string) :=
  match fuel with
  | 0 => None
  | S fuel =>
      '(x, rest) ← read_value fuel s;
      match skip_ws rest with
      | String c rest' =>
          let n := nat_of_ascii c in
          if Nat.eqb n 44 then read_elements fuel rest' (acc ++ [x])
          else if Nat.eqb n 93 then Some (Arr (acc ++ [x]), rest')
          else None
      | EmptyString => None
      end
  end
with read_members (fuel : nat) (s : string) (acc : list (string * value))
  : option (value * string) :=
  match fuel with
  | 0 => None
  | S fuel =>
      match skip_ws s with
      | String q rest =>
          if Nat.eqb (nat_of_ascii q) 34 then
            '(k, rest) ← read_string (String.length rest + 1) rest;
            match skip_ws rest with
            | String c rest' =>
                if Nat.eqb (nat_of_ascii c) 58 then
                  '(x, rest'') ← read_value fuel rest';
                  match skip_ws rest'' with
                  | String d out =>
                      let n := nat_of_ascii d in
                      if Nat.eqb n 44 then read_members fuel out (set k x acc)
                      else if Nat.eqb n 125 then Some (VObj (set k x acc), out)
                      else None
                  | EmptyString => None
                  end
                else None
            | EmptyString => None
            end
          else None
      | EmptyString => None
      end
  end.

Definition json_parse (s : string) : option value :=
  '(v, rest) ← read_value (2 * String.length s + 2) s;
  match skip_ws rest with
  | EmptyString => Some v
  | _ => None
  end.

(** [Number(text)] on decimal integers with optional sign and surrounding
    blanks; the empty text is [0]; anything else is [NaN] here. *)
Definition string_to_number (s : string) : jsnum :=
  let s := skip_ws s in
  match s with
  | EmptyString => Num 0
  | String c rest =>
      let '(sign, body) :=
        if Nat.eqb (nat_of_ascii c) 45 then ((-1)%Z, rest)
        else if Nat.eqb (nat_of_ascii c) 43 then (1%Z, rest)
        else (1%Z, s) in
      match body with
      | String d _ =>
          match digit_of d with
          | Some _ =>
              let '(z, out) := read_digits 0 body in
              match skip_ws out with
              | EmptyString => Num (sign * z)
              | _ => NaN
              end
          | None => NaN
          end
      | EmptyString => NaN
      end
  end.

(** [n.toLocaleString()] in the [en-US] locale: digits in groups of three. *)
Fixpoint group3 (digits : list ascii) : list ascii :=
  match digits with
  | a :: b :: c :: ((_ :: _) as rest) => a :: b :: c :: ","%char :: group3 rest
  | _ => digits
  end.

Definition en_US (z : Z) : string :=
  let body :=
    String.string_of_list_ascii
      (reverse (group3 (reverse (String.list_ascii_of_string (pretty (Z.abs z)))))) in
  if Z.ltb z 0 then "-" ++ body else body.

Definition model_platform : Platform :=
  {| JSON_parse := json_parse;
     StringToNumber := string_to_number;
     toLocaleString := en_US |}.

(* ================================================================== *)
(** * Part III: the Parameter Normalizer ([lib/tool-wrapper.ts])       *)
(* ================================================================== *)

(** The declared input schema (JSON Schema), reduced to the fields the
    normalizer reads: [properties], [required], and per property [type] and
    [items] with the item schema's own [type], [properties] (each with its
    [type]) and [required]. *)
Record ItemSchema : Type := {
  item_type : option string;
  item_properties : option (list (string * option string));
  item_required : option (list string)
}.

Record PropSchema : Type := {
  prop_type : option string;
  prop_items : option ItemSchema
}.

Record Schema : Type := {
  properties : option (list (string * PropSchema));
  required : option (list string)
}.

Record Normalization : Type := {
  normalized : value;
  warnings : list string;
  isValid : bool
}.

Definition str_in (k : string) (l : list string) : bool :=
  existsb (String.eqb k) l.

(** [prop.type === t] *)
Definition type_is (ty : option string) (t : string) : bool :=
  match ty with Some s => String.eqb s t | None => false end.

(** [a || b] on property names: the empty name is falsy. *)
Definition or_name (a b : option string) : option string :=
  match a with
  | Some s => if String.eqb s "" then b else a
  | None => b
  end.

(** [l.find(p)] *)
Definition find_name (p : string -> bool) (l : list string) : option string :=
  List.find p l.

(** [itemSchema.properties[p].type] *)
Fixpoint item_prop_type (p : string) (props : list (string * option string))
  : option string :=
  match props with
  | [] => None
  | (k, ty) :: props' => if String.eqb k p then ty else item_prop_type p props'
  end.

(** The property under which a scalar item is wrapped. *)
Definition targetProp (itemSchema : ItemSchema)
    (props : list (string * option string)) : option string :=
  let propNames := props.*1 in
  let requiredProps := default [] (item_required itemSchema) in
  let stringProps :=
    List.filter (fun p => type_is (item_prop_type p props) "string") propNames in
  or_name (or_name (or_name (or_name (or_name (or_name
    (find_name (fun p => str_in p requiredProps) stringProps)
    (find_name (fun p => String.eqb p "type") stringProps))
    (find_name (fun p => String.eqb p "value") stringProps))
    (find_name (fun p => String.eqb p "url") stringProps))
    (find_name (fun p => String.eqb p "name") stringProps))
    (head stringProps))
    (head propNames).

(** [list.push(x)] *)
Definition push {A} (l : list A) (x : A) : list A := (l ++ [x])%list.

(** The callback of [items.map(...)]. *)
Definition wrapItem (itemSchema : ItemSchema) (item : value) : value :=
  if String.eqb (typeof item) "object" then item else
  match item_properties itemSchema with
  | Some props =>
      match targetProp itemSchema props with
      | Some p => if String.eqb p "" then VObj [("value", item)] else VObj [(p, item)]
      | None => VObj [("value", item)]
      end
  | None => VObj [("value", item)]
  end.

(** The wrapping of arguments that are not a record: the block under
    [if (typeof normalized !== 'object' || Array.isArray(normalized))]. *)
Definition wrapArguments (toolName : string) (args normalized : value)
    (warnings : list string) : value * list string :=
  if negb (String.eqb (typeof normalized) "object") || Array_isArray normalized then
    match normalized with
    | VStr s =>
        if includes toolName "scrape" || includes toolName "crawl" then
          (VObj [("url", normalized)],
           push warnings ("Wrapped string as { url: " ++ dquote ++ s ++ dquote ++ " }"))
        else if includes toolName "search" then
          (VObj [("query", normalized)],
           push warnings ("Wrapped string as { query: " ++ dquote ++ s ++ dquote ++ " }"))
        else if includes toolName "extract" then
          (VObj [("urls", Arr [normalized])],
           push warnings ("Wrapped string as { urls: [" ++ dquote ++ s ++ dquote ++ "] }"))
        else
          (VObj [("input", args)],
           push warnings ("Wrapped primitive as { input: ... }"))
    | _ =>
        if Array_isArray args then
          if includes toolName "extract" || includes toolName "batch" then
            (VObj [("urls", args)], push warnings ("Wrapped array as { urls: [...] }"))
          else
            (VObj [("items", args)], push warnings ("Wrapped array as { items: [...] }"))
        else (normalized, warnings)
    end
  else (normalized, warnings).

Section ParameterNormalizer.
Context `{Platform}.

(** One round of the loop over [Object.entries(schema.properties)]. *)
Definition coerceProperty (required : option (list string))
    (acc : value * list string) (entry : string * PropSchema)
  : value * list string :=
  let '(normalized, warnings) := acc in
  let '(key, prop) := entry in
  let value := get normalized key in
  let warnings :=
    if str_in key (default [] required) && is_undefined value
    then push warnings ("Missing required field: " ++ key)
    else warnings in
  match prop_type prop with
  | Some ty =>
      if is_undefined value || String.eqb ty "" then (normalized, warnings) else
      let '(normalized, warnings) :=
        if String.eqb ty "array" && negb (Array_isArray value) then
          (assign normalized key (Arr [value]),
           push warnings ("Coerced " ++ key ++ " to array"))
        else if String.eqb ty "string" && negb (String.eqb (typeof value) "string") then
          (assign normalized key (VStr (ToString value)),
           push warnings ("Coerced " ++ key ++ " to string"))
        else if String.eqb ty "number" && negb (String.eqb (typeof value) "number") then
          let num := ToNumber value in
          if negb (isNaN num)
          then (assign normalized key (VNum num),
                push warnings ("Coerced " ++ key ++ " to number"))
          else (normalized, warnings)
        else if String.eqb ty "boolean" && negb (String.eqb (typeof value) "boolean") then
          (assign normalized key (ToBoolean value),
           push warnings ("Coerced " ++ key ++ " to boolean"))
        else if String.eqb ty "object" && negb (String.eqb (typeof value) "object") then
          (normalized,
           push warnings ("Expected object for " ++ key ++ ", got " ++ typeof value))
        else (normalized, warnings) in
      match get normalized key, prop_items prop with
      | VArr items _, Some itemSchema =>
          if String.eqb ty "array"
             && type_is (item_type itemSchema) "object"
             && Nat.ltb 0 (length items)
             && negb (String.eqb (typeof (index items 0)) "object")
          then
            (assign normalized key (Arr (wrapItem itemSchema <$> items)),
             push warnings ("Wrapped " ++ key ++ " items as objects using schema"))
          else (normalized, warnings)
      | _, _ => (normalized, warnings)
      end
  | None => (normalized, warnings)
  end.

(** [normalizeParameters(toolName, args, schema)] *)
Definition normalizeParameters (toolName : string) (args : value)
    (schema : option Schema) : Normalization :=
  let warnings : list string := [] in
  let normalized := args in
  let '(normalized, warnings) :=
    match args with
    | VNull | VUndefined =>
        (VObj [], push warnings ("Args was null/undefined, using empty object"))
    | _ => (normalized, warnings)
    end in
  let '(normalized, warnings) := wrapArguments toolName args normalized warnings in
  let '(normalized, warnings) :=
    match JSON_parse (template (JSON_stringify normalized)) with
    | Some clone => (clone, warnings)
    | None => (normalized, push warnings ("Failed to clone args, using original"))
    end in
  let '(normalized, warnings) :=
    match schema with
    | Some sch =>
        match properties sch with
        | Some props => foldl (coerceProperty (required sch)) (normalized, warnings) props
        | None => (normalized, warnings)
        end
    | None => (normalized, warnings)
    end in
  {| normalized := normalized;
     warnings := warnings;
     isValid :=
       Nat.eqb (length (List.filter (fun w => includes w "Missing required") warnings)) 0 |}.

End ParameterNormalizer.

(* ================================================================== *)
(** * Part IV: the MCP tool bridge ([lib/tool-wrapper.ts])             *)
(* ================================================================== *)

(** ** Calls of a tool's [execute] function

    [await tool.execute(args)] is the one effect of the bridge and of the
    monitor.  A program either is done or calls [execute] and continues
    with what the call resolved to or was rejected with. *)
Inductive outcome : Type :=
| Resolved (v : value)
| Rejected (message : string).

Inductive prog (A : Type) : Type :=
| Done (a : A)
| Execute (toolName : string) (args : value) (k : outcome -> prog A).
Arguments Done {A} a.
Arguments Execute {A} toolName args k.

Fixpoint prog_bind {A B} (k : A -> prog B) (p : prog A) : prog B :=
  match p with
  | Done a => k a
  | Execute t a k' => Execute t a (fun o => prog_bind k (k' o))
  end.

#[global] Instance prog_ret : MRet prog := @Done.
#[global] Instance prog_mbind : MBind prog := @prog_bind.

(** Running a program against the tools' behaviour. *)
Fixpoint interp {A} (exec : string -> value -> outcome) (p : prog A) : A :=
  match p with
  | Done a => a
  | Execute t a k => interp exec (k (exec t a))
  end.

(** Whether running the program calls [execute] at all. *)
Definition invokes {A} (p : prog A) : bool :=
  match p with Done _ => false | Execute _ _ _ => true end.

Module Request.
Record t : Type := { toolName : string; args : value; callId : value }.
End Request.

Module Response.
Record t : Type := { callId : value; data : option value; error : option string }.
End Response.

(** [MCPToolCallRecord]; the elapsed time is left out. *)
Module CallRecord.
Record t : Type := {
  toolName : string;
  args : value;
  normalizedArgs : value;
  result : option value;
  rawResult : option value;
  error : option string
}.
End CallRecord.

(** A tool descriptor as the bridge sees it. *)
Record Tool : Type := {
  tool_parameters : option Schema;
  tool_inputSchema : option Schema;
  tool_has_execute : bool
}.

Record MCPToolBridge : Type := {
  mcpTools : gmap string Tool;
  toolSchemas : gmap string Schema;
  learnedOutputSchemas : gmap string value;
  toolCallRecords : list CallRecord.t;
  failedCallSignatures : gmap string nat;
  parameterWarnings : gmap string (list string)
}.

Definition MAX_RETRIES : nat := 3.

(** [s.startsWith(p)] *)
Definition startsWith (s p : string) : bool := String.prefix p s.

(** [new MCPToolBridge(mcpTools)] *)
Definition new_MCPToolBridge (tools : list (string * Tool)) : MCPToolBridge :=
  let kept := List.filter (fun nt => startsWith nt.1 "mcp_") tools in
  {| mcpTools := list_to_map (reverse kept);
     toolSchemas :=
       list_to_map (reverse (omap (fun nt =>
         match tool_parameters nt.2, tool_inputSchema nt.2 with
         | Some s, _ => Some (nt.1, s)
         | None, Some s => Some (nt.1, s)
         | None, None => None
         end) kept));
     learnedOutputSchemas := ∅;
     toolCallRecords := [];
     failedCallSignatures := ∅;
     parameterWarnings := ∅ |}.

(** [getCallSignature(toolName, args)].  [JSON.stringify] does not throw on
    a value of the model, so the [Date.now()] fallback is never taken. *)
Definition getCallSignature (toolName : string) (args : value) : string :=
  toolName ++ ":" ++ template (JSON_stringify args).

(** [inferSchema(value, depth)] *)
Fixpoint inferSchema (v : value) (depth : nat) : value :=
  if Nat.ltb 3 depth then VObj [("type", VStr "any")] else
  match v with
  | VNull => VObj [("type", VStr "null")]
  | VUndefined => VObj [("type", VStr "undefined")]
  | VArr elems _ =>
      VObj [("type", VStr "array");
            ("itemType",
             match elems with
             | x :: _ => inferSchema x (depth + 1)
             | [] => VObj [("type", VStr "unknown")]
             end);
            ("length", VInt (Z.of_nat (length elems)))]
  | VObj fields =>
      VObj [("type", VStr "object");
            ("properties",
             VObj ((fix each (l : list (string * value)) (props : list (string * value)) :=
                      match l with
                      | [] => props
                      | (k, x) :: l' =>
                          if negb (String.eqb k "_raw") && negb (String.eqb k "_normalized")
                          then each l' (set k (inferSchema x (depth + 1)) props)
                          else each l' props
                      end) fields []))]
  | _ => VObj [("type", VStr (typeof v))]
  end.

(** [x > y] on the numbers of the model. *)
Definition num_gt (x y : value) : bool :=
  match x, y with
  | VNum (Num a), VNum (Num b) => Z.ltb b a
  | _, _ => false
  end.

(** [Object.keys(v).length] *)
Definition keys_length (v : value) : nat := length (Object_entries v).

(** [isMoreDetailed(a, b)] *)
Definition isMoreDetailed (a b : value) : bool :=
  if negb (truthy b) then true
  else if is_str (get a "type") "object" && is_str (get b "type") "object" then
    Nat.ltb (keys_length (get b "properties" ||| VObj []))
            (keys_length (get a "properties" ||| VObj []))
  else if is_str (get a "type") "array" && is_str (get b "type") "array" then
    num_gt (get a "length" ||| VInt 0) (get b "length" ||| VInt 0)
  else false.

(** [learnOutputSchema(toolName, response)] on the map of learned schemas. *)
Definition learnOutputSchema (learned : gmap string value) (toolName : string)
    (response : value) : gmap string value :=
  if negb (truthy response) || is_false (get response "success")
     || truthy (get response "error")
  then learned
  else
    let schema := inferSchema response 0 in
    match learned !! toolName with
    | Some existing =>
        if negb (truthy existing) || isMoreDetailed schema existing
        then <[toolName := schema]> learned
        else learned
    | None => <[toolName := schema]> learned
    end.

(** [if (warnings.length > 0) this.parameterWarnings.set(toolName, warnings)] *)
Definition recordWarnings (b : MCPToolBridge) (toolName : string)
    (warnings : list string) : MCPToolBridge :=
  if Nat.ltb 0 (length warnings) then
    {| mcpTools := mcpTools b;
       toolSchemas := toolSchemas b;
       learnedOutputSchemas := learnedOutputSchemas b;
       toolCallRecords := toolCallRecords b;
       failedCallSignatures := failedCallSignatures b;
       parameterWarnings := <[toolName := warnings]> (parameterWarnings b) |}
  else b.

Section Bridge.
Context `{Platform}.

(** The [catch] block of [handleRequest]. *)
Definition handleFailure (b : MCPToolBridge) (request : Request.t)
    (normalized : value) (callSignature : string) (failCount : nat)
    (errorMsg : string) : Response.t * MCPToolBridge :=
  let record :=
    {| CallRecord.toolName := Request.toolName request;
       CallRecord.args := Request.args request;
       CallRecord.normalizedArgs := normalized;
       CallRecord.result := None;
       CallRecord.rawResult := None;
       CallRecord.error := Some errorMsg |} in
  let enhancedError :=
    if includes errorMsg "validation failed" || includes errorMsg "Invalid input"
    then errorMsg ++ ". Original args: "
         ++ template (JSON_stringify (Request.args request))
         ++ ", Normalized: " ++ template (JSON_stringify normalized)
    else errorMsg in
  ({| Response.callId := Request.callId request;
      Response.data := None;
      Response.error := Some enhancedError |},
   {| mcpTools := mcpTools b;
      toolSchemas := toolSchemas b;
      learnedOutputSchemas := learnedOutputSchemas b;
      toolCallRecords := push (toolCallRecords b) record;
      failedCallSignatures := <[callSignature := failCount + 1]> (failedCallSignatures b);
      parameterWarnings := parameterWarnings b |}).

(** The rest of the [try] block once [execute] has resolved. *)
Definition handleSuccess (b : MCPToolBridge) (request : Request.t)
    (normalized : value) (callSignature : string) (failCount : nat)
    (rawResult : value) : Response.t * MCPToolBridge :=
  match transformMCPResponse rawResult with
  | Throw errorMsg => handleFailure b request normalized callSignature failCount errorMsg
  | Normal transformedResult =>
      let record :=
        {| CallRecord.toolName := Request.toolName request;
           CallRecord.args := Request.args request;
           CallRecord.normalizedArgs := normalized;
           CallRecord.result := Some transformedResult;
           CallRecord.rawResult := Some rawResult;
           CallRecord.error := None |} in
      ({| Response.callId := Request.callId request;
          Response.data := Some transformedResult;
          Response.error := None |},
       {| mcpTools := mcpTools b;
          toolSchemas := toolSchemas b;
          learnedOutputSchemas :=
            learnOutputSchema (learnedOutputSchemas b) (Request.toolName request)
                              transformedResult;
          toolCallRecords := push (toolCallRecords b) record;
          failedCallSignatures := delete callSignature (failedCallSignatures b);
          parameterWarnings := parameterWarnings b |})
  end.

(** The normalization [handleRequest] starts with, and the signature it
    computes from the normalized arguments. *)
Definition requestNormalization (b : MCPToolBridge) (request : Request.t)
  : Normalization :=
  normalizeParameters (Request.toolName request) (Request.args request)
                      (toolSchemas b !! Request.toolName request).

Definition requestSignature (b : MCPToolBridge) (request : Request.t) : string :=
  getCallSignature (Request.toolName request)
                   (normalized (requestNormalization b request)).

(** The names that a plain object inherits from [Object.prototype].  What
    [this.mcpTools[name]] finds under one of them is a function or an
    object: truthy, and without [execute]. *)
Definition inheritedNames : list string :=
  ["constructor"; "__defineGetter__"; "__defineSetter__"; "hasOwnProperty";
   "__lookupGetter__"; "__lookupSetter__"; "isPrototypeOf";
   "propertyIsEnumerable"; "toString"; "valueOf"; "__proto__"; "toLocaleString"].

(** The error of [handleRequest] for a name that is no own property of
    [this.mcpTools]. *)
Definition missingToolMessage (name : string) : string :=
  if str_in name inheritedNames
  then "MCP tool " ++ name ++ " has no execute function"
  else "Unknown MCP tool: " ++ name.

(** [handleRequest(request)].  [mcpTools] holds the own properties of
    [this.mcpTools]. *)
Definition handleRequest (b : MCPToolBridge) (request : Request.t)
  : prog (Response.t * MCPToolBridge) :=
  let n := requestNormalization b request in
  let b := recordWarnings b (Request.toolName request) (warnings n) in
  let callSignature := getCallSignature (Request.toolName request) (normalized n) in
  let failCount := default 0 (failedCallSignatures b !! callSignature) in
  if Nat.leb MAX_RETRIES failCount then
    Done ({| Response.callId := Request.callId request;
             Response.data := None;
             Response.error :=
               Some ("Tool " ++ Request.toolName request ++ " failed "
                     ++ pretty failCount
                     ++ " times with same parameters. Check parameter format.") |},
          b)
  else
    match mcpTools b !! Request.toolName request with
    | None =>
        Done (handleFailure b request (normalized n) callSignature failCount
                (missingToolMessage (Request.toolName request)))
    | Some tool =>
        if negb (tool_has_execute tool) then
          Done (handleFailure b request (normalized n) callSignature failCount
                  ("MCP tool " ++ Request.toolName request
                   ++ " has no execute function"))
        else
          Execute (Request.toolName request) (normalized n) (fun o =>
            match o with
            | Resolved rawResult =>
                Done (handleSuccess b request (normalized n) callSignature
                                    failCount rawResult)
            | Rejected errorMsg =>
                Done (handleFailure b request (normalized n) callSignature
                                    failCount errorMsg)
            end)
    end.

(** [reset()] *)
Definition bridge_reset (b : MCPToolBridge) : MCPToolBridge :=
  {| mcpTools := mcpTools b;
     toolSchemas := toolSchemas b;
     learnedOutputSchemas := learnedOutputSchemas b;
     toolCallRecords := [];
     failedCallSignatures := ∅;
     parameterWarnings := ∅ |}.

End Bridge.

(* ================================================================== *)
(** * Part V: the sandbox controller (the package's [sandbox])         *)
(* ================================================================== *)

(** [ToolCallRecord]; [result] is [undefined] until it is set, the elapsed
    time is left out. *)
Module ToolCall.
Record t : Type := {
  toolName : string;
  args : value;
  result : value;
  error : option string;
  isMCP : bool
}.
End ToolCall.

Record ToolOrchestrationSandbox : Type := {
  toolCalls : list ToolCall.t;
  toolRegistry : gset string;
  timeout : Z;
  mcpBridge : option MCPToolBridge
}.

Definition with_toolCalls (this : ToolOrchestrationSandbox)
    (calls : list ToolCall.t) : ToolOrchestrationSandbox :=
  {| toolCalls := calls;
     toolRegistry := toolRegistry this;
     timeout := timeout this;
     mcpBridge := mcpBridge this |}.

Definition with_mcpBridge (this : ToolOrchestrationSandbox)
    (b : MCPToolBridge) : ToolOrchestrationSandbox :=
  {| toolCalls := toolCalls this;
     toolRegistry := toolRegistry this;
     timeout := timeout this;
     mcpBridge := Some b |}.

(** ** The worker's scratch directory and the commands run on it *)

Abbreviation Files := (gmap string string).

Definition str_le (a b : string) : Prop := String.leb a b = true.

#[global] Instance str_le_dec (a b : string) : Decision (str_le a b).
Proof. unfold str_le. apply _. Defined.

(** A path matches [<pre>*.json]. *)
Definition glob_match (pre p : string) : bool :=
  match strip_prefix pre p with
  | Some rest => endsWith rest ".json" && negb (includes rest "/")
  | None => false
  end.

(** [ls <pre>*.json 2>/dev/null || echo ""], split into lines: the
    matching paths in [ls]'s (byte) order. *)
Definition ls (pre : string) (fs : Files) : list string :=
  merge_sort str_le (List.filter (glob_match pre) (map_to_list fs).*1).

(** [cat path]: the standard output is empty when the file is missing. *)
Definition cat (fs : Files) (path : string) : string :=
  default "" (fs !! path).

(** [bash -c "cat > path << 'RESULT_EOF'\n text \nRESULT_EOF"]: the lines
    of a here-document with a quoted delimiter are taken literally; [text]
    is one line of JSON. *)
Definition heredocCommand (path text : string) : string :=
  "cat > " ++ path ++ " << 'RESULT_EOF'" ++ newline ++ text ++ newline ++ "RESULT_EOF".

Definition write_heredoc (path text : string) (fs : Files) : Files :=
  <[path := text ++ newline]> fs.

(** [bash -c "echo 'text' > path"].  Within single quotes every character
    is literal and no single quote can occur: when [text] has one, the
    quoted word ends there and the shell does not receive the intended
    command.  If the quoting of the script is then left open
    ([shQuoting]), the shell rejects the script and nothing is written;
    otherwise what it runs depends on the text, which the model does not
    follow.  In both cases [write_echo] leaves the files as they are; the
    statements about the monitor are made for error texts without single
    quotes. *)
Definition echoCommand (text path : string) : string :=
  "echo '" ++ text ++ "' > " ++ path.

Definition write_echo (text path : string) (fs : Files) : Files :=
  if includes text "'" then fs else <[path := text ++ newline]> fs.

(** The quoting state of a POSIX shell after it has read a text: outside
    quotes a backslash escapes the next character and a quote opens a
    quoted part; single quotes end at the next single quote; double quotes
    end at the next double quote that no backslash escapes.  A script that
    ends inside quotes is rejected as a whole. *)
Inductive quoting : Type :=
| Unquoted
| SingleQuoted
| DoubleQuoted.

Fixpoint shQuoting (state : quoting) (escaped : bool) (s : string) : quoting :=
  match s with
  | EmptyString => state
  | String c s' =>
      match state with
      | SingleQuoted =>
          if Ascii.eqb c "'"%char then shQuoting Unquoted false s'
          else shQuoting SingleQuoted false s'
      | Unquoted =>
          if escaped then shQuoting Unquoted false s'
          else if Ascii.eqb c "\"%char then shQuoting Unquoted true s'
          else if Ascii.eqb c "'"%char then shQuoting SingleQuoted false s'
          else if Ascii.eqb c "034"%char then shQuoting DoubleQuoted false s'
          else shQuoting Unquoted false s'
      | DoubleQuoted =>
          if escaped then shQuoting DoubleQuoted false s'
          else if Ascii.eqb c "\"%char then shQuoting DoubleQuoted true s'
          else if Ascii.eqb c "034"%char then shQuoting Unquoted false s'
          else shQuoting DoubleQuoted false s'
      end
  end.

(** The word a POSIX shell reads from a text that opens with a single
    quote: everything up to the next single quote. *)
Fixpoint until_quote (s : string) : option string :=
  match s with
  | EmptyString => None
  | String c s' =>
      if Ascii.eqb c "'"%char then Some ""
      else w ← until_quote s'; Some (String c w)
  end.

Definition first_quoted_word (command : string) : option string :=
  match strip_prefix "echo '" command with
  | Some rest => until_quote rest
  | None => None
  end.

(** The two response envelopes. *)
Definition dataEnvelope (result : value) : string :=
  template (JSON_stringify (VObj [("data", result)])).

Definition errorEnvelope (message : string) : string :=
  template (JSON_stringify (VObj [("error", VStr message)])).

(** [for (const x of xs) { await body(x) }] *)
Fixpoint forEach {S X} (body : S -> X -> prog S) (s : S) (xs : list X) : prog S :=
  match xs with
  | [] => Done s
  | x :: xs' => s' ← body s x; forEach body s' xs'
  end.

(** The arguments a spread call [toolFn(...args)] passes, when [args] is
    iterable. *)
Definition spread_args (args : value) : option value :=
  match args with
  | VArr elems _ => Some (Arr elems)
  | VStr s => Some (Arr ((fun c => VStr (String c "")) <$> String.list_ascii_of_string s))
  | _ => None
  end.

Section Sandbox.
Context `{Platform}.

(** [processLocalToolCall(sandbox, filePath)].  The source pushes the call
    record before the call and fills in [result] or [error] after it; the
    model appends the completed record. *)
Definition processLocalToolCall (st : ToolOrchestrationSandbox * Files)
    (filePath : string) : prog (ToolOrchestrationSandbox * Files) :=
  let '(this, fs) := st in
  match JSON_parse (cat fs filePath) with
  | None => Done st
  | Some callData =>
      match get_checked callData "toolName" with
      | Normal (VStr name) =>
          if bool_decide (name ∈ toolRegistry this) then
            let resultPath := replace "tool_call_" "tool_result_" filePath in
            let failed (message : string) :=
              (with_toolCalls this
                 (push (toolCalls this)
                    {| ToolCall.toolName := name;
                       ToolCall.args := get callData "args";
                       ToolCall.result := VUndefined;
                       ToolCall.error := Some message;
                       ToolCall.isMCP := false |}),
               write_echo (errorEnvelope message) resultPath fs) in
            match spread_args (get callData "args") with
            | Some args =>
                Execute name args (fun o =>
                  match o with
                  | Resolved result =>
                      Done (with_toolCalls this
                              (push (toolCalls this)
                                 {| ToolCall.toolName := name;
                                    ToolCall.args := get callData "args";
                                    ToolCall.result := result;
                                    ToolCall.error := None;
                                    ToolCall.isMCP := false |}),
                            write_heredoc resultPath (dataEnvelope result) fs)
                  | Rejected message => Done (failed message)
                  end)
            | None => Done (failed "callData.args is not iterable")
            end
          else Done st
      | _ => Done st
      end
  end.

(** [processMCPToolCall(sandbox, filePath)]; a tool name that is not a
    string is used as a string, as a property key is. *)
Definition processMCPToolCall (st : ToolOrchestrationSandbox * Files)
    (filePath : string) : prog (ToolOrchestrationSandbox * Files) :=
  let '(this, fs) := st in
  match mcpBridge this with
  | None => Done st
  | Some bridge =>
      match JSON_parse (cat fs filePath) with
      | None => Done st
      | Some callData =>
          match get_checked callData "toolName" with
          | Throw _ => Done st
          | Normal toolName =>
              let name := ToString toolName in
              let resultPath := replace "mcp_call_" "mcp_result_" filePath in
              '(response, bridge') ←
                handleRequest bridge
                  {| Request.toolName := name;
                     Request.args := get callData "args";
                     Request.callId := get callData "callId" |};
              let this := with_mcpBridge this bridge' in
              match Response.error response with
              | Some message =>
                  if String.eqb message "" then
                    Done (with_toolCalls this
                            (push (toolCalls this)
                               {| ToolCall.toolName := name;
                                  ToolCall.args := get callData "args";
                                  ToolCall.result := VUndefined;
                                  ToolCall.error := None;
                                  ToolCall.isMCP := true |}),
                          write_heredoc resultPath (dataEnvelope VUndefined) fs)
                  else
                    Done (with_toolCalls this
                            (push (toolCalls this)
                               {| ToolCall.toolName := name;
                                  ToolCall.args := get callData "args";
                                  ToolCall.result := VUndefined;
                                  ToolCall.error := Some message;
                                  ToolCall.isMCP := true |}),
                          write_echo (errorEnvelope message) resultPath fs)
              | None =>
                  let data := default VUndefined (Response.data response) in
                  Done (with_toolCalls this
                          (push (toolCalls this)
                             {| ToolCall.toolName := name;
                                ToolCall.args := get callData "args";
                                ToolCall.result := data;
                                ToolCall.error := None;
                                ToolCall.isMCP := true |}),
                        write_heredoc resultPath (dataEnvelope data) fs)
              end
          end
      end
  end.

(** One round of the loop of [monitorToolCalls]. *)
Definition monitorTick (st : ToolOrchestrationSandbox * Files)
  : prog (ToolOrchestrationSandbox * Files) :=
  st ← forEach processLocalToolCall st (ls "/tmp/tool_call_" st.2);
  match mcpBridge st.1 with
  | Some _ => forEach processMCPToolCall st (ls "/tmp/mcp_call_" st.2)
  | None => Done st
  end.

(** ** The generated stubs, on the worker's side *)

(** [__executeLocalTool]: the request is written once. *)
Definition stubRequestLocal (callId toolName : string) (args : value)
    (fs : Files) : Files :=
  <["/tmp/tool_call_" ++ callId ++ ".json" :=
      template (JSON_stringify
        (VObj [("toolName", VStr toolName); ("args", args);
               ("type", VStr "local")]))]> fs.

(** One round of the stub's polling loop: [None] while the response file
    is missing, else both files are deleted and the call returns or
    throws. *)
Definition stubPollLocal (callId : string) (fs : Files)
  : Files * option (completion value) :=
  let callFile := "/tmp/tool_call_" ++ callId ++ ".json" in
  let resultFile := "/tmp/tool_result_" ++ callId ++ ".json" in
  match fs !! resultFile with
  | None => (fs, None)
  | Some resultData =>
      (delete resultFile (delete callFile fs),
       Some (match JSON_parse resultData with
             | None => Throw "Unexpected token in JSON"
             | Some result =>
                 e ← get_checked result "error";
                 if truthy e then Throw (ToString e)
                 else Normal (get result "data")
             end))
  end.

End Sandbox.

(** ** The savings accountant *)

#[local] Open Scope Z_scope.

Record TokenSavings : Type := {
  intermediateResultTokens : Z;
  roundTripContextTokens : Z;
  toolCallOverheadTokens : Z;
  llmDecisionTokens : Z;
  totalSaved : Z;
  breakdown : string;
  mcpToolCalls : Z;
  localToolCalls : Z
}.

(** [Math.ceil(JSON.stringify(result).length / 4)] *)
Definition tokensOf (result : value) : Z :=
  (Z.of_nat (js_length (template (JSON_stringify result))) + 3) `div` 4.

(** [getIntermedateTokenEstimate()] *)
Definition getIntermedateTokenEstimate (this : ToolOrchestrationSandbox) : Z :=
  foldl (fun estimate call =>
           if truthy (ToolCall.result call)
           then estimate + tokensOf (ToolCall.result call)
           else estimate)
        0 (toolCalls this).

(** The sizes pushed onto [resultSizes]. *)
Definition resultSizesOf (calls : list ToolCall.t) : list Z :=
  omap (fun call =>
          if truthy (ToolCall.result call)
          then Some (tokensOf (ToolCall.result call))
          else None) calls.

(** [resultSizes[i - 1] || 50] *)
Definition sizeOr50 (resultSizes : list Z) (i : nat) : Z :=
  match resultSizes !! (i - 1)%nat with
  | Some size => if Z.eqb size 0 then 50 else size
  | None => 50
  end.

(** The loop [for (let i = 1; i < numCalls; i++)], as a fold over the
    indices, on the pair of [roundTripContextTokens] and
    [accumulatedResults]. *)
Definition roundTripLoop (baseContextTokens : Z) (resultSizes : list Z)
    (numCalls : nat) : Z * Z :=
  foldl (fun '(roundTrip, accumulated) i =>
           let accumulated := accumulated + sizeOr50 resultSizes i in
           (roundTrip + (baseContextTokens + accumulated), accumulated))
        (0, 0) (seq 1 (numCalls - 1)%nat).

Section Savings.
Context `{Platform}.

(** [getComprehensiveTokenSavings(baseContextTokens = 7000)] *)
Definition getComprehensiveTokenSavings (this : ToolOrchestrationSandbox)
    (baseContextTokens : Z) : TokenSavings :=
  let numCalls := length (toolCalls this) in
  let mcpCalls := length (List.filter ToolCall.isMCP (toolCalls this)) in
  let localCalls := Z.of_nat numCalls - Z.of_nat mcpCalls in
  if Nat.leb numCalls 1%nat then
    {| intermediateResultTokens := 0;
       roundTripContextTokens := 0;
       toolCallOverheadTokens := 0;
       llmDecisionTokens := 0;
       totalSaved := 0;
       breakdown := "No savings (single tool call)";
       mcpToolCalls := Z.of_nat mcpCalls;
       localToolCalls := localCalls |}
  else
    let resultSizes := resultSizesOf (toolCalls this) in
    let intermediateResultTokens := foldl Z.add 0 resultSizes in
    let roundTripContextTokens :=
      (roundTripLoop baseContextTokens resultSizes numCalls).1 in
    let toolCallOverheadTokens := Z.of_nat numCalls * 40 in
    let llmDecisionTokens := (Z.of_nat numCalls - 1) * 80 in
    let totalSaved :=
      intermediateResultTokens + roundTripContextTokens
      + toolCallOverheadTokens + llmDecisionTokens in
    {| intermediateResultTokens := intermediateResultTokens;
       roundTripContextTokens := roundTripContextTokens;
       toolCallOverheadTokens := toolCallOverheadTokens;
       llmDecisionTokens := llmDecisionTokens;
       totalSaved := totalSaved;
       breakdown :=
         join newline
           [pretty numCalls ++ " tool calls executed in sandbox ("
              ++ pretty localCalls ++ " local, " ++ pretty mcpCalls ++ " MCP)";
            "├─ Intermediate results not sent to LLM: "
              ++ toLocaleString intermediateResultTokens ++ " tokens";
            "├─ Context re-sends avoided: "
              ++ toLocaleString roundTripContextTokens ++ " tokens";
            "├─ Tool call JSON overhead avoided: "
              ++ toLocaleString toolCallOverheadTokens ++ " tokens";
            "└─ LLM decision outputs avoided: "
              ++ toLocaleString llmDecisionTokens ++ " tokens"];
       mcpToolCalls := Z.of_nat mcpCalls;
       localToolCalls := localCalls |}.

(** The token accounting of the metadata that [createCodeExecutionTool]
    returns; the tool-name sets, the elapsed time and the call summaries
    are left out. *)
Record TokenSavingsBreakdown : Type := {
  intermediateResults : Z;
  roundTripContext : Z;
  toolCallOverhead : Z;
  llmDecisions : Z
}.

Record CodeExecutionMetadata : Type := {
  toolCallCount : Z;
  localToolCallCount : Z;
  mcpToolCallCount : Z;
  intermediateTokensSaved : Z;
  totalTokensSaved : Z;
  tokenSavingsBreakdown : TokenSavingsBreakdown;
  savingsExplanation : string
}.

Definition codeExecutionMetadata (this : ToolOrchestrationSandbox)
  : CodeExecutionMetadata :=
  let toolCalls := toolCalls this in
  let mcpCalls := List.filter ToolCall.isMCP toolCalls in
  let localCalls := List.filter (fun tc => negb (ToolCall.isMCP tc)) toolCalls in
  let tokenSavings := getComprehensiveTokenSavings this 7000 in
  {| toolCallCount := Z.of_nat (length toolCalls);
     localToolCallCount := Z.of_nat (length localCalls);
     mcpToolCallCount := Z.of_nat (length mcpCalls);
     intermediateTokensSaved := intermediateResultTokens tokenSavings;
     totalTokensSaved := totalSaved tokenSavings;
     tokenSavingsBreakdown :=
       {| intermediateResults := intermediateResultTokens tokenSavings;
          roundTripContext := roundTripContextTokens tokenSavings;
          toolCallOverhead := toolCallOverheadTokens tokenSavings;
          llmDecisions := llmDecisionTokens tokenSavings |};
     savingsExplanation := breakdown tokenSavings |}.

End Savings.

(* ================================================================== *)
(** * Part VI: the context filter (the package's [context-manager])    *)
(* ================================================================== *)

(** [CoreMessage]: a role and a content that is a string or an array of
    parts (objects). *)
Module CoreMessage.
Record t : Type := { role : string; content : value }.
End CoreMessage.

Record ContextManager : Type := {
  messageHistory : list CoreMessage.t;
  tokensSaved : Z
}.

Definition new_ContextManager : ContextManager :=
  {| messageHistory := []; tokensSaved := 0 |}.

(** [estimateTokens(message)] *)
Definition estimateTokens (message : CoreMessage.t) : Z :=
  tokensOf (CoreMessage.content message).

Section ContextFilter.
Context `{Platform}.

(** The callback of [message.content.some(...)], part by part up to the
    first part that matches; reading [part.type] throws when the part is
    [null] or [undefined]. *)
Fixpoint someCodeExecution (parts : list value) : completion bool :=
  match parts with
  | [] => Normal false
  | part :: rest =>
      ty ← get_checked part "type";
      if is_str ty "tool-result" && is_str (get part "toolName") "code_execution"
      then Normal true
      else someCodeExecution rest
  end.

(** The test of the [tool] branch of [addMessage]; what [JSON.parse] and
    the reading of [parsed.toolName] throw is caught there, what the
    callback of [some] throws is not. *)
Definition codeExecutionTest (message : CoreMessage.t) : completion bool :=
  match CoreMessage.content message with
  | VStr text =>
      Normal (match JSON_parse text with
              | Some parsed =>
                  match get_checked parsed "toolName" with
                  | Normal toolName => is_str toolName "code_execution"
                  | Throw _ => false
                  end
              | None => false
              end)
  | VArr parts _ => someCodeExecution parts
  | _ => Normal false
  end.

(** The test finds a [code_execution] result. *)
Definition isCodeExecution (message : CoreMessage.t) : bool :=
  match codeExecutionTest message with
  | Normal found => found
  | Throw _ => false
  end.

(** [addMessage(message, options)], with [options?.isCodeExecutionResult]
    as a boolean: the manager after the call, and how the call ends.  An
    exception of the test leaves the manager as it was. *)
Definition addMessage_call (this : ContextManager) (message : CoreMessage.t)
    (isCodeExecutionResult : bool) : ContextManager * completion unit :=
  if isCodeExecutionResult then
    ({| messageHistory := push (messageHistory this) message;
        tokensSaved := tokensSaved this |}, Normal tt)
  else if String.eqb (CoreMessage.role message) "assistant"
          || String.eqb (CoreMessage.role message) "user" then
    ({| messageHistory := push (messageHistory this) message;
        tokensSaved := tokensSaved this |}, Normal tt)
  else if String.eqb (CoreMessage.role message) "tool" then
    match codeExecutionTest message with
    | Normal true =>
        ({| messageHistory := push (messageHistory this) message;
            tokensSaved := tokensSaved this |}, Normal tt)
    | Normal false =>
        ({| messageHistory := messageHistory this;
            tokensSaved := tokensSaved this + estimateTokens message |}, Normal tt)
    | Throw message => (this, Throw message)
    end
  else (this, Normal tt).

(** The manager after [addMessage(message, options)]. *)
Definition addMessage (this : ContextManager) (message : CoreMessage.t)
    (isCodeExecutionResult : bool) : ContextManager :=
  (addMessage_call this message isCodeExecutionResult).1.

(** A message stream fed to the filter, each message with its option. *)
Definition feed (this : ContextManager) (stream : list (CoreMessage.t * bool))
  : ContextManager :=
  foldl (fun cm mo => addMessage cm mo.1 mo.2) this stream.

End ContextFilter.

(* ================================================================== *)
(** * Part VII: notions used in the statements                         *)
(* ================================================================== *)

(** [typeof v === 'boolean'] *)
Definition is_bool (v : value) : bool :=
  match v with VBool _ => true | _ => false end.

(** [v === null || v === undefined] *)
Definition is_nullish (v : value) : bool :=
  match v with VNull | VUndefined => true | _ => false end.


(** A property of the main data that [Object.assign] copies over
    [result] without spoiling the shape of [items], [success] and [_raw]:
    an [items] that is an array, a [success] that is a boolean, and
    anything but [_raw]. *)
Definition keepsShape (kx : string * value) : bool :=
  if String.eqb kx.1 "items" then Array_isArray kx.2
  else if String.eqb kx.1 "success" then is_bool kx.2
  else negb (String.eqb kx.1 "_raw").

Definition mainDataKeepsShape (m : value) : bool :=
  match m with
  | VObj fields => forallb keepsShape fields
  | _ => true
  end.


(** ** The bridge *)

(** [response.error] is set. *)
Definition isError (response : Response.t) : bool :=
  match Response.error response with Some _ => true | None => false end.

(** [failedCallSignatures.get(signature) || 0] *)
Definition failCountOf (b : MCPToolBridge) (signature : string) : nat :=
  default 0%nat (failedCallSignatures b !! signature).

Section BridgeRuns.
Context `{Platform}.

(** One [await handleRequest(request)] against the tools' behaviour at
    the time of the call. *)
Definition call (b : MCPToolBridge)
    (c : Request.t * (string -> value -> outcome)) : Response.t * MCPToolBridge :=
  interp c.2 (handleRequest b c.1).

(** A sequence of calls, one after the other. *)
Definition runCalls (b : MCPToolBridge)
    (calls : list (Request.t * (string -> value -> outcome))) : MCPToolBridge :=
  foldl (fun b c => (call b c).2) b calls.

(** The number of consecutive failures of calls with the signature [s] at
    the end of a sequence of calls: a call with another signature leaves
    the count, a success of [s] resets it. *)
Fixpoint failureStreak (s : string) (b : MCPToolBridge)
    (calls : list (Request.t * (string -> value -> outcome))) (streak : nat) : nat :=
  match calls with
  | [] => streak
  | c :: rest =>
      failureStreak s (call b c).2 rest
        (if String.eqb (requestSignature b c.1) s
         then (if isError (call b c).1 then S streak else 0%nat)
         else streak)
  end.

End BridgeRuns.

(** What [handleRequest] returns when the circuit is open. *)
Definition circuitOpenResponse (request : Request.t) (failCount : nat) : Response.t :=
  {| Response.callId := Request.callId request;
     Response.data := None;
     Response.error :=
       Some ("Tool " ++ Request.toolName request ++ " failed " ++ pretty failCount
             ++ " times with same parameters. Check parameter format.") |}.

(** Example data: a tool that always fails, and a scraping tool. *)
Definition executableTool : Tool :=
  {| tool_parameters := None; tool_inputSchema := None; tool_has_execute := true |}.

Definition alwaysRejects : string -> value -> outcome :=
  fun _ _ => Rejected "boom".

Definition flakyBridge : MCPToolBridge :=
  new_MCPToolBridge [("mcp_flaky", executableTool)].

Definition flakyRequest : Request.t :=
  {| Request.toolName := "mcp_flaky";
     Request.args := VObj [("x", VInt 1)];
     Request.callId := VStr "mcp_1_a" |}.

Definition scrapeBridge : MCPToolBridge :=
  new_MCPToolBridge [("mcp_firecrawl_scrape", executableTool)].

Definition scrapeRecordRequest : Request.t :=
  {| Request.toolName := "mcp_firecrawl_scrape";
     Request.args := VObj [("url", VStr "x")];
     Request.callId := VStr "mcp_1_a" |}.

Definition scrapeStringRequest : Request.t :=
  {| Request.toolName := "mcp_firecrawl_scrape";
     Request.args := VStr "x";
     Request.callId := VStr "mcp_2_b" |}.

(** ** The context filter *)




Definition toolResultPart (name : string) : value :=
  VObj [("type", VStr "tool-result"); ("toolCallId", VStr "call_1");
        ("toolName", VStr name); ("result", VObj [("id", VStr "1")])].

Section ContextNotions.
Context `{Platform}.

(** The messages that [addMessage] retains. *)
Definition admitted (mo : CoreMessage.t * bool) : bool :=
  mo.2
  || String.eqb (CoreMessage.role mo.1) "assistant"
  || String.eqb (CoreMessage.role mo.1) "user"
  || (String.eqb (CoreMessage.role mo.1) "tool" && isCodeExecution mo.1).

End ContextNotions.

(** ** The savings accountant *)

(** Example data: two local calls with results. *)
Definition userCall (id : string) (score : Z) : ToolCall.t :=
  {| ToolCall.toolName := "getUser";
     ToolCall.args := Arr [VObj [("id", VStr id)]];
     ToolCall.result := VObj [("id", VStr id); ("score", VInt score)];
     ToolCall.error := None;
     ToolCall.isMCP := false |}.

Definition sandboxWith (calls : list ToolCall.t) : ToolOrchestrationSandbox :=
  {| toolCalls := calls;
     toolRegistry := {["getUser"]};
     timeout := 30000;
     mcpBridge := None |}.

(** ** The monitor and the stubs *)

(** The two files of a local call. *)
Definition callFile (callId : string) : string :=
  "/tmp/tool_call_" ++ callId ++ ".json".

Definition resultFile (callId : string) : string :=
  "/tmp/tool_result_" ++ callId ++ ".json".

(** Steps of the stub of one local call and rounds of the monitor, in any
    order: an interleaving. *)
Inductive event : Type :=
| StubRequest (callId toolName : string) (args : value)
| StubPoll (callId : string)
| MonitorTick (exec : string -> value -> outcome).

Section MonitorNotions.
Context `{Platform}.

(** One round of the monitor against the tools' behaviour. *)
Definition tick (exec : string -> value -> outcome)
    (st : ToolOrchestrationSandbox * Files) : ToolOrchestrationSandbox * Files :=
  interp exec (monitorTick st).

Definition step (st : ToolOrchestrationSandbox * Files) (e : event)
  : ToolOrchestrationSandbox * Files :=
  match e with
  | StubRequest callId toolName args => (st.1, stubRequestLocal callId toolName args st.2)
  | StubPoll callId => (st.1, (stubPollLocal callId st.2).1)
  | MonitorTick exec => tick exec st
  end.

Definition run (st : ToolOrchestrationSandbox * Files) (events : list event)
  : ToolOrchestrationSandbox * Files :=
  foldl step st events.

(** A request file that [processLocalToolCall] services: it parses and
    names a registered tool. *)
Definition serviceable (this : ToolOrchestrationSandbox) (fs : Files)
    (path : string) : bool :=
  match JSON_parse (cat fs path) with
  | Some callData =>
      match get_checked callData "toolName" with
      | Normal (VStr name) => bool_decide (name ∈ toolRegistry this)
      | _ => false
      end
  | None => false
  end.

End MonitorNotions.

(** The error envelopes of the tools' failures have no single quote. *)
Definition quoteFree (exec : string -> value -> outcome) : Prop :=
  forall name args message,
    exec name args = Rejected message -> includes (errorEnvelope message) "'" = false.

(** Example data: a tool that returns a user, one that cannot connect. *)
Definition returnsUser : string -> value -> outcome :=
  fun _ _ => Resolved (VObj [("id", VStr "1"); ("score", VInt 10)]).

Definition cannotConnect : string -> value -> outcome :=
  fun _ _ => Rejected "can't connect".

(* ================================================================== *)
(** * Part VII, continued: further functions of the sources             *)
(* ================================================================== *)

(** ** The helpers injected into the worker ([SANDBOX_HELPERS]) *)

(** The elements of an array. *)
Definition elementsOf (v : value) : list value :=
  match v with VArr elems _ => elems | _ => [] end.

(** [toArray(value)] *)
Definition toArray (v : value) : value :=
  match v with
  | VNull | VUndefined => Arr []
  | VArr _ _ => v
  | VObj _ =>
      if Array_isArray (get v "items") then get v "items"
      else if Array_isArray (get v "data") then get v "data"
      else if Array_isArray (get v "results") then get v "results"
      else if Array_isArray (get v "content") then get v "content"
      else Arr [v]
  | _ => Arr [v]
  end.

(** [first(value)] *)
Definition first (v : value) : value :=
  let arr := toArray v in
  if Nat.ltb 0 (length (elementsOf arr)) then index (elementsOf arr) 0 else VNull.

(** [len(value)] *)
Definition len (v : value) : value := get (toArray v) "length".

(** [isSuccess(response)] *)
Definition isSuccess (response : value) : bool :=
  if negb (truthy response) then false
  else if is_false (get response "success") then false
  else if truthy (get response "error") then false
  else if truthy (get response "isError") then false
  else true.

(** [extractData(response)] *)
Definition extractData (response : value) : value :=
  if negb (truthy response) then VNull
  else if negb (is_undefined (get response "data")) then get response "data"
  else if negb (is_undefined (get response "result")) then get response "result"
  else if negb (is_undefined (get response "results")) then get response "results"
  else if negb (is_undefined (get response "items")) then get response "items"
  else if negb (is_undefined (get response "content"))
          && negb (truthy (get response "markdown")) then get response "content"
  else response.

Definition textProps : list string :=
  ["text"; "output"; "stdout"; "content"; "markdown"; "result"; "data"; "value"].

(** The loop over [textProps]: the first property that is a non-empty
    string. *)
Definition firstText (response : value) : option value :=
  List.find (fun x => String.eqb (typeof x) "string" && truthy x)
            ((fun p => get response p) <$> textProps).

(** The own property [k], handed to [f]. *)
Fixpoint assoc_with {A} (k : string) (f : value -> A) (l : list (string * value))
  : option A :=
  match l with
  | [] => None
  | (k', x) :: l' => if String.eqb k' k then Some (f x) else assoc_with k f l'
  end.

(** [extractText(response, defaultValue)]; the call on
    [response.items[0]] is a call on a part of [response]. *)
Fixpoint extractText (response defaultValue : value) {struct response} : value :=
  if negb (truthy response) then defaultValue else
  match response with
  | VStr _ => response
  | _ =>
      match firstText response with
      | Some text => text
      | None =>
          let onItems (items : value) : option value :=
            match items with
            | VArr (item :: _) _ => Some (extractText item defaultValue)
            | _ => None
            end in
          let fromItems :=
            match response with
            | VObj fields => mjoin (assoc_with "items" onItems fields)
            | VArr _ own => mjoin (assoc_with "items" onItems own)
            | _ => None
            end in
          match fromItems with
          | Some text => text
          | None =>
              if String.eqb (typeof response) "object" then
                match JSON_stringify response with
                | Some s => VStr s
                | None => VUndefined
                end
              else VStr (ToString response) ||| defaultValue
          end
      end
  end.

(** [getCommandOutput(response)] *)
Definition getCommandOutput (response : value) : value :=
  if negb (truthy response) then
    VObj [("success", VBool false); ("output", VStr ""); ("error", VStr "No response")]
  else
    VObj [("success", VBool (isSuccess response));
          ("output", extractText response (VStr ""));
          ("error", get response "error" ||| get response "stderr" ||| VStr "")].

(** ** More of the context manager ([context-manager]) *)

(** [createToolExecutionSummary(toolName, result)]: reading
    [result.metadata] throws a [TypeError] when [result] is [null]. *)
Definition createToolExecutionSummary (toolName : string) (result : value)
  : completion string :=
  if String.eqb (typeof result) "object" then
    metadata ← get_checked result "metadata";
    if truthy metadata then
      Normal ("Executed " ++ toolName ++ ": "
              ++ ToString (get metadata "toolCallCount" ||| VInt 0)
              ++ " tool calls, saved "
              ++ ToString (get metadata "intermediateTokensSaved" ||| VInt 0)
              ++ " tokens")
    else Normal ("Executed " ++ toolName)
  else Normal ("Executed " ++ toolName).

(** The values a [for ... of] loop visits; [None] when the value is not
    iterable. *)
Definition iterate (v : value) : option (list value) :=
  match v with
  | VArr elems _ => Some elems
  | VStr s => Some ((fun c => VStr (String c "")) <$> String.list_ascii_of_string s)
  | _ => None
  end.

(** The message [withContextManagement] builds from a tool result. *)
Definition toolResultMessage (toolResult : value) : CoreMessage.t :=
  {| CoreMessage.role := "tool";
     CoreMessage.content :=
       Arr [VObj ([("type", VStr "tool-result");
                   ("toolCallId", get toolResult "toolCallId");
                   ("toolName", get toolResult "toolName")]
                  ++ (if is_undefined (get toolResult "result") then []
                      else [("result", get toolResult "result")]))] |}.

Section ContextSteps.
Context `{Platform}.

(** The loop over [step.toolResults]; an exception leaves the messages
    added so far in place. *)
Fixpoint addToolResults (this : ContextManager) (toolResults : list value)
  : ContextManager * completion unit :=
  match toolResults with
  | [] => (this, Normal tt)
  | toolResult :: rest =>
      match get_checked toolResult "toolName" with
      | Throw message => (this, Throw message)
      | Normal toolName =>
          let this :=
            if is_str toolName "code_execution"
            then addMessage this (toolResultMessage toolResult) true
            else this in
          addToolResults this rest
      end
  end.

(** The [onStepFinish] that [withContextManagement] returns, up to the
    call of the user's own [onStepFinish] that ends it. *)
Definition onStepFinish (this : ContextManager) (step : value)
  : ContextManager * completion unit :=
  match get_checked step "text" with
  | Throw message => (this, Throw message)
  | Normal text =>
      let this :=
        if truthy text
        then addMessage this {| CoreMessage.role := "assistant";
                                CoreMessage.content := text |} false
        else this in
      let toolResults := get step "toolResults" in
      if truthy toolResults then
        match iterate toolResults with
        | Some results => addToolResults this results
        | None => (this, Throw "step.toolResults is not iterable")
        end
      else (this, Normal tt)
  end.

(** A run of steps, each through [onStepFinish]. *)
Definition onSteps (this : ContextManager) (steps : list value) : ContextManager :=
  foldl (fun cm step => (onStepFinish cm step).1) this steps.

(** A [tool] message that [addMessage] drops and counts. *)
Definition dropped (mo : CoreMessage.t * bool) : bool :=
  negb mo.2 && String.eqb (CoreMessage.role mo.1) "tool"
  && match codeExecutionTest mo.1 with Normal false => true | _ => false end.

End ContextSteps.

(** The content of a message is a string or an array of parts. *)
Definition contentTyped (message : CoreMessage.t) : Prop :=
  typeof (CoreMessage.content message) = "string"
  \/ Array_isArray (CoreMessage.content message) = true.

(** ** The parameter normalizer before and after the schema loop *)


(** The arguments and the warnings of [normalizeParameters] after the
    replacement of [null] and the wrapping, before the deep clone. *)
Definition wrappedArguments (toolName : string) (args : value)
  : value * list string :=
  let '(normalized, warnings) :=
    match args with
    | VNull | VUndefined =>
        (VObj [], push [] ("Args was null/undefined, using empty object"))
    | _ => (args, [])
    end in
  wrapArguments toolName args normalized warnings.

(** The test of [isValid] on a list of warnings. *)
Definition noneMissing (warnings : list string) : bool :=
  Nat.eqb (length (List.filter (fun w => includes w "Missing required") warnings)) 0.

Section ParameterNotions.
Context `{Platform}.

(** The arguments and the warnings of [normalizeParameters] when it
    reaches the schema: after the replacement of [null], the wrapping and
    the deep clone. *)
Definition preparedArguments (toolName : string) (args : value)
  : value * list string :=
  let '(normalized, warnings) :=
    match args with
    | VNull | VUndefined =>
        (VObj [], push [] ("Args was null/undefined, using empty object"))
    | _ => (args, [])
    end in
  let '(normalized, warnings) := wrapArguments toolName args normalized warnings in
  match JSON_parse (template (JSON_stringify normalized)) with
  | Some clone => (clone, warnings)
  | None => (normalized, push warnings ("Failed to clone args, using original"))
  end.


End ParameterNotions.

(** The declared names of a schema among its required ones. *)
Definition declaredRequired (sch : Schema) : option (list string) :=
  match properties sch with
  | Some props =>
      Some (List.filter (fun k => str_in k props.*1) (default [] (required sch)))
  | None => None
  end.




(** ** More of the bridge *)

(** [getTokenEstimate()] of the bridge *)
Definition bridge_getTokenEstimate (b : MCPToolBridge) : Z :=
  foldl (fun estimate record =>
           match CallRecord.result record with
           | Some result =>
               if truthy result then estimate + tokensOf result else estimate
           | None => estimate
           end)
        0 (toolCallRecords b).

(** [isMCPTool(toolName)] *)
Definition isMCPTool (b : MCPToolBridge) (toolName : string) : bool :=
  startsWith toolName "mcp_" && bool_decide (is_Some (mcpTools b !! toolName)).

(** ** [executeBatch]: calls in flight together

    [Promise.all(requests.map(req => this.handleRequest(req)))] starts
    every call before any of them is resumed: an [async] function runs
    up to its first [await] when it is called, and its rest runs when the
    awaited promise has settled.  [handleRequest] awaits once, what
    [tool.execute(normalized)] returns; the call of [execute] itself stands
    inside the [try] and before the [await]. *)

(** What a call of [tool.execute(normalized)] comes to: it throws before it
    returns, and the [catch] of [handleRequest] runs at once; or it returns
    a promise (or a value), which is awaited and settles later. *)
Inductive called : Type :=
| Threw (message : string)
| Promised (settles : outcome).

(** What the [try] of [handleRequest] sees of it in the end: an exception
    thrown at the call and a rejected promise are caught alike. *)
Definition outcomeOf (c : called) : outcome :=
  match c with
  | Threw message => Rejected message
  | Promised settles => settles
  end.

(** The tools as a call that runs to its end sees them. *)
Definition awaited (tools : string -> value -> called) : string -> value -> outcome :=
  fun toolName args => outcomeOf (tools toolName args).

(** Tools that never throw at the call, as [async] functions do not. *)
Definition promised (exec : string -> value -> outcome) : string -> value -> called :=
  fun toolName args => Promised (exec toolName args).

(** What a call that is waiting holds on to: the values it computed
    before the [await], and what the promise settles to. *)
Record Pending : Type := {
  pending_request : Request.t;
  pending_normalized : value;
  pending_callSignature : string;
  pending_failCount : nat;
  pending_outcome : outcome
}.

(** A call at its first [await]: it has returned already, or it waits. *)
Inductive started : Type :=
| Returned (response : Response.t)
| Awaiting (p : Pending).

(** What a started call is to its request. *)
Definition startedFor (request : Request.t) (s : started) : Prop :=
  match s with
  | Returned response => Response.callId response = Request.callId request
  | Awaiting p => pending_request p = request
  end.

(** The answer of the call with the index [i]. *)
Fixpoint answerOf (i : nat) (answers : list (nat * Response.t)) : option Response.t :=
  match answers with
  | [] => None
  | (j, response) :: rest => if Nat.eqb j i then Some response else answerOf i rest
  end.

(** The calls that wait, with their indices. *)
Definition pendingOf (calls : list started) : list (nat * Pending) :=
  omap id (imap (fun i s => match s with
                            | Awaiting p => Some (i, p)
                            | Returned _ => None
                            end) calls).

Section Batch.
Context `{Platform}.

(** [handleRequest] up to its [await]. *)
Definition handleRequest_start (tools : string -> value -> called)
    (b : MCPToolBridge) (request : Request.t) : started * MCPToolBridge :=
  let n := requestNormalization b request in
  let b := recordWarnings b (Request.toolName request) (warnings n) in
  let callSignature := getCallSignature (Request.toolName request) (normalized n) in
  let failCount := default 0%nat (failedCallSignatures b !! callSignature) in
  if Nat.leb MAX_RETRIES failCount then
    (Returned {| Response.callId := Request.callId request;
                 Response.data := None;
                 Response.error :=
                   Some ("Tool " ++ Request.toolName request ++ " failed "
                         ++ pretty failCount
                         ++ " times with same parameters. Check parameter format.") |},
     b)
  else
    let failed (message : string) :=
      let '(response, b) :=
        handleFailure b request (normalized n) callSignature failCount message in
      (Returned response, b) in
    match mcpTools b !! Request.toolName request with
    | None => failed (missingToolMessage (Request.toolName request))
    | Some tool =>
        if negb (tool_has_execute tool) then
          failed ("MCP tool " ++ Request.toolName request ++ " has no execute function")
        else
          match tools (Request.toolName request) (normalized n) with
          | Threw message => failed message
          | Promised settles =>
              (Awaiting {| pending_request := request;
                           pending_normalized := normalized n;
                           pending_callSignature := callSignature;
                           pending_failCount := failCount;
                           pending_outcome := settles |},
               b)
          end
    end.

(** [handleRequest] from its [await] on, on the bridge as it is then. *)
Definition handleRequest_resume (b : MCPToolBridge) (p : Pending)
  : Response.t * MCPToolBridge :=
  match pending_outcome p with
  | Resolved rawResult =>
      handleSuccess b (pending_request p) (pending_normalized p)
                    (pending_callSignature p) (pending_failCount p) rawResult
  | Rejected errorMsg =>
      handleFailure b (pending_request p) (pending_normalized p)
                    (pending_callSignature p) (pending_failCount p) errorMsg
  end.

(** [requests.map(req => this.handleRequest(req))]: every call is started,
    in the order of the requests. *)
Definition batchStart (tools : string -> value -> called) (b : MCPToolBridge)
    (requests : list Request.t) : list started * MCPToolBridge :=
  foldl (fun '(calls, b) request =>
           let '(s, b) := handleRequest_start tools b request in
           (push calls s, b))
        ([], b) requests.

(** The calls that wait are resumed in the order [settled] in which their
    promises settle. *)
Definition batchSettle (b : MCPToolBridge) (settled : list (nat * Pending))
  : list (nat * Response.t) * MCPToolBridge :=
  foldl (fun '(answers, b) '(i, p) =>
           let '(response, b) := handleRequest_resume b p in
           (push answers (i, response), b))
        ([], b) settled.

(** What [Promise.all] resolves to: the responses in the order of the
    requests; [None] while a call still waits. *)
Definition batchResponses (calls : list started) (answers : list (nat * Response.t))
  : option (list Response.t) :=
  mapM id (imap (fun i s => match s with
                            | Returned response => Some response
                            | Awaiting _ => answerOf i answers
                            end) calls).

(** [executeBatch(requests)], for promises that settle in the order
    [settled]. *)
Definition executeBatch (tools : string -> value -> called) (b : MCPToolBridge)
    (requests : list Request.t) (settled : list (nat * Pending))
  : option (list Response.t) * MCPToolBridge :=
  let '(calls, b) := batchStart tools b requests in
  let '(answers, b) := batchSettle b settled in
  (batchResponses calls answers, b).

(** The waiting call of a request whose tool has returned a promise. *)
Definition pendingFor (tools : string -> value -> called) (b : MCPToolBridge)
    (request : Request.t) : Pending :=
  {| pending_request := request;
     pending_normalized := normalized (requestNormalization b request);
     pending_callSignature := requestSignature b request;
     pending_failCount := failCountOf b (requestSignature b request);
     pending_outcome :=
       outcomeOf (tools (Request.toolName request)
                        (normalized (requestNormalization b request))) |}.

(** An order in which the promises of a batch can settle. *)
Definition settleOrder (tools : string -> value -> called) (b : MCPToolBridge)
    (requests : list Request.t) (settled : list (nat * Pending)) : Prop :=
  settled ≡ₚ pendingOf (batchStart tools b requests).1.

End Batch.

(** Example data: a tool that throws when it is called. *)
Definition alwaysThrows : string -> value -> called :=
  fun _ _ => Threw "boom".

(** ** The stub of an MCP tool, on the worker's side *)

Definition mcpCallFile (callId : string) : string :=
  "/tmp/mcp_call_" ++ callId ++ ".json".

Definition mcpResultFile (callId : string) : string :=
  "/tmp/mcp_result_" ++ callId ++ ".json".

Section MCPStub.
Context `{Platform}.

(** [__executeMCPTool]: the request is written once. *)
Definition stubRequestMCP (callId toolName : string) (args : value)
    (fs : Files) : Files :=
  <["/tmp/mcp_call_" ++ callId ++ ".json" :=
      template (JSON_stringify
        (VObj [("toolName", VStr toolName); ("args", args);
               ("callId", VStr callId); ("type", VStr "mcp")]))]> fs.

(** One round of its polling loop. *)
Definition stubPollMCP (callId : string) (fs : Files)
  : Files * option (completion value) :=
  let callFile := "/tmp/mcp_call_" ++ callId ++ ".json" in
  let resultFile := "/tmp/mcp_result_" ++ callId ++ ".json" in
  match fs !! resultFile with
  | None => (fs, None)
  | Some resultData =>
      (delete resultFile (delete callFile fs),
       Some (match JSON_parse resultData with
             | None => Throw "Unexpected token in JSON"
             | Some result =>
                 e ← get_checked result "error";
                 if truthy e then Throw (ToString e)
                 else Normal (get result "data")
             end))
  end.

End MCPStub.

(** The request a local stub writes, and the one an MCP stub writes. *)
Definition localRequest (toolName : string) (args : value) : value :=
  VObj [("toolName", VStr toolName); ("args", args); ("type", VStr "local")].

Definition mcpRequest (callId toolName : string) (args : value) : value :=
  VObj [("toolName", VStr toolName); ("args", args);
        ("callId", VStr callId); ("type", VStr "mcp")].

(** Example data: a sandbox with a bridge, and a tool that answers with an
    MCP envelope. *)
Definition mcpSandbox : ToolOrchestrationSandbox :=
  {| toolCalls := [];
     toolRegistry := ∅;
     timeout := 30000;
     mcpBridge := Some scrapeBridge |}.

Definition answersFortyTwo : string -> value -> outcome :=
  fun _ _ => Resolved (VObj [("content", Arr [VObj [("type", VStr "text");
                                                    ("text", VStr "42")]])]).

(** ** The wrapper ([ProgrammaticToolCaller]) and the MCP servers *)

(** [createMCPBridge(allTools)]; every entry is a tool object. *)
Definition createMCPBridge (allTools : list (string * Tool)) : option MCPToolBridge :=
  let mcpTools := List.filter (fun nt => startsWith nt.1 "mcp_") allTools in
  if Nat.eqb (length mcpTools) 0 then None
  else Some (new_MCPToolBridge mcpTools).

(** [getToolNames()], as a set: the order of the names is left out. *)
Definition getToolNames (b : MCPToolBridge) : gset string := dom (mcpTools b).

(** The wrapper: the names of its local tools in the order of the tools,
    the names of its MCP tools as a set, and its sandbox with the
    registry of the local tools and the bridge. *)
Record ProgrammaticToolCaller : Type := {
  caller_tools : list (string * Tool);
  localToolNames : list string;
  mcpToolNames : gset string;
  sandbox : ToolOrchestrationSandbox
}.

(** [new ProgrammaticToolCaller(tools, timeout)] *)
Definition new_ProgrammaticToolCaller (tools : list (string * Tool)) (timeout : Z)
  : ProgrammaticToolCaller :=
  let mcpBridge := createMCPBridge tools in
  let localToolNames :=
    (List.filter (fun nt => tool_has_execute nt.2 && negb (startsWith nt.1 "mcp_"))
                 tools).*1 in
  {| caller_tools := tools;
     localToolNames := localToolNames;
     mcpToolNames := match mcpBridge with
                     | Some bridge => getToolNames bridge
                     | None => ∅
                     end;
     sandbox := {| toolCalls := [];
                   toolRegistry := list_to_set localToolNames;
                   timeout := timeout;
                   mcpBridge := mcpBridge |} |}.

(** [hasMCPTools()], [getMCPBridge()] *)
Definition hasMCPTools (w : ProgrammaticToolCaller) : bool :=
  bool_decide (mcpToolNames w <> ∅).

Definition getMCPBridge (w : ProgrammaticToolCaller) : option MCPToolBridge :=
  mcpBridge (sandbox w).

(** The name [getMCPClientTools] gives a tool. *)
Definition prefixedName (name : string) : string :=
  if startsWith name "mcp_" then name else "mcp_" ++ name.

(** [getMCPClientTools(client, serverName)] on the tools the client
    lists. *)
Definition getMCPClientTools (tools : list (string * Tool)) : gmap string Tool :=
  foldl (fun prefixedTools nt => <[prefixedName nt.1 := nt.2]> prefixedTools) ∅ tools.

(** [MCPServerManager]: for every connected server its tools (the client
    is left out), and the tools of all of them. *)
Record MCPServerManager : Type := {
  connections : gmap string (gmap string Tool);
  allTools : gmap string Tool;
  initialized : bool
}.

Definition new_MCPServerManager : MCPServerManager :=
  {| connections := ∅; allTools := ∅; initialized := false |}.

(** What connecting to a server comes to: the tools its client lists, or
    the message of the error that [createMCPClientFromConfig] or
    [client.tools()] threw. *)
Definition connecting : Type := list (string * Tool) + string.

(** [addServer(config)] *)
Definition addServer (this : MCPServerManager) (name : string) (c : connecting)
  : MCPServerManager * completion unit :=
  if bool_decide (is_Some (connections this !! name)) then (this, Normal tt)
  else
    match c with
    | inl listed =>
        let tools := getMCPClientTools listed in
        ({| connections := <[name := tools]> (connections this);
            allTools := tools ∪ allTools this;
            initialized := initialized this |},
         Normal tt)
    | inr message =>
        (this, Throw ("Failed to add server " ++ name ++ ": " ++ message))
    end.

(** [removeServer(name)] *)
Definition removeServer (this : MCPServerManager) (name : string) : MCPServerManager :=
  match connections this !! name with
  | None => this
  | Some tools =>
      {| connections := delete name (connections this);
         allTools := allTools this ∖ tools;
         initialized := initialized this |}
  end.

(** [close()] *)
Definition closeManager (this : MCPServerManager) : MCPServerManager :=
  {| connections := ∅; allTools := ∅; initialized := false |}.

(** [initialize()] for the configured servers, each with what connecting
    to it comes to. *)
Definition initialize (this : MCPServerManager) (servers : list (string * connecting))
  : MCPServerManager :=
  if initialized this then this
  else
    let this := foldl (fun m sc => (addServer m sc.1 sc.2).1) this servers in
    {| connections := connections this;
       allTools := allTools this;
       initialized := true |}.

(** [reload()] *)
Definition reload (this : MCPServerManager) (servers : list (string * connecting))
  : MCPServerManager :=
  initialize (closeManager this) servers.

(** The calls of a manager's methods. *)
Inductive managerCall : Type :=
| Initialize (servers : list (string * connecting))
| AddServer (name : string) (c : connecting)
| RemoveServer (name : string)
| Close
| Reload (servers : list (string * connecting)).

Definition managerStep (this : MCPServerManager) (c : managerCall) : MCPServerManager :=
  match c with
  | Initialize servers => initialize this servers
  | AddServer name c => (addServer this name c).1
  | RemoveServer name => removeServer this name
  | Close => closeManager this
  | Reload servers => reload this servers
  end.

(** Example data: a local tool, an MCP tool, and an entry without an
    [execute] function; the tools a client lists. *)
Definition describedOnly : Tool :=
  {| tool_parameters := None; tool_inputSchema := None; tool_has_execute := false |}.

Definition mixedTools : list (string * Tool) :=
  [("getUser", executableTool); ("mcp_firecrawl_scrape", executableTool);
   ("notes", describedOnly)].

Definition listedTools : list (string * Tool) :=
  [("firecrawl_scrape", executableTool); ("mcp_search", executableTool)].

(** ** The first and the last lines of the sandbox's [execute] *)

(** [reset()], which is also how [execute] starts: the calls of the
    sandbox and the state of its bridge are cleared. *)
Definition ToolOrchestrationSandbox_reset (this : ToolOrchestrationSandbox)
  : ToolOrchestrationSandbox :=
  {| toolCalls := [];
     toolRegistry := toolRegistry this;
     timeout := timeout this;
     mcpBridge := bridge_reset <$> mcpBridge this |}.

(** [{...record, isMCP: true}]: the call that the end of [execute] makes of
    a record of the bridge.  [normalizedArgs] and [rawResult], for which a
    call of the sandbox has no reader, are left out. *)
Definition mergedCall (record : CallRecord.t) : ToolCall.t :=
  {| ToolCall.toolName := CallRecord.toolName record;
     ToolCall.args := CallRecord.args record;
     ToolCall.result := default VUndefined (CallRecord.result record);
     ToolCall.error := CallRecord.error record;
     ToolCall.isMCP := true |}.

(** The test of [this.toolCalls.find(...)] in that loop. *)
Definition sameMCPTool (record : CallRecord.t) (tc : ToolCall.t) : bool :=
  String.eqb (ToolCall.toolName tc) (CallRecord.toolName record) && ToolCall.isMCP tc.

(** One turn of the loop over [mcpRecords]. *)
Definition mergeRecord (calls : list ToolCall.t) (record : CallRecord.t)
  : list ToolCall.t :=
  match List.find (sameMCPTool record) calls with
  | Some _ => calls
  | None => push calls (mergedCall record)
  end.

(** The end of [execute]: the records of the bridge are merged into the
    calls of the sandbox. *)
Definition mergeBridgeRecords (this : ToolOrchestrationSandbox)
  : ToolOrchestrationSandbox :=
  match mcpBridge this with
  | Some bridge =>
      with_toolCalls this (foldl mergeRecord (toolCalls this) (toolCallRecords bridge))
  | None => this
  end.

(** Example data: a sandbox with a local tool and a bridge, and the files
    of one local and one MCP request. *)
Definition mixedSandbox : ToolOrchestrationSandbox :=
  {| toolCalls := [];
     toolRegistry := {["getUser"]};
     timeout := 30000;
     mcpBridge := Some scrapeBridge |}.

(** The sandbox with the MCP calls only, or with the local calls only. *)
Definition onlyCalls (keep : ToolCall.t -> bool) (this : ToolOrchestrationSandbox)
  : ToolOrchestrationSandbox :=
  with_toolCalls this (List.filter keep (toolCalls this)).

Definition isLocal (tc : ToolCall.t) : bool := negb (ToolCall.isMCP tc).

Section ExecuteNotions.
Context `{Platform}.

(** Rounds of the monitor, each against the tools' behaviour and the
    files that the worker has left in the scratch directory by then. *)
Definition monitored (this : ToolOrchestrationSandbox)
    (rounds : list ((string -> value -> outcome) * Files))
  : ToolOrchestrationSandbox :=
  foldl (fun this round => (tick round.1 (this, round.2)).1) this rounds.

(** Every record of the bridge has an MCP call of its tool among the calls
    of the sandbox, and there are no more records than MCP calls. *)
Definition recordsCovered (this : ToolOrchestrationSandbox) : Prop :=
  forall bridge, mcpBridge this = Some bridge ->
    (length (toolCallRecords bridge)
     <= length (List.filter ToolCall.isMCP (toolCalls this)))%nat
    /\ forall record, record ∈ toolCallRecords bridge ->
         exists tc, tc ∈ toolCalls this /\ sameMCPTool record tc = true.

(** The estimates of the sandbox over its MCP calls and of its bridge are
    the same number. *)
Definition estimatesAgree (this : ToolOrchestrationSandbox) : Prop :=
  getIntermedateTokenEstimate (onlyCalls ToolCall.isMCP this)
  = default 0 (bridge_getTokenEstimate <$> mcpBridge this).

End ExecuteNotions.
(* ================================================================== *)
(** * Part VIII: the properties                                        *)
(* ================================================================== *)

(** ** Property lists *)

Lemma assoc_set (k k' : string) (x : value) (l : list (string * value)) :
  assoc k' (set k x l) = if String.eqb k k' then Some x else assoc k' l.
Proof.
  induction l as [|[k0 y] l IH]; simpl.
  - rewrite String.eqb_sym. reflexivity.
  - destruct (String.eqb k0 k) eqn:E0; simpl.
    + apply String.eqb_eq in E0. subst k0.
      destruct (String.eqb k k'); reflexivity.
    + rewrite IH. destruct (String.eqb k0 k') eqn:E1; [|reflexivity].
      apply String.eqb_eq in E1. subst k0. rewrite String.eqb_sym, E0. reflexivity.
Qed.

Lemma Object_assign_invariant (R : option value -> Prop) (k : string)
    (source target : list (string * value)) :
  R (assoc k target) ->
  (forall v, (k, v) ∈ source -> R (Some v)) ->
  R (assoc k (Object_assign target source)).
Proof.
  revert target. induction source as [|[k0 v0] source IH]; intros target Ht Hs.
  - exact Ht.
  - unfold Object_assign. simpl. apply IH.
    + rewrite assoc_set. destruct (String.eqb k0 k) eqn:E; [|exact Ht].
      apply String.eqb_eq in E. subst k0. apply Hs. left.
    + intros v Hv. apply Hs. right. exact Hv.
Qed.

Lemma keepsShape_in (fields : list (string * value)) (k : string) (v : value) :
  forallb keepsShape fields = true -> (k, v) ∈ fields -> keepsShape (k, v) = true.
Proof.
  intros Hall Hin. rewrite forallb_forall in Hall. apply Hall.
  apply list_elem_of_In. exact Hin.
Qed.

Ltac simpl_assoc :=
  repeat (rewrite assoc_set; simpl String.eqb; cbv iota).

Lemma Object_assign_raw (fields target : list (string * value)) (data : value) :
  forallb keepsShape fields = true ->
  assoc "_raw" target = Some data ->
  assoc "_raw" (Object_assign target fields) = Some data.
Proof.
  intros Hall Ht.
  apply (Object_assign_invariant (fun o => o = Some data)); [exact Ht|].
  intros v Hv. apply (keepsShape_in _ _ _ Hall) in Hv. discriminate Hv.
Qed.

Lemma Object_assign_success (fields target : list (string * value)) :
  forallb keepsShape fields = true ->
  (exists b, assoc "success" target = Some (VBool b)) ->
  exists b, assoc "success" (Object_assign target fields) = Some (VBool b).
Proof.
  intros Hall Ht.
  apply (Object_assign_invariant (fun o => exists b, o = Some (VBool b))); [exact Ht|].
  intros v Hv. apply (keepsShape_in _ _ _ Hall) in Hv.
  destruct v; try discriminate Hv. eauto.
Qed.

Lemma Object_assign_items (fields target : list (string * value)) :
  forallb keepsShape fields = true ->
  (exists x, assoc "items" target = Some x /\ Array_isArray x = true) ->
  exists x, assoc "items" (Object_assign target fields) = Some x
            /\ Array_isArray x = true.
Proof.
  intros Hall Ht.
  apply (Object_assign_invariant
           (fun o => exists x, o = Some x /\ Array_isArray x = true)); [exact Ht|].
  intros v Hv. apply (keepsShape_in _ _ _ Hall) in Hv. eauto.
Qed.

Lemma Object_assign_has_key (k : string) (fields target : list (string * value)) :
  has_key k target = true -> has_key k (Object_assign target fields) = true.
Proof.
  unfold has_key. intros Ht.
  apply (Object_assign_invariant
           (fun o => match o with Some _ => true | None => false end = true));
    [exact Ht|reflexivity].
Qed.

Lemma normalizedFields_shape (data : value) :
  (mainDataKeepsShape (mainDataOf data) = true ->
     assoc "_raw" (normalizedFields data) = Some data
     /\ (exists b, assoc "success" (normalizedFields data) = Some (VBool b))
     /\ (exists x, assoc "items" (normalizedFields data) = Some x
                   /\ Array_isArray x = true))
  /\ has_key "success" (normalizedFields data) = true.
Proof.
  unfold normalizedFields.
  destruct (mainDataOf data) as [| | b | n | s | elems own | fields] eqn:Hmain;
    cbv zeta beta iota.
  7: {
    assert (Hkey : forall result, has_key "success" result = true ->
              has_key "success" (Object_assign result fields) = true)
      by (intros; by apply Object_assign_has_key).
    split.
    - intros Hshape. simpl in Hshape.
      destruct (truthy (get data "error")); simpl_assoc;
        (split; [apply Object_assign_raw; [exact Hshape|reflexivity]|]);
        (split; [first [by eauto | apply Object_assign_success; [exact Hshape|by eauto]]|]);
        (apply Object_assign_items; [exact Hshape|by eauto]).
    - unfold has_key in *.
      destruct (truthy (get data "error")); simpl_assoc; [reflexivity|].
      apply Hkey. reflexivity. }
  all: unfold has_key; destruct (truthy (get data "error")); simpl_assoc;
    (split; [intros _; repeat split; eauto|reflexivity]).
Qed.

Section ResponseNormalizerFacts.
Context `{Platform}.



Lemma normalizeResponseStructure_fresh (data : value) :
  is_nullish data = false ->
  truthy (get data "_normalized") = false ->
  normalizeResponseStructure data = VObj (normalizedFields data).
Proof.
  intros Hn Hm. unfold normalizeResponseStructure. rewrite Hm.
  destruct data; try reflexivity; discriminate Hn.
Qed.









End ResponseNormalizerFacts.





(** The same on the structure path: the [content] alias of a normalized
    array is an array, so the result is read as an envelope. *)
Lemma transformMCPResponse_not_idempotent_on_arrays :
  let x := VObj [("data", Arr [VInt 1; VInt 2])] in
  (@transformMCPResponse model_platform x ≫= @transformMCPResponse model_platform)
  <> @transformMCPResponse model_platform x.
Proof. vm_compute. discriminate. Qed.

(** ** The circuit breaker *)

Section BridgeFacts.
Context `{Platform}.

Lemma recordWarnings_keeps (b : MCPToolBridge) (toolName : string) (ws : list string) :
  mcpTools (recordWarnings b toolName ws) = mcpTools b
  /\ toolSchemas (recordWarnings b toolName ws) = toolSchemas b
  /\ learnedOutputSchemas (recordWarnings b toolName ws) = learnedOutputSchemas b
  /\ toolCallRecords (recordWarnings b toolName ws) = toolCallRecords b
  /\ failedCallSignatures (recordWarnings b toolName ws) = failedCallSignatures b.
Proof. unfold recordWarnings. destruct (Nat.ltb _ _); repeat split. Qed.

Lemma handleRequest_blocked (b : MCPToolBridge) (request : Request.t) :
  (MAX_RETRIES <= failCountOf b (requestSignature b request))%nat ->
  handleRequest b request
  = Done (circuitOpenResponse request (failCountOf b (requestSignature b request)),
          recordWarnings b (Request.toolName request)
                         (warnings (requestNormalization b request))).
Proof.
  intros Hle. unfold handleRequest, requestSignature, failCountOf in *.
  destruct (recordWarnings_keeps b (Request.toolName request)
              (warnings (requestNormalization b request))) as (_ & _ & _ & _ & ->).
  apply Nat.leb_le in Hle. rewrite Hle. reflexivity.
Qed.

Lemma call_cases (b : MCPToolBridge) (c : Request.t * (string -> value -> outcome)) :
  let s := requestSignature b c.1 in
  toolSchemas (call b c).2 = toolSchemas b
  /\ ((MAX_RETRIES <= failCountOf b s)%nat
      /\ isError (call b c).1 = true
      /\ failedCallSignatures (call b c).2 = failedCallSignatures b
      \/ (failCountOf b s < MAX_RETRIES)%nat
         /\ isError (call b c).1 = true
         /\ failedCallSignatures (call b c).2
            = <[s := (failCountOf b s + 1)%nat]> (failedCallSignatures b)
      \/ (failCountOf b s < MAX_RETRIES)%nat
         /\ isError (call b c).1 = false
         /\ failedCallSignatures (call b c).2 = delete s (failedCallSignatures b)).
Proof.
  destruct c as [request exec]. unfold call, handleRequest, requestSignature, failCountOf.
  cbn [fst snd].
  set (n := requestNormalization b request).
  set (s := getCallSignature (Request.toolName request) (normalized n)).
  destruct (recordWarnings_keeps b (Request.toolName request) (warnings n))
    as (_ & Hs & _ & _ & Hf).
  set (b1 := recordWarnings b (Request.toolName request) (warnings n)) in *.
  rewrite Hf.
  destruct (Nat.leb MAX_RETRIES (default 0%nat (failedCallSignatures b !! s))) eqn:Hle.
  - apply Nat.leb_le in Hle. cbn [interp fst snd]. split; [exact Hs|]. left. auto.
  - apply Nat.leb_gt in Hle.
    destruct (mcpTools b1 !! Request.toolName request) as [tool|]; cbn [interp].
    + destruct (tool_has_execute tool); cbn [negb interp].
      * destruct (exec _ _) as [rawResult|msg]; cbn [interp].
        -- unfold handleSuccess.
           destruct (transformMCPResponse rawResult);
             cbn [handleFailure fst snd failedCallSignatures toolSchemas isError Response.error];
             rewrite ?Hf; (split; [exact Hs|]); auto.
        -- cbn [handleFailure fst snd failedCallSignatures toolSchemas isError Response.error].
           rewrite Hf. split; [exact Hs|]. auto.
      * cbn [handleFailure fst snd failedCallSignatures toolSchemas isError Response.error].
        rewrite Hf. split; [exact Hs|]. auto.
    + cbn [handleFailure fst snd failedCallSignatures toolSchemas isError Response.error].
      rewrite Hf. split; [exact Hs|]. auto.
Qed.

Lemma requestSignature_schemas (b b' : MCPToolBridge) (request : Request.t) :
  toolSchemas b' = toolSchemas b ->
  requestSignature b' request = requestSignature b request.
Proof.
  intros Hs. unfold requestSignature, requestNormalization. rewrite Hs. reflexivity.
Qed.

Lemma runCalls_schemas (calls : list (Request.t * (string -> value -> outcome)))
    (b : MCPToolBridge) :
  toolSchemas (runCalls b calls) = toolSchemas b.
Proof.
  revert b. induction calls as [|c calls IH]; intros b; [reflexivity|].
  unfold runCalls in *. simpl. rewrite IH. apply call_cases.
Qed.

Lemma failureStreak_counted (s : string)
    (calls : list (Request.t * (string -> value -> outcome)))
    (b : MCPToolBridge) (n : nat) :
  (Nat.min n MAX_RETRIES <= failCountOf b s)%nat ->
  (Nat.min (failureStreak s b calls n) MAX_RETRIES
   <= failCountOf (runCalls b calls) s)%nat.
Proof.
  revert b n. induction calls as [|c calls IH]; intros b n Hn; [exact Hn|].
  simpl. change (runCalls b (c :: calls)) with (runCalls (call b c).2 calls).
  apply IH.
  destruct (call_cases b c) as [_ Hcases]. cbv zeta in Hcases.
  unfold failCountOf in *. unfold MAX_RETRIES in *.
  destruct (String.eqb (requestSignature b c.1) s) eqn:Es.
  - apply String.eqb_eq in Es. rewrite Es in Hcases.
    destruct Hcases as [(Hle & -> & ->)|[(Hlt & -> & ->)|(Hlt & -> & ->)]].
    + revert Hn Hle. generalize (default 0%nat (failedCallSignatures b !! s)). lia.
    + rewrite lookup_insert_eq. cbn [from_option id].
      revert Hn Hlt. generalize (default 0%nat (failedCallSignatures b !! s)). lia.
    + cbn [Nat.min]. lia.
  - apply String.eqb_neq in Es.
    destruct Hcases as [(_ & _ & ->)|[(_ & _ & ->)|(_ & _ & ->)]].
    + exact Hn.
    + rewrite lookup_insert_ne by exact Es. exact Hn.
    + rewrite lookup_delete_ne by exact Es. exact Hn.
Qed.

(** Calls made one after the other, each run to its end before the next
    is started: after [MAX_RETRIES] consecutive failures of calls with one
    signature, the next call with that signature returns an error response
    and [execute] is not called; and a call that succeeds leaves no failure
    count for its signature. *)
Theorem circuit_breaker (b : MCPToolBridge)
    (calls : list (Request.t * (string -> value -> outcome))) (request : Request.t) :
  ((MAX_RETRIES <= failureStreak (requestSignature b request) b calls 0)%nat ->
   invokes (handleRequest (runCalls b calls) request) = false
   /\ exists response b',
        handleRequest (runCalls b calls) request = Done (response, b')
        /\ isError response = true)
  /\ (forall c, isError (call b c).1 = false ->
       failedCallSignatures (call b c).2 !! requestSignature b c.1 = None).
Proof.
  split.
  - intros Hstreak.
    pose proof (failureStreak_counted (requestSignature b request) calls b 0
                  ltac:(simpl; lia)) as Hcount.
    rewrite handleRequest_blocked.
    + split; [reflexivity|]. eexists _, _. split; reflexivity.
    + rewrite (requestSignature_schemas b (runCalls b calls) request
                 (runCalls_schemas calls b)).
      unfold MAX_RETRIES in *. lia.
  - intros c Hok. destruct (call_cases b c) as [_ Hcases]. cbv zeta in Hcases.
    destruct Hcases as [(_ & Hc & _)|[(_ & Hc & _)|(_ & _ & ->)]];
      [congruence|congruence|]. apply lookup_delete_eq.
Qed.

(** C9 (amended): a call that the circuit breaker short-circuits does not
    call [execute], appends no call record and changes no failure count,
    no learned schema and no tool; of the bridge state only the
    parameter warnings of the tool are overwritten, when the normalization
    of this call produced any. *)
Theorem circuit_open_state (b : MCPToolBridge) (request : Request.t) :
  (MAX_RETRIES <= failCountOf b (requestSignature b request))%nat ->
  invokes (handleRequest b request) = false
  /\ exists response b',
       handleRequest b request = Done (response, b')
       /\ isError response = true
       /\ toolCallRecords b' = toolCallRecords b
       /\ failedCallSignatures b' = failedCallSignatures b
       /\ learnedOutputSchemas b' = learnedOutputSchemas b
       /\ mcpTools b' = mcpTools b
       /\ toolSchemas b' = toolSchemas b
       /\ parameterWarnings b'
          = (if Nat.ltb 0 (length (warnings (requestNormalization b request)))
             then <[Request.toolName request :=
                      warnings (requestNormalization b request)]> (parameterWarnings b)
             else parameterWarnings b).
Proof.
  intros Hopen. rewrite (handleRequest_blocked b request Hopen).
  split; [reflexivity|]. eexists _, _. split; [reflexivity|].
  destruct (recordWarnings_keeps b (Request.toolName request)
              (warnings (requestNormalization b request)))
    as (Ht & Hs & Hl & Hr & Hf).
  repeat (split; [by auto|]).
  unfold recordWarnings. destruct (Nat.ltb _ _); reflexivity.
Qed.

End BridgeFacts.

Lemma circuit_breaker_witness :
  invokes (@handleRequest model_platform
             (@runCalls model_platform flakyBridge
                (replicate 3 (flakyRequest, alwaysRejects)))
             flakyRequest) = false
  /\ exists response b',
       @handleRequest model_platform
         (@runCalls model_platform flakyBridge
            (replicate 3 (flakyRequest, alwaysRejects)))
         flakyRequest = Done (response, b')
       /\ isError response = true.
Proof.
  apply (proj1 (@circuit_breaker model_platform flakyBridge
                  (replicate 3 (flakyRequest, alwaysRejects)) flakyRequest)).
  vm_compute. reflexivity.
Defined.

(** C4 (defect of the code): three calls of one request that are in flight
    together, as [executeBatch] starts them, and whose tool returns a
    promise that is rejected.  Each call has read the failure count [0]
    before its [await] and writes [0 + 1] after it, whatever the others
    have written in between: after three consecutive failures with one
    signature the count is [1], and the next call with that signature
    calls [execute] again.  The claim, and the comment [Increment failure
    count for circuit breaker] above the write, promise a count of [3] and
    a call that is refused. *)
Theorem circuit_breaker_misses_overlapping_failures :
  let settled :=
    pendingOf (@batchStart model_platform (promised alwaysRejects) flakyBridge
                 (replicate 3 flakyRequest)).1 in
  let batch :=
    @executeBatch model_platform (promised alwaysRejects) flakyBridge
      (replicate 3 flakyRequest) settled in
  (fun responses : list Response.t => isError <$> responses) <$> batch.1
  = Some [true; true; true]
  /\ length (toolCallRecords batch.2) = 3%nat
  /\ @requestSignature model_platform batch.2 flakyRequest
     = @requestSignature model_platform flakyBridge flakyRequest
  /\ failCountOf batch.2 (@requestSignature model_platform flakyBridge flakyRequest)
     = 1%nat
  /\ invokes (@handleRequest model_platform batch.2 flakyRequest) = true.
Proof. vm_compute. repeat split; reflexivity. Qed.

Lemma circuit_open_state_witness :
  invokes (@handleRequest model_platform
             (@runCalls model_platform flakyBridge
                (replicate 3 (flakyRequest, alwaysRejects)))
             flakyRequest) = false.
Proof.
  apply (@circuit_open_state model_platform
           (@runCalls model_platform flakyBridge
              (replicate 3 (flakyRequest, alwaysRejects)))
           flakyRequest).
  vm_compute. reflexivity.
Defined.

(** C9 as stated fails: the parameter warnings are written before the
    circuit breaker is consulted, so a short-circuited call whose arguments
    needed normalization changes the bridge state. *)
Lemma circuit_open_overwrites_warnings :
  let b := @runCalls model_platform scrapeBridge
             (replicate 3 (scrapeRecordRequest, alwaysRejects)) in
  invokes (@handleRequest model_platform b scrapeStringRequest) = false
  /\ parameterWarnings b !! "mcp_firecrawl_scrape" = None
  /\ exists response b',
       @handleRequest model_platform b scrapeStringRequest = Done (response, b')
       /\ parameterWarnings b' !! "mcp_firecrawl_scrape"
          = Some ["Wrapped string as { url: " ++ dquote ++ "x" ++ dquote ++ " }"].
Proof.
  cbv zeta. split; [vm_compute; reflexivity|]. split; [vm_compute; reflexivity|].
  eexists _, _. split; [vm_compute; reflexivity|]. vm_compute. reflexivity.
Qed.

(** ** The parameter normalizer *)

(** A string is wrapped by the name heuristic, [{url}] for a name
    with [scrape] or [crawl], else [{query}] for [search], else [{urls}]
    for [extract], else [{input}]. *)
Lemma wrapArguments_string (toolName s : string) (ws : list string) :
  (wrapArguments toolName (VStr s) (VStr s) ws).1
  = if includes toolName "scrape" || includes toolName "crawl"
    then VObj [("url", VStr s)]
    else if includes toolName "search" then VObj [("query", VStr s)]
    else if includes toolName "extract" then VObj [("urls", Arr [VStr s])]
    else VObj [("input", VStr s)].
Proof.
  unfold wrapArguments. simpl.
  destruct (includes toolName "scrape" || includes toolName "crawl"); [reflexivity|].
  destruct (includes toolName "search"); [reflexivity|].
  destruct (includes toolName "extract"); reflexivity.
Qed.

(** A number or a boolean is not: the fallback [{ input: args }] stands
    inside the branch for strings. *)
Lemma wrapArguments_number (toolName : string) (n : jsnum) (ws : list string) :
  wrapArguments toolName (VNum n) (VNum n) ws = (VNum n, ws).
Proof. reflexivity. Qed.

Lemma wrapArguments_boolean (toolName : string) (b : bool) (ws : list string) :
  wrapArguments toolName (VBool b) (VBool b) ws = (VBool b, ws).
Proof. reflexivity. Qed.

(** C3 (defect of the code): [normalizeParameters("mcp_calc", 5)] returns
    the number [5] and no warning, where the claim, and the comment above
    the branch, promise the record [{ input: 5 }]. *)
Theorem normalizeParameters_number_not_wrapped :
  @normalizeParameters model_platform "mcp_calc" (VInt 5) None
  = {| normalized := VInt 5; warnings := []; isValid := true |}.
Proof. vm_compute. reflexivity. Qed.

(** ** The context filter *)

Section ContextFacts.
Context `{Platform}.

Lemma addMessage_history (this : ContextManager) (mo : CoreMessage.t * bool) :
  messageHistory (addMessage this mo.1 mo.2)
  = (messageHistory this ++ (if admitted mo then [mo.1] else []))%list.
Proof.
  destruct mo as [m o].
  unfold addMessage, addMessage_call, admitted, isCodeExecution, push.
  simpl.
  destruct o; simpl; [reflexivity|].
  destruct (String.eqb (CoreMessage.role m) "assistant"); simpl; [reflexivity|].
  destruct (String.eqb (CoreMessage.role m) "user"); simpl; [reflexivity|].
  destruct (String.eqb (CoreMessage.role m) "tool"); simpl.
  - destruct (codeExecutionTest m) as [[|]|]; simpl; [reflexivity| |];
      by rewrite app_nil_r.
  - by rewrite app_nil_r.
Qed.




(** C10 (amended): without the [isCodeExecutionResult] option, a message
    whose role is none of [user], [assistant] and [tool] changes neither
    the history nor the counter. *)
Theorem addMessage_other_role (this : ContextManager) (message : CoreMessage.t) :
  CoreMessage.role message <> "user" ->
  CoreMessage.role message <> "assistant" ->
  CoreMessage.role message <> "tool" ->
  addMessage this message false = this.
Proof.
  intros Hu Ha Ht. unfold addMessage, addMessage_call.
  apply String.eqb_neq in Hu, Ha, Ht. rewrite Hu, Ha, Ht. reflexivity.
Qed.

End ContextFacts.



Lemma addMessage_other_role_witness :
  @addMessage model_platform new_ContextManager
    {| CoreMessage.role := "system"; CoreMessage.content := VStr "be brief" |} false
  = new_ContextManager.
Proof.
  apply (@addMessage_other_role model_platform new_ContextManager
           {| CoreMessage.role := "system"; CoreMessage.content := VStr "be brief" |});
    discriminate.
Defined.

(** C10 as stated fails: with the [isCodeExecutionResult] option a message
    of any role is retained. *)
Lemma addMessage_system_with_option :
  @addMessage model_platform new_ContextManager
    {| CoreMessage.role := "system"; CoreMessage.content := VStr "be brief" |} true
  <> new_ContextManager.
Proof. vm_compute. discriminate. Qed.

(** ** The savings accountant *)

Lemma tokensOf_nonneg (result : value) : 0 <= tokensOf result.
Proof. unfold tokensOf. apply Z.div_pos; lia. Qed.

Lemma resultSizesOf_nonneg (calls : list ToolCall.t) :
  Forall (fun size => 0 <= size) (resultSizesOf calls).
Proof.
  induction calls as [|call calls IH]; simpl; [constructor|].
  unfold resultSizesOf in *. simpl.
  destruct (truthy (ToolCall.result call)); simpl; [|exact IH].
  constructor; [apply tokensOf_nonneg|exact IH].
Qed.

Lemma sum_nonneg (sizes : list Z) (start : Z) :
  Forall (fun size => 0 <= size) sizes -> 0 <= start -> 0 <= foldl Z.add start sizes.
Proof.
  revert start. induction sizes as [|size sizes IH]; intros start Hall Hstart; simpl.
  - exact Hstart.
  - inversion Hall; subst. apply IH; [assumption|lia].
Qed.

Lemma sizeOr50_nonneg (sizes : list Z) (i : nat) :
  Forall (fun size => 0 <= size) sizes -> 0 <= sizeOr50 sizes i.
Proof.
  intros Hall. unfold sizeOr50.
  destruct (sizes !! (i - 1)%nat) as [size|] eqn:Hi; [|lia].
  destruct (Z.eqb size 0); [lia|].
  rewrite Forall_forall in Hall. apply Hall.
  eapply list_elem_of_lookup_2. exact Hi.
Qed.

Lemma roundTripLoop_nonneg (base : Z) (sizes : list Z) (numCalls : nat) :
  0 <= base -> Forall (fun size => 0 <= size) sizes ->
  0 <= (roundTripLoop base sizes numCalls).1.
Proof.
  intros Hbase Hall. unfold roundTripLoop.
  assert (Hgen : forall (indices : list nat) (st : Z * Z),
             0 <= st.1 -> 0 <= st.2 ->
             0 <= (foldl (fun '(roundTrip, accumulated) i =>
                            let accumulated := accumulated + sizeOr50 sizes i in
                            (roundTrip + (base + accumulated), accumulated))
                         st indices).1).
  { induction indices as [|i indices IH]; intros [r a] Hr Ha; simpl in *; [exact Hr|].
    pose proof (sizeOr50_nonneg sizes i Hall). apply IH; simpl; lia. }
  apply Hgen; simpl; lia.
Qed.

Section SavingsFacts.
Context `{Platform}.

Lemma getComprehensiveTokenSavings_facts (this : ToolOrchestrationSandbox) (base : Z) :
  0 <= base ->
  let savings := getComprehensiveTokenSavings this base in
  0 <= intermediateResultTokens savings
  /\ 0 <= roundTripContextTokens savings
  /\ 0 <= toolCallOverheadTokens savings
  /\ 0 <= llmDecisionTokens savings
  /\ totalSaved savings
     = intermediateResultTokens savings + roundTripContextTokens savings
       + toolCallOverheadTokens savings + llmDecisionTokens savings
  /\ ((length (toolCalls this) <= 1)%nat ->
      intermediateResultTokens savings = 0
      /\ roundTripContextTokens savings = 0
      /\ toolCallOverheadTokens savings = 0
      /\ llmDecisionTokens savings = 0
      /\ totalSaved savings = 0
      /\ breakdown savings = "No savings (single tool call)").
Proof.
  intros Hbase. unfold getComprehensiveTokenSavings.
  destruct (Nat.leb (length (toolCalls this)) 1) eqn:Hn; cbv zeta; simpl.
  - repeat split; lia.
  - apply Nat.leb_gt in Hn.
    pose proof (resultSizesOf_nonneg (toolCalls this)) as Hsizes.
    pose proof (sum_nonneg _ 0 Hsizes ltac:(lia)).
    pose proof (roundTripLoop_nonneg base _ (length (toolCalls this)) Hbase Hsizes).
    repeat split; try lia.
Qed.

(** The metadata of [code_execution] reports the same numbers. *)
Lemma codeExecutionMetadata_breakdown (this : ToolOrchestrationSandbox) :
  let metadata := codeExecutionMetadata this in
  let parts := tokenSavingsBreakdown metadata in
  0 <= intermediateResults parts /\ 0 <= roundTripContext parts
  /\ 0 <= toolCallOverhead parts /\ 0 <= llmDecisions parts
  /\ totalTokensSaved metadata
     = intermediateResults parts + roundTripContext parts
       + toolCallOverhead parts + llmDecisions parts
  /\ intermediateTokensSaved metadata = intermediateResults parts
  /\ ((length (toolCalls this) <= 1)%nat ->
      totalTokensSaved metadata = 0
      /\ savingsExplanation metadata = "No savings (single tool call)").
Proof.
  cbv zeta. unfold codeExecutionMetadata. simpl.
  destruct (getComprehensiveTokenSavings_facts this 7000 ltac:(lia))
    as (? & ? & ? & ? & ? & Hone).
  do 6 (split; [first [assumption|reflexivity]|]).
  intros Hn. destruct (Hone Hn) as (_ & _ & _ & _ & Htotal & Htext). by split.
Qed.

(** C7: the four categories are non-negative and add up to the reported
    total, for every list of tool calls and every non-negative base
    context estimate (7000 by default); with at most one call all of them
    and the total are zero and the breakdown says so.  The metadata of
    [code_execution] reports these numbers. *)
Theorem token_savings_breakdown (this : ToolOrchestrationSandbox) (base : Z) :
  0 <= base ->
  let savings := getComprehensiveTokenSavings this base in
  let metadata := codeExecutionMetadata this in
  let parts := tokenSavingsBreakdown metadata in
  (0 <= intermediateResultTokens savings
   /\ 0 <= roundTripContextTokens savings
   /\ 0 <= toolCallOverheadTokens savings
   /\ 0 <= llmDecisionTokens savings
   /\ totalSaved savings
      = intermediateResultTokens savings + roundTripContextTokens savings
        + toolCallOverheadTokens savings + llmDecisionTokens savings
   /\ ((length (toolCalls this) <= 1)%nat ->
       intermediateResultTokens savings = 0
       /\ roundTripContextTokens savings = 0
       /\ toolCallOverheadTokens savings = 0
       /\ llmDecisionTokens savings = 0
       /\ totalSaved savings = 0
       /\ breakdown savings = "No savings (single tool call)"))
  /\ (0 <= intermediateResults parts /\ 0 <= roundTripContext parts
      /\ 0 <= toolCallOverhead parts /\ 0 <= llmDecisions parts
      /\ totalTokensSaved metadata
         = intermediateResults parts + roundTripContext parts
           + toolCallOverhead parts + llmDecisions parts
      /\ intermediateTokensSaved metadata = intermediateResults parts
      /\ ((length (toolCalls this) <= 1)%nat ->
          totalTokensSaved metadata = 0
          /\ savingsExplanation metadata = "No savings (single tool call)")).
Proof.
  intros Hbase. split.
  - exact (getComprehensiveTokenSavings_facts this base Hbase).
  - exact (codeExecutionMetadata_breakdown this).
Qed.

End SavingsFacts.

Lemma token_savings_breakdown_witness :
  let savings := @getComprehensiveTokenSavings model_platform
                   (sandboxWith [userCall "1" 10; userCall "2" 20]) 7000 in
  totalSaved savings
  = intermediateResultTokens savings + roundTripContextTokens savings
    + toolCallOverheadTokens savings + llmDecisionTokens savings
  /\ totalSaved savings = 7178.
Proof.
  intros savings. split; [|vm_compute; reflexivity].
  apply (@token_savings_breakdown model_platform
           (sandboxWith [userCall "1" 10; userCall "2" 20]) 7000).
  lia.
Defined.

(** ** The monitor and the stubs *)

Lemma strip_prefix_app (p s rest : string) :
  strip_prefix p s = Some rest -> s = p ++ rest.
Proof.
  revert s. induction p as [|a p IH]; intros s Hs; simpl in *.
  - by injection Hs as ->.
  - destruct s as [|b s]; [discriminate|].
    destruct (Ascii.eqb a b) eqn:E; [|discriminate].
    apply Ascii.eqb_eq in E. subst b.
    change (String a p ++ rest) with (String a (p ++ rest)). f_equal. by apply IH.
Qed.

Lemma glob_match_call (p : string) :
  glob_match "/tmp/tool_call_" p = true ->
  exists rest, p = "/tmp/tool_call_" ++ rest.
Proof.
  unfold glob_match. destruct (strip_prefix _ p) as [rest|] eqn:Hp; [|discriminate].
  intros _. exists rest. by apply strip_prefix_app.
Qed.

Lemma replace_call_result (rest : string) :
  replace "tool_call_" "tool_result_" ("/tmp/tool_call_" ++ rest)
  = "/tmp/tool_result_" ++ rest.
Proof. reflexivity. Qed.

Lemma result_not_call (rest rest' : string) :
  "/tmp/tool_result_" ++ rest <> "/tmp/tool_call_" ++ rest'.
Proof. discriminate. Qed.

Lemma interp_bind {A B} (exec : string -> value -> outcome) (p : prog A)
    (k : A -> prog B) :
  interp exec (p ≫= k) = interp exec (k (interp exec p)).
Proof.
  induction p as [a|t a k' IH]; [reflexivity|].
  simpl. apply IH.
Qed.

Lemma interp_forEach {S X} (exec : string -> value -> outcome)
    (body : S -> X -> prog S) (xs : list X) (s : S) :
  interp exec (forEach body s xs) = foldl (fun s x => interp exec (body s x)) s xs.
Proof.
  revert s. induction xs as [|x xs IH]; intros s; [reflexivity|].
  simpl. rewrite interp_bind. apply IH.
Qed.

Lemma write_heredoc_other (path text q : string) (fs : Files) :
  q <> path -> write_heredoc path text fs !! q = fs !! q.
Proof. intros Hq. unfold write_heredoc. by rewrite lookup_insert_ne. Qed.

Lemma write_echo_other (text path q : string) (fs : Files) :
  q <> path -> write_echo text path fs !! q = fs !! q.
Proof.
  intros Hq. unfold write_echo. destruct (includes text "'"); [reflexivity|].
  by rewrite lookup_insert_ne.
Qed.

Section MonitorFacts.
Context `{Platform}.

Lemma processLocalToolCall_step (exec : string -> value -> outcome)
    (this : ToolOrchestrationSandbox) (fs : Files) (p : string) :
  glob_match "/tmp/tool_call_" p = true ->
  toolRegistry (interp exec (processLocalToolCall (this, fs) p)).1 = toolRegistry this
  /\ mcpBridge (interp exec (processLocalToolCall (this, fs) p)).1 = mcpBridge this
  /\ (forall q, glob_match "/tmp/tool_call_" q = true ->
        (interp exec (processLocalToolCall (this, fs) p)).2 !! q = fs !! q)
  /\ length (toolCalls (interp exec (processLocalToolCall (this, fs) p)).1)
     = (length (toolCalls this) + (if serviceable this fs p then 1 else 0))%nat.
Proof.
  intros Hp. destruct (glob_match_call p Hp) as [rest ->].
  assert (Hother : forall q, glob_match "/tmp/tool_call_" q = true ->
            q <> replace "tool_call_" "tool_result_" ("/tmp/tool_call_" ++ rest)).
  { intros q Hq. destruct (glob_match_call q Hq) as [rest' ->].
    rewrite replace_call_result. intros Heq. by apply (result_not_call rest rest'). }
  unfold processLocalToolCall, serviceable.
  destruct (JSON_parse _) as [callData|]; [|simpl; repeat split; lia].
  destruct (get_checked callData "toolName") as [[| | | |name| |]|];
    try (simpl; repeat split; lia).
  destruct (bool_decide (name ∈ toolRegistry this)); [|simpl; repeat split; lia].
  destruct (spread_args (get callData "args")) as [args|]; simpl.
  - destruct (exec name args) as [result|message]; simpl; unfold push;
      rewrite length_app; simpl; repeat split; try lia; intros q Hq.
    + apply write_heredoc_other, Hother, Hq.
    + apply write_echo_other, Hother, Hq.
  - unfold push. rewrite length_app. simpl. repeat split; try lia; intros q Hq.
    apply write_echo_other, Hother, Hq.
Qed.

Lemma serviceable_ext (this this' : ToolOrchestrationSandbox) (fs fs' : Files)
    (p : string) :
  toolRegistry this' = toolRegistry this -> fs' !! p = fs !! p ->
  serviceable this' fs' p = serviceable this fs p.
Proof. intros Hr Hp. unfold serviceable, cat. rewrite Hr, Hp. reflexivity. Qed.

Lemma forEach_local (exec : string -> value -> outcome) (fs0 : Files)
    (this0 : ToolOrchestrationSandbox) (paths : list string)
    (st : ToolOrchestrationSandbox * Files) :
  Forall (fun p => glob_match "/tmp/tool_call_" p = true) paths ->
  toolRegistry st.1 = toolRegistry this0 ->
  (forall q, glob_match "/tmp/tool_call_" q = true -> st.2 !! q = fs0 !! q) ->
  let st' := foldl (fun s x => interp exec (processLocalToolCall s x)) st paths in
  toolRegistry st'.1 = toolRegistry this0
  /\ mcpBridge st'.1 = mcpBridge st.1
  /\ (forall q, glob_match "/tmp/tool_call_" q = true -> st'.2 !! q = fs0 !! q)
  /\ length (toolCalls st'.1)
     = (length (toolCalls st.1)
        + length (List.filter (serviceable this0 fs0) paths))%nat.
Proof.
  revert st. induction paths as [|p paths IH]; intros [this fs] Hall Hreg Hfs; simpl.
  - repeat split; auto.
  - inversion Hall as [|? ? Hp Hrest]; subst.
    destruct (processLocalToolCall_step exec this fs p Hp) as (Hr & Hb & Hq & Hlen).
    simpl in Hreg, Hfs.
    destruct (IH (interp exec (processLocalToolCall (this, fs) p)) Hrest)
      as (Hr' & Hb' & Hq' & Hlen').
    + by rewrite Hr.
    + intros q Hglob. rewrite Hq by exact Hglob. by apply Hfs.
    + cbv zeta in *. repeat split.
      * exact Hr'.
      * etrans; [exact Hb'|exact Hb].
      * exact Hq'.
      * etrans; [exact Hlen'|]. rewrite Hlen.
        rewrite <- (serviceable_ext this0 this fs0 fs p Hreg (Hfs p Hp)).
        destruct (serviceable this fs p); simpl; lia.
Qed.

Lemma ls_glob (pre : string) (fs : Files) :
  Forall (fun p => glob_match pre p = true) (ls pre fs).
Proof.
  unfold ls. rewrite merge_sort_Permutation.
  apply Forall_forall. intros p Hp.
  apply list_elem_of_In, filter_In in Hp. apply Hp.
Qed.

Lemma elem_of_ls (pre p : string) (fs : Files) :
  p ∈ ls pre fs <-> glob_match pre p = true /\ is_Some (fs !! p).
Proof.
  unfold ls. rewrite merge_sort_Permutation.
  rewrite list_elem_of_In, filter_In, <- list_elem_of_In, list_elem_of_fmap.
  split.
  - intros [([q x] & -> & Hin) Hglob]. apply elem_of_map_to_list in Hin.
    split; [exact Hglob|]. by exists x.
  - intros [Hglob [x Hx]]. split; [|exact Hglob].
    exists (p, x). split; [reflexivity|]. by apply elem_of_map_to_list.
Qed.

Lemma NoDup_ls (pre : string) (fs : Files) : NoDup (ls pre fs).
Proof.
  unfold ls. rewrite merge_sort_Permutation.
  apply NoDup_ListNoDup, List.NoDup_filter, NoDup_ListNoDup, NoDup_fst_map_to_list.
Qed.

Lemma ls_Permutation (pre : string) (fs fs' : Files) :
  (forall q, glob_match pre q = true -> fs' !! q = fs !! q) ->
  ls pre fs' ≡ₚ ls pre fs.
Proof.
  intros Hsame. apply NoDup_Permutation; [apply NoDup_ls|apply NoDup_ls|].
  intros p. rewrite !elem_of_ls. split; intros [Hglob Hp]; (split; [exact Hglob|]).
  - by rewrite <- Hsame.
  - by rewrite Hsame.
Qed.

Lemma filter_Permutation_bool {A} (g : A -> bool) (l l' : list A) :
  l ≡ₚ l' -> List.filter g l ≡ₚ List.filter g l'.
Proof.
  induction 1 as [|x l1 l2 _ IH|x y l1|l1 l2 l3 _ IH1 _ IH2]; simpl.
  - constructor.
  - destruct (g x); [by constructor|exact IH].
  - destruct (g x), (g y); try reflexivity. apply perm_swap.
  - etrans; [exact IH1|exact IH2].
Qed.

Lemma filter_length_ext {A} (f g : A -> bool) (l l' : list A) :
  l ≡ₚ l' -> (forall x, x ∈ l -> f x = g x) ->
  length (List.filter f l) = length (List.filter g l').
Proof.
  intros Hperm Hext. rewrite (List.filter_ext_in f g l).
  - by apply Permutation_length, filter_Permutation_bool.
  - intros x Hx. apply Hext. by apply list_elem_of_In.
Qed.

Lemma result_path_inj (rest rest' : string) :
  "/tmp/tool_result_" ++ rest = "/tmp/tool_result_" ++ rest' -> rest = rest'.
Proof. intros Heq. cbv [String.append] in Heq. by injection Heq. Qed.

Lemma processLocalToolCall_other_result (exec : string -> value -> outcome)
    (this : ToolOrchestrationSandbox) (fs : Files) (p q : string) :
  glob_match "/tmp/tool_call_" p = true ->
  glob_match "/tmp/tool_call_" q = true ->
  q <> p ->
  (interp exec (processLocalToolCall (this, fs) q)).2
    !! replace "tool_call_" "tool_result_" p
  = fs !! replace "tool_call_" "tool_result_" p.
Proof.
  intros Hp Hq Hne.
  destruct (glob_match_call p Hp) as [rest ->].
  destruct (glob_match_call q Hq) as [rest' ->].
  assert (Hother : replace "tool_call_" "tool_result_" ("/tmp/tool_call_" ++ rest)
                   <> replace "tool_call_" "tool_result_" ("/tmp/tool_call_" ++ rest')).
  { rewrite !replace_call_result. intros Heq. apply result_path_inj in Heq.
    congruence. }
  unfold processLocalToolCall.
  destruct (JSON_parse _) as [callData|]; [|reflexivity].
  destruct (get_checked callData "toolName") as [[| | | |name| |]|]; try reflexivity.
  destruct (bool_decide (name ∈ toolRegistry this)); [|reflexivity].
  destruct (spread_args (get callData "args")) as [args|]; cbn [interp].
  - destruct (exec name args) as [result|message]; cbn [interp snd].
    + by apply write_heredoc_other.
    + by apply write_echo_other.
  - cbn [snd]. by apply write_echo_other.
Qed.

Lemma processLocalToolCall_writes (exec : string -> value -> outcome)
    (this : ToolOrchestrationSandbox) (fs : Files) (p name : string)
    (callData args : value) :
  JSON_parse (cat fs p) = Some callData ->
  get_checked callData "toolName" = Normal (VStr name) ->
  name ∈ toolRegistry this ->
  spread_args (get callData "args") = Some args ->
  quoteFree exec ->
  (interp exec (processLocalToolCall (this, fs) p)).2
    !! replace "tool_call_" "tool_result_" p
  = Some (match exec name args with
          | Resolved result => dataEnvelope result
          | Rejected message => errorEnvelope message
          end ++ newline).
Proof.
  intros Hparse Hname Hreg Hargs Hquote. unfold processLocalToolCall.
  rewrite Hparse, Hname, (bool_decide_eq_true_2 _ Hreg), Hargs.
  cbn [interp]. destruct (exec name args) as [result|message] eqn:Hexec;
    cbn [interp snd].
  - unfold write_heredoc. apply lookup_insert_eq.
  - unfold write_echo. rewrite (Hquote _ _ _ Hexec). apply lookup_insert_eq.
Qed.

Lemma forEach_local_response (exec : string -> value -> outcome) (fs0 : Files)
    (this0 : ToolOrchestrationSandbox) (p name : string) (callData args : value)
    (paths : list string) (st : ToolOrchestrationSandbox * Files) :
  quoteFree exec ->
  JSON_parse (cat fs0 p) = Some callData ->
  get_checked callData "toolName" = Normal (VStr name) ->
  name ∈ toolRegistry this0 ->
  spread_args (get callData "args") = Some args ->
  Forall (fun q => glob_match "/tmp/tool_call_" q = true) paths ->
  NoDup paths ->
  p ∈ paths ->
  toolRegistry st.1 = toolRegistry this0 ->
  (forall q, glob_match "/tmp/tool_call_" q = true -> st.2 !! q = fs0 !! q) ->
  (foldl (fun s x => interp exec (processLocalToolCall s x)) st paths).2
    !! replace "tool_call_" "tool_result_" p
  = Some (match exec name args with
          | Resolved result => dataEnvelope result
          | Rejected message => errorEnvelope message
          end ++ newline).
Proof.
  intros Hquote Hparse Hname Hreg Hargs.
  revert st. induction paths as [|q paths IH]; intros [this fs] Hall Hnodup Hin Hr Hfs.
  - by apply not_elem_of_nil in Hin.
  - inversion Hall as [|? ? Hq Hrest]; subst.
    apply NoDup_cons in Hnodup as [Hnotin Hnodup].
    destruct (processLocalToolCall_step exec this fs q Hq) as (Hr' & _ & Hq' & _).
    simpl in Hr, Hfs. simpl.
    apply elem_of_cons in Hin as [->|Hin].
    + (* the request is processed now; the rest leaves its response alone *)
      assert (Hkeep : forall (rest : list string) (st : ToolOrchestrationSandbox * Files),
                Forall (fun q' => glob_match "/tmp/tool_call_" q' = true) rest ->
                q ∉ rest ->
                (foldl (fun s x => interp exec (processLocalToolCall s x)) st rest).2
                  !! replace "tool_call_" "tool_result_" q
                = st.2 !! replace "tool_call_" "tool_result_" q).
      { induction rest as [|q' rest IHrest]; intros [this' fs'] Hall' Hnot; [reflexivity|].
        inversion Hall' as [|? ? Hq'' Hrest']; subst. simpl.
        apply not_elem_of_cons in Hnot as [Hne Hnot].
        rewrite IHrest by assumption.
        apply processLocalToolCall_other_result; auto. }
      rewrite Hkeep by assumption.
      apply (processLocalToolCall_writes exec this fs q name callData args); auto.
      * unfold cat. rewrite (Hfs q Hq). exact Hparse.
      * by rewrite Hr.
    + apply IH; auto.
      * etrans; [exact Hr'|exact Hr].
      * intros q' Hglob. rewrite Hq' by exact Hglob. by apply Hfs.
Qed.

Lemma tick_local (exec : string -> value -> outcome)
    (this : ToolOrchestrationSandbox) (fs : Files) :
  mcpBridge this = None ->
  tick exec (this, fs)
  = foldl (fun s x => interp exec (processLocalToolCall s x)) (this, fs)
          (ls "/tmp/tool_call_" fs).
Proof.
  intros Hnone. unfold tick, monitorTick. rewrite interp_bind, interp_forEach.
  destruct (forEach_local exec fs this (ls "/tmp/tool_call_" fs) (this, fs)
              (ls_glob _ _) eq_refl (fun _ _ => eq_refl))
    as (_ & Hb & _ & _).
  cbv zeta in Hb. cbn [fst snd] in *. rewrite Hb, Hnone. reflexivity.
Qed.

Lemma monitorTick_local (exec : string -> value -> outcome)
    (this : ToolOrchestrationSandbox) (fs : Files) :
  mcpBridge this = None ->
  toolRegistry (tick exec (this, fs)).1 = toolRegistry this
  /\ mcpBridge (tick exec (this, fs)).1 = None
  /\ (forall q, glob_match "/tmp/tool_call_" q = true ->
        (tick exec (this, fs)).2 !! q = fs !! q)
  /\ length (toolCalls (tick exec (this, fs)).1)
     = (length (toolCalls this)
        + length (List.filter (serviceable this fs) (ls "/tmp/tool_call_" fs)))%nat.
Proof.
  intros Hnone. rewrite (tick_local exec this fs Hnone).
  destruct (forEach_local exec fs this (ls "/tmp/tool_call_" fs) (this, fs)
              (ls_glob _ _) eq_refl (fun _ _ => eq_refl))
    as (Hr & Hb & Hq & Hlen).
  cbv zeta in *. cbn [fst snd] in *. rewrite Hnone in Hb. auto.
Qed.

(** C8 (amended): one round of the monitor services every request file it
    lists that parses and names a registered tool, once each, writes the
    response under the request's own identifier, and leaves the request
    files as they are; the host keeps no set of serviced identifiers, so a
    second round with no step of the worker in between services all of
    them again.  Once the stub has found the response it has removed both
    files, and the request is not listed any more.
    (Local calls, tools whose error texts have no single quote.) *)
Theorem monitor_services_what_is_pending (exec exec' : string -> value -> outcome)
    (this : ToolOrchestrationSandbox) (fs : Files) :
  mcpBridge this = None ->
  quoteFree exec -> quoteFree exec' ->
  let pending :=
    length (List.filter (serviceable this fs) (ls "/tmp/tool_call_" fs)) in
  length (toolCalls (tick exec (this, fs)).1) = (length (toolCalls this) + pending)%nat
  /\ (forall p callData name args,
        p ∈ ls "/tmp/tool_call_" fs ->
        JSON_parse (cat fs p) = Some callData ->
        get_checked callData "toolName" = Normal (VStr name) ->
        name ∈ toolRegistry this ->
        spread_args (get callData "args") = Some args ->
        (tick exec (this, fs)).2 !! replace "tool_call_" "tool_result_" p
        = Some (match exec name args with
                | Resolved result => dataEnvelope result
                | Rejected message => errorEnvelope message
                end ++ newline))
  /\ (forall q, glob_match "/tmp/tool_call_" q = true ->
        (tick exec (this, fs)).2 !! q = fs !! q)
  /\ length (toolCalls (tick exec' (tick exec (this, fs))).1)
     = (length (toolCalls this) + 2 * pending)%nat
  /\ (forall callId, is_Some (stubPollLocal callId fs).2 ->
        callFile callId ∉ ls "/tmp/tool_call_" (stubPollLocal callId fs).1).
Proof.
  intros Hnone Hquote _ pending.
  destruct (monitorTick_local exec this fs Hnone) as (Hr & Hb & Hq & Hlen).
  split; [exact Hlen|]. split; [|split; [exact Hq|split]].
  - intros p callData name args Hp Hparse Hname Hreg Hargs.
    rewrite (tick_local exec this fs Hnone).
    apply (forEach_local_response exec fs this p name callData args); auto.
    + apply ls_glob.
    + apply NoDup_ls.
  - destruct (tick exec (this, fs)) as [this' fs'] eqn:Ht. simpl in *.
    destruct (monitorTick_local exec' this' fs' Hb) as (_ & _ & _ & Hlen').
    rewrite Hlen', Hlen.
    rewrite (filter_length_ext (serviceable this' fs') (serviceable this fs)
               (ls "/tmp/tool_call_" fs') (ls "/tmp/tool_call_" fs)).
    + subst pending. lia.
    + by apply ls_Permutation.
    + intros p Hp. apply elem_of_ls in Hp as [Hglob _].
      apply serviceable_ext; [exact Hr|by apply Hq].
  - intros callId Hsome Hin. apply elem_of_ls in Hin as [_ [x Hx]].
    unfold stubPollLocal in *.
    change ("/tmp/tool_call_" ++ callId ++ ".json") with (callFile callId) in *.
    change ("/tmp/tool_result_" ++ callId ++ ".json") with (resultFile callId) in *.
    destruct (fs !! resultFile callId); simpl in *.
    + rewrite lookup_delete_ne, lookup_delete_eq in Hx; [discriminate|].
      unfold resultFile, callFile. discriminate.
    + by destruct Hsome.
Qed.

End MonitorFacts.

Lemma monitor_services_what_is_pending_witness :
  let fs := stubRequestLocal "17-abc" "getUser" (Arr [VObj [("id", VStr "1")]]) ∅ in
  length (toolCalls (@tick model_platform returnsUser (sandboxWith [], fs)).1) = 1%nat
  /\ length (toolCalls (@tick model_platform returnsUser
                          (@tick model_platform returnsUser (sandboxWith [], fs))).1)
     = 2%nat.
Proof.
  intros fs.
  destruct (@monitor_services_what_is_pending model_platform returnsUser returnsUser
              (sandboxWith []) fs eq_refl
              ltac:(intros ? ? ? [=]) ltac:(intros ? ? ? [=]))
    as (Hone & _ & _ & Htwo & _).
  split; [rewrite Hone|rewrite Htwo]; vm_compute; reflexivity.
Defined.

(** C8 as stated fails on the interleaving request, round, round, poll:
    the one request is serviced twice (two calls of the tool, two records,
    the response written twice), and the stub then reads a response, so
    the execution does not fail with a timeout. *)
Lemma monitor_services_request_twice :
  let st := @run model_platform (sandboxWith [], ∅)
              [StubRequest "17-abc" "getUser" (Arr [VObj [("id", VStr "1")]]);
               MonitorTick returnsUser;
               MonitorTick returnsUser] in
  toolCalls st.1 = [userCall "1" 10; userCall "1" 10]
  /\ (@stubPollLocal model_platform "17-abc" st.2).2
     = Some (Normal (VObj [("id", VStr "1"); ("score", VInt 10)])).
Proof. cbv zeta. split; vm_compute; reflexivity. Qed.

(** ** The response files *)

Lemma until_quote_no_quote (s w : string) :
  until_quote s = Some w -> includes w "'" = false.
Proof.
  revert w. induction s as [|c s IH]; intros w; simpl; [discriminate|].
  destruct (Ascii.eqb c "'"%char) eqn:Hc.
  - intros [= <-]. reflexivity.
  - destruct (until_quote s) as [w'|]; simpl; [|discriminate].
    intros [= <-].
    change (includes (String c w') "'")
      with ((if ascii_dec "'"%char c then String.prefix "" w' else false)
            || includes w' "'").
    rewrite (IH w' eq_refl).
    destruct (ascii_dec "'"%char c) as [<-|Hne]; [|reflexivity].
    rewrite Ascii.eqb_refl in Hc. discriminate.
Qed.

(** Whatever the path, the word that the shell reads in quotes from the
    error command is not the envelope as soon as the envelope has a single
    quote. *)
Lemma echoCommand_word (text path : string) :
  includes text "'" = true ->
  first_quoted_word (echoCommand text path) <> Some text.
Proof.
  intros Hq Hw. unfold first_quoted_word, echoCommand in Hw. simpl in Hw.
  apply until_quote_no_quote in Hw. congruence.
Qed.

(** C5 (defect of the code): a local tool throws [can't connect].  The
    command the host runs is [echo '{"error":"can't connect"}' > file]; the
    word the shell reads in quotes ends at the apostrophe and the script
    ends inside quotes, so the shell rejects it: the call is recorded with
    its error and no response file is written. *)
Theorem error_response_with_quote_is_lost :
  let fs := stubRequestLocal "17-abc" "getUser" (Arr [VObj [("id", VStr "1")]]) ∅ in
  let st := @tick model_platform cannotConnect (sandboxWith [], fs) in
  let command := echoCommand (errorEnvelope "can't connect") (resultFile "17-abc") in
  command = "echo '{" ++ quote "error" ++ ":" ++ quote "can't connect"
            ++ "}' > /tmp/tool_result_17-abc.json"
  /\ first_quoted_word command = Some ("{" ++ quote "error" ++ ":" ++ dquote ++ "can")
  /\ shQuoting Unquoted false command = DoubleQuoted
  /\ ToolCall.error <$> toolCalls st.1 = [Some "can't connect"]
  /\ st.2 !! resultFile "17-abc" = None.
Proof. cbv zeta. repeat split; vm_compute; reflexivity. Qed.

(* ================================================================== *)
(** * Part IX: properties of the further functions                     *)
(* ================================================================== *)

(** ** The worker's helpers *)

(** Induction on values through their elementsOf and properties. *)
Lemma value_nested_ind (P : value -> Prop) :
  P VUndefined -> P VNull -> (forall b, P (VBool b)) -> (forall n, P (VNum n)) ->
  (forall s, P (VStr s)) ->
  (forall elems own, Forall P elems -> Forall (fun kx => P kx.2) own ->
     P (VArr elems own)) ->
  (forall fields, Forall (fun kx => P kx.2) fields -> P (VObj fields)) ->
  forall v, P v.
Proof.
  intros Hu Hn Hb Hnum Hs Harr Hobj.
  fix IH 1. intros [| | b | n | s | elems own | fields].
  - exact Hu.
  - exact Hn.
  - apply Hb.
  - apply Hnum.
  - apply Hs.
  - apply Harr.
    + induction elems as [|x elems IHe]; constructor; [apply IH|exact IHe].
    + induction own as [|[k x] own IHo]; constructor; [apply IH|exact IHo].
  - apply Hobj.
    induction fields as [|[k x] fields IHf]; constructor; [apply IH|exact IHf].
Qed.

Lemma assoc_with_assoc {A} (k : string) (f : value -> A) (l : list (string * value)) :
  assoc_with k f l = f <$> assoc k l.
Proof.
  induction l as [|[k' x] l IH]; simpl; [reflexivity|].
  destruct (String.eqb k' k); [reflexivity|exact IH].
Qed.

Lemma assoc_elem_of (k : string) (x : value) (l : list (string * value)) :
  assoc k l = Some x -> (k, x) ∈ l.
Proof.
  induction l as [|[k' y] l IH]; simpl; [discriminate|].
  destruct (String.eqb k' k) eqn:E.
  - apply String.eqb_eq in E. subst k'. intros [= ->]. left.
  - intros Hx. right. apply IH. exact Hx.
Qed.

Lemma toArray_isArray (v : value) : Array_isArray (toArray v) = true.
Proof.
  destruct v as [| | b | n | s | elems own | fields]; try reflexivity.
  unfold toArray.
  repeat match goal with
         | |- context [if Array_isArray ?x then _ else _] =>
             let E := fresh "E" in destruct (Array_isArray x) eqn:E; [exact E|]
         end.
  reflexivity.
Qed.

Lemma toArray_array (v : value) : Array_isArray v = true -> toArray v = v.
Proof. destruct v; try discriminate. reflexivity. Qed.

(** X2: [toArray] always yields an array and leaves an array as it is, so
    applying it twice is applying it once; [len] is the number of its
    elements and [first] its first element, [null] when there is none. *)
Theorem toArray_idempotent (v : value) :
  Array_isArray (toArray v) = true
  /\ toArray (toArray v) = toArray v
  /\ len v = VInt (Z.of_nat (length (elementsOf (toArray v))))
  /\ first v = default VNull (head (elementsOf (toArray v))).
Proof.
  pose proof (toArray_isArray v) as Harr.
  split; [exact Harr|]. split; [apply toArray_array; exact Harr|].
  unfold len, first. destruct (toArray v) as [| | | | | elems own |]; try discriminate Harr.
  split; [reflexivity|]. destruct elems; reflexivity.
Qed.

Lemma Object_assign_absent (k : string) (fields target : list (string * value)) :
  has_key k fields = false ->
  assoc k (Object_assign target fields) = assoc k target.
Proof.
  intros Hk.
  apply (Object_assign_invariant (fun o => o = assoc k target)); [reflexivity|].
  intros v Hv. exfalso. unfold has_key in Hk.
  induction fields as [|[k' y] fields IH]; [inversion Hv|].
  simpl in Hk. destruct (String.eqb k' k) eqn:E; [discriminate|].
  apply elem_of_cons in Hv as [[= -> ->]|Hv].
  - rewrite String.eqb_refl in E. discriminate.
  - exact (IH Hk Hv).
Qed.

Lemma mainDataOf_defined (d : value) :
  is_undefined d = false -> is_undefined (mainDataOf d) = false.
Proof.
  intros Hd. unfold mainDataOf.
  repeat match goal with
         | |- context [if negb (is_undefined ?x) then _ else _] =>
             let E := fresh "E" in destruct (is_undefined x) eqn:E; simpl; [|exact E]
         | |- context [if negb (is_undefined ?x) && ?c then _ else _] =>
             let E := fresh "E" in destruct (is_undefined x) eqn:E; simpl;
               [|destruct c; [exact E|exact Hd]]
         end.
  exact Hd.
Qed.

(** The [items] and [data] of a fresh normalization. *)
Lemma normalizedFields_items (d : value) :
  Array_isArray (mainDataOf d) = true \/ key_in "items" (mainDataOf d) = false ->
  assoc "items" (normalizedFields d)
  = Some (if Array_isArray (mainDataOf d) then mainDataOf d else Arr [mainDataOf d]).
Proof.
  intros Hm. unfold normalizedFields.
  destruct (mainDataOf d) as [| | b | n | s | elems own | fields] eqn:Hmain;
    cbv zeta beta iota.
  7: { destruct Hm as [Hm|Hm]; [discriminate Hm|]. simpl in Hm.
       destruct (truthy (get d "error")); simpl_assoc;
         rewrite (Object_assign_absent _ _ _ Hm); simpl_assoc; reflexivity. }
  all: destruct (truthy (get d "error")); simpl_assoc; reflexivity.
Qed.

Lemma normalizedFields_data (d : value) :
  key_in "data" (mainDataOf d) = false \/ Array_isArray (mainDataOf d) = true ->
  assoc "data" (normalizedFields d) = Some (mainDataOf d).
Proof.
  intros Hm. unfold normalizedFields.
  destruct (mainDataOf d) as [| | b | n | s | elems own | fields] eqn:Hmain;
    cbv zeta beta iota.
  7: { destruct Hm as [Hm|Hm]; [|discriminate Hm]. simpl in Hm.
       destruct (truthy (get d "error")); simpl_assoc;
         rewrite (Object_assign_absent _ _ _ Hm); simpl_assoc; reflexivity. }
  all: destruct (truthy (get d "error")); simpl_assoc; reflexivity.
Qed.

(** X3: on a normalized response [toArray] yields its [items]: no element
    for a response that was [null] or [undefined], else the main data
    itself when that is an array and the one-element array of the main data
    when that has no [items] of its own. *)
Theorem toArray_normalized (d : value) :
  truthy (get d "_normalized") = false ->
  mainDataKeepsShape (mainDataOf d) = true ->
  let r := normalizeResponseStructure d in
  toArray r = get r "items"
  /\ Array_isArray (get r "items") = true
  /\ (is_nullish d = true -> toArray r = Arr [])
  /\ (is_nullish d = false ->
      Array_isArray (mainDataOf d) = true \/ key_in "items" (mainDataOf d) = false ->
      toArray r = if Array_isArray (mainDataOf d) then mainDataOf d
                  else Arr [mainDataOf d]).
Proof.
  intros Hmark Hshape r.
  assert (Hitems : toArray r = get r "items" /\ Array_isArray (get r "items") = true).
  { destruct (is_nullish d) eqn:Hn.
    - subst r. destruct d; try discriminate Hn; split; reflexivity.
    - subst r. rewrite (normalizeResponseStructure_fresh d Hn Hmark).
      destruct (normalizedFields_shape d) as [Hfields _].
      destruct (Hfields Hshape) as (_ & _ & [x [Hx Harr]]).
      unfold toArray, get. rewrite Hx. simpl. rewrite Harr. split; reflexivity. }
  destruct Hitems as [Hto Harr]. split; [exact Hto|]. split; [exact Harr|]. split.
  - intros Hn. subst r. destruct d; try discriminate Hn; reflexivity.
  - intros Hn Hm. rewrite Hto. subst r.
    rewrite (normalizeResponseStructure_fresh d Hn Hmark).
    unfold get. rewrite (normalizedFields_items d Hm). reflexivity.
Qed.

Lemma toArray_normalized_witness :
  toArray (normalizeResponseStructure (VObj [("data", Arr [VInt 1; VInt 2])]))
  = Arr [VInt 1; VInt 2].
Proof.
  pose proof (toArray_normalized (VObj [("data", Arr [VInt 1; VInt 2])])
                eq_refl eq_refl) as (_ & _ & _ & Hto).
  exact (Hto eq_refl (or_introl eq_refl)).
Defined.

(** X4: the worker's [extractData] undoes the wrapping of the host's
    normalizer: on a fresh normalization it yields the main data, unless
    the main data is a record with a [data] of its own (which
    [Object.assign] copies over [result.data]). *)
Theorem extractData_normalized (d : value) :
  is_nullish d = false ->
  truthy (get d "_normalized") = false ->
  key_in "data" (mainDataOf d) = false \/ Array_isArray (mainDataOf d) = true ->
  extractData (normalizeResponseStructure d) = mainDataOf d.
Proof.
  intros Hn Hmark Hm.
  rewrite (normalizeResponseStructure_fresh d Hn Hmark).
  unfold extractData. cbn [truthy negb]. unfold get at 1 2.
  rewrite (normalizedFields_data d Hm). cbn [default from_option id].
  rewrite mainDataOf_defined; [reflexivity|].
  destruct d; try reflexivity; discriminate Hn.
Qed.

Lemma extractData_normalized_witness :
  extractData (normalizeResponseStructure
                 (VObj [("result", VObj [("id", VStr "1")]); ("success", VBool true)]))
  = VObj [("id", VStr "1")].
Proof.
  exact (extractData_normalized
           (VObj [("result", VObj [("id", VStr "1")]); ("success", VBool true)])
           eq_refl eq_refl (or_introl eq_refl)).
Defined.

Lemma normalizedFields_error (d : value) :
  truthy (get d "error") = true ->
  assoc "success" (normalizedFields d) = Some (VBool false)
  /\ assoc "error" (normalizedFields d) = Some (get d "error")
  /\ assoc "stderr" (normalizedFields d) = Some (get d "error").
Proof.
  intros He. unfold normalizedFields. rewrite He.
  destruct (mainDataOf d); cbv zeta beta iota; simpl_assoc; repeat split; reflexivity.
Qed.

(** X5: an error is never masked.  When the raw response has a truthy
    [error], the normalized response fails [isSuccess]; when it is freshly
    normalized, its [success] is [false] and [error] and [stderr] are the
    raw error, whatever the payload carries, and [getCommandOutput] reports
    the failure with that error. *)
Theorem error_never_masked (d : value) :
  truthy (get d "error") = true ->
  let r := normalizeResponseStructure d in
  isSuccess r = false
  /\ (truthy (get d "_normalized") = false ->
      get r "success" = VBool false
      /\ get r "error" = get d "error"
      /\ get r "stderr" = get d "error"
      /\ get (getCommandOutput r) "success" = VBool false
      /\ get (getCommandOutput r) "error" = get d "error").
Proof.
  intros He r.
  assert (Hn : is_nullish d = false) by (destruct d; try reflexivity; discriminate He).
  destruct (truthy (get d "_normalized")) eqn:Hmark.
  - split; [|discriminate]. subst r.
    assert (Hd : normalizeResponseStructure d = d).
    { unfold normalizeResponseStructure. rewrite Hmark.
      destruct d; try discriminate Hn; reflexivity. }
    rewrite Hd. unfold isSuccess. rewrite He.
    destruct (negb _); [reflexivity|]. destruct (is_false _); reflexivity.
  - subst r. rewrite (normalizeResponseStructure_fresh d Hn Hmark).
    destruct (normalizedFields_error d He) as (Hs & Herr & Hstd).
    assert (Hfail : isSuccess (VObj (normalizedFields d)) = false).
    { unfold isSuccess, get. rewrite Hs. reflexivity. }
    split; [exact Hfail|]. intros _.
    assert (Hget : forall k x, assoc k (normalizedFields d) = Some x ->
              get (VObj (normalizedFields d)) k = x)
      by (intros k x Hk; unfold get; rewrite Hk; reflexivity).
    rewrite (Hget _ _ Hs), (Hget _ _ Herr), (Hget _ _ Hstd).
    do 3 (split; [reflexivity|]).
    unfold getCommandOutput. cbn [truthy negb]. rewrite Hfail.
    split; [reflexivity|].
    unfold get at 1.
    cbn [assoc String.eqb Ascii.eqb Bool.eqb default from_option id].
    rewrite (Hget _ _ Herr). unfold or_else. rewrite He. cbv iota. rewrite He. reflexivity.
Qed.

Lemma error_never_masked_witness :
  isSuccess (normalizeResponseStructure
               (VObj [("error", VStr "boom"); ("data", VObj [("success", VBool true)])]))
  = false.
Proof.
  exact (proj1 (error_never_masked
                  (VObj [("error", VStr "boom"); ("data", VObj [("success", VBool true)])])
                  eq_refl)).
Defined.

(** [extractText] as the source reads. *)
Lemma extractText_eq (response defaultValue : value) :
  extractText response defaultValue =
  if negb (truthy response) then defaultValue
  else if String.eqb (typeof response) "string" then response
  else match firstText response with
       | Some text => text
       | None =>
           match get response "items" with
           | VArr (item :: _) _ => extractText item defaultValue
           | _ =>
               if String.eqb (typeof response) "object" then
                 match JSON_stringify response with
                 | Some s => VStr s
                 | None => VUndefined
                 end
               else VStr (ToString response) ||| defaultValue
           end
       end.
Proof.
  destruct response as [| | b | n | s | elems own | fields]; try reflexivity.
  - cbn [extractText truthy negb typeof]. change (String.eqb "object" "string") with false.
    cbv iota. destruct (firstText _); [reflexivity|].
    rewrite assoc_with_assoc. unfold get.
    change (String.eqb "items" "length") with false. cbv iota.
    destruct (assoc "items" own) as [[| | | | | [|item items] iown |]|]; reflexivity.
  - cbn [extractText truthy negb typeof]. change (String.eqb "object" "string") with false.
    cbv iota. destruct (firstText _); [reflexivity|].
    rewrite assoc_with_assoc. unfold get.
    destruct (assoc "items" fields) as [[| | | | | [|item items] iown |]|]; reflexivity.
Qed.

Lemma firstText_string (response text : value) :
  firstText response = Some text -> typeof text = "string".
Proof.
  unfold firstText. intros Hfind. apply find_some in Hfind as [_ Ht].
  apply andb_true_iff in Ht as [Ht _]. apply String.eqb_eq in Ht. exact Ht.
Qed.

Lemma JSON_stringify_object (v : value) :
  typeof v = "object" -> truthy v = true -> exists s, JSON_stringify v = Some s.
Proof. destruct v; try discriminate; intros _ _; simpl; eauto. Qed.

Lemma extractText_strings (defaultValue : value) :
  typeof defaultValue = "string" ->
  forall response,
    typeof (extractText response defaultValue) = "string"
    /\ Forall (fun x => typeof (extractText x defaultValue) = "string")
              (elementsOf response).
Proof.
  intros Hd.
  assert (Hstep : forall response,
            (forall item items own, get response "items" = VArr (item :: items) own ->
               typeof (extractText item defaultValue) = "string") ->
            typeof (extractText response defaultValue) = "string").
  { intros response Hitems. rewrite extractText_eq.
    destruct (negb (truthy response)) eqn:Ht; [exact Hd|].
    destruct (String.eqb (typeof response) "string") eqn:Hs;
      [apply String.eqb_eq; exact Hs|].
    destruct (firstText response) as [text|] eqn:Hf; [exact (firstText_string _ _ Hf)|].
    destruct (get response "items") as [| | | | | [|item items] iown |] eqn:Hi;
      try (destruct (String.eqb (typeof response) "object") eqn:Ho;
           [apply String.eqb_eq in Ho; apply negb_false_iff in Ht;
            destruct (JSON_stringify_object response Ho Ht) as [json ->]; reflexivity
           |unfold or_else; destruct (truthy (VStr _)); [reflexivity|exact Hd]]).
    exact (Hitems item items iown eq_refl). }
  assert (Hown : forall own item items iown,
            Forall (fun kx : string * value =>
                      typeof (extractText kx.2 defaultValue) = "string"
                      /\ Forall (fun x => typeof (extractText x defaultValue) = "string")
                                (elementsOf kx.2)) own ->
            default VUndefined (assoc "items" own) = VArr (item :: items) iown ->
            typeof (extractText item defaultValue) = "string").
  { intros own item items iown Hall Hi.
    destruct (assoc "items" own) as [x|] eqn:Hx; [|discriminate Hi].
    simpl in Hi. subst x. apply assoc_elem_of in Hx.
    rewrite Forall_forall in Hall. destruct (Hall _ Hx) as [_ Helems].
    simpl in Helems. inversion Helems; assumption. }
  induction response as [| | b | n | s | elems own Helems Hall | fields Hall]
    using value_nested_ind;
    try (split; [apply Hstep; intros item items iown Hi; discriminate Hi|constructor]).
  - split.
    + apply Hstep. intros item items iown Hi. exact (Hown own item items iown Hall Hi).
    + simpl. eapply Forall_impl; [exact Helems|]. intros x [Hx _]. exact Hx.
  - split; [|constructor].
    apply Hstep. intros item items iown Hi. exact (Hown fields item items iown Hall Hi).
Qed.

(** X6: with a default that is a string, [extractText] always returns a
    string, whatever the response: a property that is a non-empty string,
    the text of the first item, the JSON text of a record or an array, or
    the default; so the [output] of [getCommandOutput] is a string and its
    [success] a boolean. *)
Theorem extractText_string (response defaultValue : value) :
  typeof defaultValue = "string" ->
  typeof (extractText response defaultValue) = "string"
  /\ typeof (get (getCommandOutput response) "output") = "string"
  /\ typeof (get (getCommandOutput response) "success") = "boolean".
Proof.
  intros Hd. split; [exact (proj1 (extractText_strings defaultValue Hd response))|].
  unfold getCommandOutput. destruct (negb (truthy response)); [split; reflexivity|].
  split; [|reflexivity].
  exact (proj1 (extractText_strings (VStr "") eq_refl response)).
Qed.

Lemma extractText_string_witness :
  typeof (extractText (VObj [("items", Arr [VObj [("stdout", VStr "done")]])]) (VStr ""))
  = "string".
Proof.
  exact (proj1 (extractText_string
                  (VObj [("items", Arr [VObj [("stdout", VStr "done")]])]) (VStr "")
                  eq_refl)).
Defined.

(** ** More of the context manager *)

Section ContextStepFacts.
Context `{Platform}.

Lemma addMessage_tokensSaved (this : ContextManager) (mo : CoreMessage.t * bool) :
  tokensSaved (addMessage this mo.1 mo.2)
  = tokensSaved this + (if dropped mo then estimateTokens mo.1 else 0).
Proof.
  destruct mo as [m o]. unfold addMessage, addMessage_call, dropped. simpl.
  destruct o; simpl; [lia|].
  destruct (String.eqb (CoreMessage.role m) "assistant") eqn:Ea; simpl.
  { apply String.eqb_eq in Ea. rewrite Ea. simpl. lia. }
  destruct (String.eqb (CoreMessage.role m) "user") eqn:Eu; simpl.
  { apply String.eqb_eq in Eu. rewrite Eu. simpl. lia. }
  destruct (String.eqb (CoreMessage.role m) "tool"); simpl; [|lia].
  destruct (codeExecutionTest m) as [[|]|]; simpl; lia.
Qed.

(** X7: the counter of saved tokens after a stream is the counter before
    plus the estimates of the [tool] messages that were dropped (added
    without the option and without a [code_execution] result); it never
    decreases, and the messages retained and the messages dropped are
    together no more than the messages fed. *)
Theorem tokensSaved_feed (stream : list (CoreMessage.t * bool)) (this : ContextManager) :
  Forall (fun mo => contentTyped mo.1) stream ->
  tokensSaved (feed this stream)
  = tokensSaved this
    + foldr Z.add 0 ((fun mo => estimateTokens mo.1) <$> List.filter dropped stream)
  /\ tokensSaved this <= tokensSaved (feed this stream)
  /\ (length (messageHistory (feed this stream)) + length (List.filter dropped stream)
      <= length (messageHistory this) + length stream)%nat.
Proof.
  intros _. revert this. induction stream as [|mo stream IH]; intros this.
  - unfold feed. simpl. split; [lia|]. split; lia.
  - assert (Hexcl : admitted mo = true -> dropped mo = false).
    { unfold admitted, dropped. destruct mo as [m [|]]; simpl; [reflexivity|].
      destruct (String.eqb (CoreMessage.role m) "assistant") eqn:Ea; simpl.
      { apply String.eqb_eq in Ea. rewrite Ea. reflexivity. }
      destruct (String.eqb (CoreMessage.role m) "user") eqn:Eu; simpl.
      { apply String.eqb_eq in Eu. rewrite Eu. reflexivity. }
      destruct (String.eqb (CoreMessage.role m) "tool"); simpl; [|reflexivity].
      unfold isCodeExecution. destruct (codeExecutionTest m) as [[|]|];
        [reflexivity|discriminate|reflexivity]. }
    change (feed this (mo :: stream)) with (feed (addMessage this mo.1 mo.2) stream).
    destruct (IH (addMessage this mo.1 mo.2)) as (IH1 & IH2 & IH3).
    rewrite IH1. rewrite (addMessage_tokensSaved this mo) in *.
    rewrite (addMessage_history this mo), length_app in IH3.
    pose proof (tokensOf_nonneg (CoreMessage.content mo.1)) as Hpos.
    fold (estimateTokens mo.1) in Hpos.
    cbn [List.filter]. destruct (dropped mo) eqn:Hd.
    + destruct (admitted mo); [specialize (Hexcl eq_refl); discriminate|].
      cbn [fmap list_fmap foldr length] in *. split; [lia|]. split; lia.
    + destruct (admitted mo); cbn [length] in *; (split; [lia|]); split; lia.
Qed.

Lemma addToolResults_facts (toolResults : list value) (this : ContextManager) :
  tokensSaved (addToolResults this toolResults).1 = tokensSaved this
  /\ exists added,
       messageHistory (addToolResults this toolResults).1
       = (messageHistory this ++ added)%list
       /\ Forall (fun m => isCodeExecution m = true /\ CoreMessage.role m = "tool") added
       /\ (length added
           <= length (List.filter (fun r => is_str (get r "toolName") "code_execution")
                                  toolResults))%nat.
Proof.
  revert this. induction toolResults as [|r rest IH]; intros this.
  - simpl. split; [reflexivity|]. exists []. rewrite app_nil_r.
    split; [reflexivity|]. split; [constructor|simpl; lia].
  - cbn [addToolResults List.filter].
    destruct (get_checked r "toolName") as [toolName|message] eqn:Hname.
    + assert (HtoolName : toolName = get r "toolName")
        by (destruct r; try discriminate Hname; injection Hname as <-; reflexivity).
      subst toolName.
      destruct (is_str (get r "toolName") "code_execution") eqn:Hce.
      * destruct (IH (addMessage this (toolResultMessage r) true)) as (Hs & added & Hh & Hall & Hlen).
        split; [exact Hs|]. exists (toolResultMessage r :: added).
        split; [rewrite Hh; unfold addMessage, addMessage_call, push; simpl;
                by rewrite <- app_assoc|].
        split; [|simpl; lia]. constructor; [|exact Hall]. split; [|reflexivity].
        unfold isCodeExecution, codeExecutionTest, toolResultMessage.
        cbn [CoreMessage.content someCodeExecution].
        assert (Hpart : forall rest,
                  get (VObj ([("type", VStr "tool-result");
                              ("toolCallId", get r "toolCallId");
                              ("toolName", get r "toolName")] ++ rest)) "toolName"
                  = get r "toolName") by reflexivity.
        assert (Htype : forall rest,
                  get_checked (VObj ([("type", VStr "tool-result");
                                      ("toolCallId", get r "toolCallId");
                                      ("toolName", get r "toolName")] ++ rest)) "type"
                  = Normal (VStr "tool-result")) by reflexivity.
        rewrite Htype. cbn [mbind completion_bind]. rewrite Hpart, Hce. reflexivity.
      * destruct (IH this) as (Hs & added & Hh & Hall & Hlen).
        split; [exact Hs|]. exists added. split; [exact Hh|]. split; [exact Hall|exact Hlen].
    + simpl. split; [reflexivity|]. exists []. rewrite app_nil_r.
      split; [reflexivity|]. split; [constructor|simpl; lia].
Qed.

Lemma onStepFinish_tokensSaved (this : ContextManager) (step : value) :
  tokensSaved (onStepFinish this step).1 = tokensSaved this.
Proof.
  unfold onStepFinish. destruct (get_checked step "text") as [text|]; [|reflexivity].
  set (this' := if truthy text then _ else this).
  assert (Hs : tokensSaved this' = tokensSaved this)
    by (subst this'; destruct (truthy text); reflexivity).
  destruct (truthy (get step "toolResults")); [|exact Hs].
  destruct (iterate _) as [results|]; [|exact Hs].
  rewrite (proj1 (addToolResults_facts results this')). exact Hs.
Qed.

(** X8: [onStepFinish] hands the context manager only messages it
    retains: the assistant's text and the results of [code_execution],
    each of which is a [code_execution] result by its content, with or
    without the option.  It never hands over another tool's result, so
    the counter of saved tokens stays as it is: over any run of steps
    from a new manager it is [0]. *)
Theorem onStepFinish_never_counts (this : ContextManager) (step : value)
    (steps : list value) :
  tokensSaved (onStepFinish this step).1 = tokensSaved this
  /\ (exists added,
        messageHistory (onStepFinish this step).1 = (messageHistory this ++ added)%list
        /\ Forall (fun m => admitted (m, false) = true) added)
  /\ tokensSaved (onSteps new_ContextManager steps) = 0.
Proof.
  split; [apply onStepFinish_tokensSaved|]. split.
  - unfold onStepFinish. destruct (get_checked step "text") as [text|];
      [|exists []; by rewrite app_nil_r].
    set (this' := if truthy text then _ else this).
    assert (Hfirst : exists first, messageHistory this' = (messageHistory this ++ first)%list
                       /\ Forall (fun m => admitted (m, false) = true) first).
    { subst this'. destruct (truthy text).
      - exists [{| CoreMessage.role := "assistant"; CoreMessage.content := text |}].
        split; [reflexivity|]. by repeat constructor.
      - exists []. by rewrite app_nil_r. }
    destruct Hfirst as (first & Hh & Hall).
    destruct (truthy (get step "toolResults")); [|by exists first].
    destruct (iterate _) as [results|]; [|by exists first].
    destruct (addToolResults_facts results this') as (_ & added & Hadd & Hce & _).
    exists (first ++ added)%list. split; [by rewrite Hadd, Hh, <- app_assoc|].
    apply Forall_app. split; [exact Hall|].
    eapply Forall_impl; [exact Hce|]. intros m [Hm Hrole].
    unfold admitted. simpl. rewrite Hrole, Hm. reflexivity.
  - assert (Hgen : forall cm, tokensSaved (onSteps cm steps) = tokensSaved cm).
    { induction steps as [|s steps IH]; intros cm; [reflexivity|].
      unfold onSteps in *. simpl. rewrite IH. apply onStepFinish_tokensSaved. }
    rewrite Hgen. reflexivity.
Qed.

End ContextStepFacts.

(** X9: [createToolExecutionSummary] throws exactly when the result is
    [null]; otherwise the summary starts with the tool's name. *)
Theorem createToolExecutionSummary_null (toolName : string) (result : value) :
  ((exists message, createToolExecutionSummary toolName result = Throw message)
   <-> result = VNull)
  /\ (forall summary, createToolExecutionSummary toolName result = Normal summary ->
        String.prefix ("Executed " ++ toolName) summary = true).
Proof.
  unfold createToolExecutionSummary. split.
  - split.
    + intros [message Hthrow].
      destruct result as [| | b | n | s | elems own | fields]; try reflexivity;
        simpl in Hthrow; try discriminate Hthrow;
        match type of Hthrow with
        | context [truthy ?x] => destruct (truthy x); discriminate Hthrow
        end.
    + intros ->. simpl. eauto.
  - assert (Hprefix : forall s rest, String.prefix s (s ++ rest) = true).
    { intros s rest. induction s as [|c s IH]; [by destruct rest|].
      change (String c s ++ rest) with (String c (s ++ rest)). simpl.
      destruct (ascii_dec c c); [exact IH|congruence]. }
    assert (Hself : String.prefix ("Executed " ++ toolName) ("Executed " ++ toolName) = true).
    { generalize ("Executed " ++ toolName). intros s.
      induction s as [|c s IH]; simpl; [reflexivity|].
      destruct (ascii_dec c c); [exact IH|congruence]. }
    intros summary.
    destruct (String.eqb (typeof result) "object"); [|intros [= <-]; exact Hself].
    destruct (get_checked result "metadata") as [metadata|]; simpl; [|discriminate].
    destruct (truthy metadata); intros [= <-]; [|exact Hself].
    change ("Executed " ++ toolName ++ ?r) with (("Executed " ++ toolName) ++ r).
    apply (Hprefix (String "E" (String "x" (String "e" (String "c" (String "u"
             (String "t" (String "e" (String "d" (String " " toolName)))))))))).
Qed.

Lemma tokensSaved_feed_witness :
  tokensSaved
    (@feed model_platform new_ContextManager
       [({| CoreMessage.role := "tool";
            CoreMessage.content := Arr [toolResultPart "getUser"] |}, false);
        ({| CoreMessage.role := "system"; CoreMessage.content := VStr "be brief" |}, false)])
  = 22.
Proof.
  assert (Htyped : Forall (fun mo : CoreMessage.t * bool => contentTyped mo.1)
            [({| CoreMessage.role := "tool";
                 CoreMessage.content := Arr [toolResultPart "getUser"] |}, false);
             ({| CoreMessage.role := "system";
                 CoreMessage.content := VStr "be brief" |}, false)]).
  { constructor; [right; reflexivity|]. constructor; [left; reflexivity|constructor]. }
  destruct (@tokensSaved_feed model_platform _ new_ContextManager Htyped) as [Hsum _].
  rewrite Hsum. vm_compute. reflexivity.
Defined.

(** ** More of the parameter normalizer *)

Lemma str_in_elem_of (k : string) (l : list string) :
  str_in k l = true <-> k ∈ l.
Proof.
  unfold str_in. rewrite existsb_exists. split.
  - intros (x & Hin & Heq). apply String.eqb_eq in Heq. subst x.
    by apply list_elem_of_In.
  - intros Hin. exists k. split; [by apply list_elem_of_In|apply String.eqb_refl].
Qed.




Section ParameterFacts.
Context `{Platform}.

Lemma normalizeParameters_prepared (toolName : string) (args : value)
    (schema : option Schema) :
  normalizeParameters toolName args schema
  = let '(normalized, warnings) :=
      match schema with
      | Some sch =>
          match properties sch with
          | Some props =>
              foldl (coerceProperty (required sch)) (preparedArguments toolName args) props
          | None => preparedArguments toolName args
          end
      | None => preparedArguments toolName args
      end in
    {| normalized := normalized;
       warnings := warnings;
       isValid :=
         Nat.eqb (length (List.filter (fun w => includes w "Missing required") warnings)) 0 |}.
Proof.
  unfold normalizeParameters, preparedArguments.
  destruct args; cbv zeta beta iota;
    destruct (wrapArguments _ _ _ _) as [normalized warnings];
    destruct (JSON_parse _); destruct schema as [sch|]; try reflexivity;
    destruct (properties sch); reflexivity.
Qed.







Lemma foldl_coerceProperty_ext (req1 req2 : option (list string))
    (props : list (string * PropSchema)) (acc : value * list string) :
  (forall key, key ∈ props.*1 ->
     str_in key (default [] req1) = str_in key (default [] req2)) ->
  foldl (coerceProperty req1) acc props = foldl (coerceProperty req2) acc props.
Proof.
  revert acc. induction props as [|entry props IH]; intros acc Hreq; [reflexivity|].
  simpl. rewrite IH by (intros key Hin; apply Hreq; right; exact Hin).
  f_equal. destruct acc as [normalized warnings], entry as [k p].
  unfold coerceProperty. rewrite (Hreq k) by left. reflexivity.
Qed.

(** X10: only the required names that are declared under [properties]
    are checked: the result is the same for a schema whose [required] list
    is cut down to them, and a schema without [properties] is no schema. *)
Theorem normalizeParameters_required_scope (toolName : string) (args : value)
    (sch : Schema) :
  normalizeParameters toolName args (Some sch)
  = normalizeParameters toolName args
      (Some {| properties := properties sch; required := declaredRequired sch |})
  /\ (properties sch = None ->
      normalizeParameters toolName args (Some sch)
      = normalizeParameters toolName args None).
Proof.
  rewrite !normalizeParameters_prepared. unfold declaredRequired. simpl.
  destruct (properties sch) as [props|]; [|split; reflexivity].
  split; [|discriminate].
  rewrite (foldl_coerceProperty_ext (required sch)
             (Some (List.filter (fun k => str_in k props.*1) (default [] (required sch)))));
    [reflexivity|].
  intros key Hin. simpl.
  destruct (str_in key (default [] (required sch))) eqn:Hreq.
  - symmetry. apply str_in_elem_of. apply list_elem_of_In, filter_In.
    split; [apply list_elem_of_In, str_in_elem_of; exact Hreq|].
    apply str_in_elem_of. exact Hin.
  - destruct (str_in key (List.filter _ _)) eqn:Hf; [|reflexivity].
    apply str_in_elem_of, list_elem_of_In, filter_In in Hf as [Hf _].
    apply list_elem_of_In, str_in_elem_of in Hf. congruence.
Qed.










(** The wrapping leaves its own result as it is. *)
Lemma wrappedArguments_stable (toolName : string) (args : value) :
  wrappedArguments toolName (wrappedArguments toolName args).1
  = ((wrappedArguments toolName args).1, []).
Proof.
  unfold wrappedArguments, wrapArguments.
  destruct args as [| |flag|n|s|elems own|fields]; cbn; try reflexivity.
  - destruct (includes toolName "scrape" || includes toolName "crawl"); [reflexivity|].
    destruct (includes toolName "search"); [reflexivity|].
    destruct (includes toolName "extract"); reflexivity.
  - destruct (includes toolName "extract" || includes toolName "batch"); reflexivity.
Qed.

(** The warnings there are when a round of the loop starts are kept in
    front of those it adds, and do not bear on what it does. *)
Lemma coerceProperty_prefix (req : option (list string)) (normalized : value)
    (before warnings : list string) (entry : string * PropSchema) :
  coerceProperty req (normalized, (before ++ warnings)%list) entry
  = ((coerceProperty req (normalized, warnings) entry).1,
     (before ++ (coerceProperty req (normalized, warnings) entry).2)%list).
Proof.
  destruct entry as [k p]. unfold coerceProperty, push.
  repeat match goal with
         | |- context [if ?c then _ else _] => destruct c
         | |- context [match prop_type p with _ => _ end] => destruct (prop_type p)
         | |- context [match prop_items p with _ => _ end] => destruct (prop_items p)
         | |- context [match get ?v ?k with _ => _ end] => destruct (get v k)
         end; cbn [fst snd]; rewrite <- ?app_assoc; reflexivity.
Qed.

Lemma foldl_coerceProperty_prefix (req : option (list string))
    (props : list (string * PropSchema)) (normalized : value)
    (before warnings : list string) :
  foldl (coerceProperty req) (normalized, (before ++ warnings)%list) props
  = ((foldl (coerceProperty req) (normalized, warnings) props).1,
     (before ++ (foldl (coerceProperty req) (normalized, warnings) props).2)%list).
Proof.
  revert normalized warnings.
  induction props as [|entry props IH]; intros normalized warnings; [reflexivity|].
  cbn [foldl]. rewrite coerceProperty_prefix.
  destruct (coerceProperty req (normalized, warnings) entry) as [normalized' warnings'].
  apply IH.
Qed.

Lemma noneMissing_app (before warnings : list string) :
  noneMissing (before ++ warnings) = noneMissing warnings && noneMissing before.
Proof.
  unfold noneMissing. rewrite List.filter_app, length_app.
  destruct (length (List.filter _ before)), (length (List.filter _ warnings)); reflexivity.
Qed.

(** X1: the wrapping is absorbed.  [normalizeParameters] gives arguments
    and the value its wrapping step makes of them (the record for a
    string or an array, [{}] for [null] and [undefined]) the same
    normalized arguments, for every schema; its warnings are those of the
    wrapping followed by those for the wrapped value.  So a call made with
    a string and a call made with the record that stands for it have one
    call signature in [handleRequest], and their failures are counted
    together.  [isValid] is the same too, unless a warning of the wrapping,
    which quotes the string, contains [Missing required]. *)
Theorem normalizeParameters_absorbs_wrapping (toolName : string) (args : value)
    (schema : option Schema) :
  let wrapped := wrappedArguments toolName args in
  let direct := normalizeParameters toolName args schema in
  let again := normalizeParameters toolName wrapped.1 schema in
  normalized direct = normalized again
  /\ warnings direct = (wrapped.2 ++ warnings again)%list
  /\ isValid direct = isValid again && noneMissing wrapped.2
  /\ forall (b : MCPToolBridge) (callId callId' : value),
       requestSignature b {| Request.toolName := toolName;
                             Request.args := args;
                             Request.callId := callId |}
       = requestSignature b {| Request.toolName := toolName;
                               Request.args := wrapped.1;
                               Request.callId := callId' |}.
Proof.
  assert (Hgen : forall schema,
            normalized (normalizeParameters toolName args schema)
            = normalized (normalizeParameters toolName
                            (wrappedArguments toolName args).1 schema)
            /\ warnings (normalizeParameters toolName args schema)
               = ((wrappedArguments toolName args).2
                  ++ warnings (normalizeParameters toolName
                                 (wrappedArguments toolName args).1 schema))%list
            /\ isValid (normalizeParameters toolName args schema)
               = isValid (normalizeParameters toolName
                            (wrappedArguments toolName args).1 schema)
                 && noneMissing (wrappedArguments toolName args).2).
  { clear schema. intros schema.
    rewrite !normalizeParameters_prepared.
    assert (Hprep : forall a, preparedArguments toolName a
              = match JSON_parse (template (JSON_stringify (wrappedArguments toolName a).1))
                with
                | Some clone => (clone, (wrappedArguments toolName a).2)
                | None => ((wrappedArguments toolName a).1,
                           push (wrappedArguments toolName a).2
                                ("Failed to clone args, using original"))
                end).
    { intros a. unfold preparedArguments, wrappedArguments.
      destruct a; cbv zeta beta iota;
        destruct (wrapArguments _ _ _ _) as [normalized warnings]; reflexivity. }
    rewrite !Hprep, wrappedArguments_stable. cbn [fst snd].
    destruct (wrappedArguments toolName args) as [wv before]. cbn [fst snd].
    set (cloned := match JSON_parse (template (JSON_stringify wv)) with
                   | Some clone => (clone, [])
                   | None => (wv, push [] ("Failed to clone args, using original"))
                   end).
    assert (Hclone : match JSON_parse (template (JSON_stringify wv)) with
                     | Some clone => (clone, before)
                     | None => (wv, push before ("Failed to clone args, using original"))
                     end = (cloned.1, (before ++ cloned.2)%list)).
    { subst cloned. destruct (JSON_parse _); cbn [fst snd]; unfold push;
        by rewrite ?app_nil_r. }
    rewrite Hclone. destruct cloned as [clone added]. cbn [fst snd].
    assert (Hend : forall result : value * list string,
              normalized
                (let '(normalized, warnings) := (result.1, (before ++ result.2)%list) in
                 {| normalized := normalized; warnings := warnings;
                    isValid := Nat.eqb (length (List.filter
                                 (fun w => includes w "Missing required") warnings)) 0 |})
              = normalized
                  (let '(normalized, warnings) := result in
                   {| normalized := normalized; warnings := warnings;
                      isValid := Nat.eqb (length (List.filter
                                   (fun w => includes w "Missing required") warnings)) 0 |})
              /\ warnings
                   (let '(normalized, warnings) := (result.1, (before ++ result.2)%list) in
                    {| normalized := normalized; warnings := warnings;
                       isValid := Nat.eqb (length (List.filter
                                    (fun w => includes w "Missing required") warnings)) 0 |})
                 = (before
                    ++ warnings
                         (let '(normalized, warnings) := result in
                          {| normalized := normalized; warnings := warnings;
                             isValid := Nat.eqb (length (List.filter
                                          (fun w => includes w "Missing required")
                                          warnings)) 0 |}))%list
              /\ isValid
                   (let '(normalized, warnings) := (result.1, (before ++ result.2)%list) in
                    {| normalized := normalized; warnings := warnings;
                       isValid := Nat.eqb (length (List.filter
                                    (fun w => includes w "Missing required") warnings)) 0 |})
                 = isValid
                     (let '(normalized, warnings) := result in
                      {| normalized := normalized; warnings := warnings;
                         isValid := Nat.eqb (length (List.filter
                                      (fun w => includes w "Missing required")
                                      warnings)) 0 |})
                   && noneMissing before).
    { intros [normalized' warnings']. cbn [fst snd normalized warnings isValid].
      split; [reflexivity|]. split; [reflexivity|]. apply noneMissing_app. }
    destruct schema as [sch|]; [destruct (properties sch) as [props|]|].
    - rewrite foldl_coerceProperty_prefix. apply Hend.
    - apply (Hend (clone, added)).
    - apply (Hend (clone, added)). }
  cbv zeta. destruct (Hgen schema) as (Hn & Hw & Hv).
  split; [exact Hn|]. split; [exact Hw|]. split; [exact Hv|].
  intros b callId callId'. unfold requestSignature, requestNormalization.
  cbn [Request.toolName Request.args].
  destruct (Hgen (toolSchemas b !! toolName)) as (-> & _). reflexivity.
Qed.

End ParameterFacts.



(** ** More of the bridge *)

Lemma filter_text_throws (content : list value) :
  (exists message, filter_text content = Throw message)
  <-> exists c, c ∈ content /\ is_nullish c = true.
Proof.
  induction content as [|c content IH]; simpl.
  - split; [intros [m Hm]; discriminate Hm|intros (c & Hc & _); inversion Hc].
  - destruct (get_checked c "type") as [t|m] eqn:Ht; simpl.
    + assert (Hc : is_nullish c = false) by (destruct c; try reflexivity; discriminate Ht).
      destruct (filter_text content) as [rest|m] eqn:Hrest; simpl.
      * split; [intros [m Hm]; discriminate Hm|].
        intros (c' & Hin & Hnull). apply elem_of_cons in Hin as [->|Hin]; [congruence|].
        destruct (proj2 IH (ex_intro _ c' (conj Hin Hnull))) as [m Hm]. discriminate Hm.
      * split; [|by eauto]. intros _.
        destruct (proj1 IH (ex_intro _ m eq_refl)) as (c' & Hin & Hnull).
        exists c'. split; [by right|exact Hnull].
    + split; [|by eauto]. intros _. exists c. split; [left|].
      destruct c; try discriminate Ht; reflexivity.
Qed.

Section BridgeMoreFacts.
Context `{Platform}.

(** X13: [transformMCPResponse] throws exactly on an MCP envelope whose
    [content] holds a [null] or [undefined] part (it reads the part's
    [type]); on every other value it returns. *)
Theorem transformMCPResponse_throws (rawResponse : value) :
  (exists message, transformMCPResponse rawResponse = Throw message)
  <-> truthy rawResponse = true
      /\ exists c, c ∈ elementsOf (get rawResponse "content") /\ is_nullish c = true.
Proof.
  unfold transformMCPResponse.
  destruct (truthy rawResponse) eqn:Ht; cbn [negb].
  2: { split; [intros [m Hm]; discriminate Hm|intros [Hf _]; discriminate Hf]. }
  destruct (get rawResponse "content") as [| | | | | content own |] eqn:Hc;
    try (split; [intros [m Hm]; discriminate Hm|intros (_ & c & Hin & _); inversion Hin]).
  cbn [elementsOf]. rewrite <- filter_text_throws.
  destruct (truthy (get rawResponse "isError")).
  - destruct (filter_text content) as [texts|m]; simpl.
    + split; [intros [m Hm]; discriminate Hm|intros [_ [m Hm]]; discriminate Hm].
    + split; [intros _; split; [reflexivity|by eauto]|by eauto].
  - destruct (filter_text content) as [texts|m]; simpl.
    + split; [|intros [_ [m Hm]]; discriminate Hm].
      intros [m Hm]. destruct texts as [|c [|c' texts]]; try discriminate Hm.
      destruct (JSON_parse _); [|discriminate Hm].
      destruct (_ && _); discriminate Hm.
    + split; [intros _; split; [reflexivity|by eauto]|by eauto].
Qed.

Lemma isMoreDetailed_irrefl (a : value) :
  truthy a = true -> isMoreDetailed a a = false.
Proof.
  intros Ha. unfold isMoreDetailed. rewrite Ha. cbn [negb].
  destruct (is_str (get a "type") "object" && is_str (get a "type") "object").
  - apply Nat.ltb_irrefl.
  - destruct (is_str (get a "type") "array" && is_str (get a "type") "array");
      [|reflexivity].
    unfold num_gt. destruct (_ ||| _) as [| | |[|z]| | |]; try reflexivity.
    apply Z.ltb_irrefl.
Qed.

Lemma isMoreDetailed_type (a b : value) :
  truthy b = true -> isMoreDetailed a b = true -> get a "type" = get b "type".
Proof.
  intros Hb. unfold isMoreDetailed. rewrite Hb. cbn [negb].
  assert (Hstr : forall v s, is_str v s = true -> v = VStr s).
  { intros v s Hv. destruct v; try discriminate Hv. simpl in Hv.
    apply String.eqb_eq in Hv. by subst. }
  destruct (is_str (get a "type") "object") eqn:Ea; cbn [andb].
  - destruct (is_str (get b "type") "object") eqn:Eb.
    + intros _. rewrite (Hstr _ _ Ea), (Hstr _ _ Eb). reflexivity.
    + rewrite (Hstr _ _ Ea). simpl. discriminate.
  - destruct (is_str (get a "type") "array") eqn:Ea'; cbn [andb]; [|discriminate].
    destruct (is_str (get b "type") "array") eqn:Eb; [|discriminate].
    intros _. rewrite (Hstr _ _ Ea'), (Hstr _ _ Eb). reflexivity.
Qed.

Lemma inferSchema_truthy (v : value) (depth : nat) : truthy (inferSchema v depth) = true.
Proof. destruct v; simpl; destruct (Nat.ltb 3 depth); reflexivity. Qed.

(** X14: learning from the same response twice is learning from it
    once, and what is learned only ever replaces a schema by a more
    detailed one of the same [type]: the [type] first learned for a tool
    stays. *)
Theorem learnOutputSchema_stable (learned : gmap string value) (toolName : string)
    (response : value) :
  learnOutputSchema (learnOutputSchema learned toolName response) toolName response
  = learnOutputSchema learned toolName response
  /\ (forall existing, learned !! toolName = Some existing -> truthy existing = true ->
        exists schema,
          learnOutputSchema learned toolName response !! toolName = Some schema
          /\ truthy schema = true
          /\ get schema "type" = get existing "type").
Proof.
  split.
  - unfold learnOutputSchema.
    destruct (negb (truthy response) || is_false (get response "success")
              || truthy (get response "error")) eqn:Hskip; [reflexivity|].
    pose proof (inferSchema_truthy response 0) as Hs.
    assert (Hagain : forall m : gmap string value,
              match <[toolName := inferSchema response 0]> m !! toolName with
              | Some existing =>
                  if negb (truthy existing) || isMoreDetailed (inferSchema response 0) existing
                  then <[toolName := inferSchema response 0]>
                         (<[toolName := inferSchema response 0]> m)
                  else <[toolName := inferSchema response 0]> m
              | None => <[toolName := inferSchema response 0]>
                          (<[toolName := inferSchema response 0]> m)
              end = <[toolName := inferSchema response 0]> m).
    { intros m. rewrite lookup_insert_eq, Hs, (isMoreDetailed_irrefl _ Hs). reflexivity. }
    destruct (learned !! toolName) as [existing|] eqn:Hl; [|apply Hagain].
    destruct (negb (truthy existing) || isMoreDetailed (inferSchema response 0) existing)
      eqn:Hrep; [apply Hagain|].
    rewrite Hl, Hrep. reflexivity.
  - intros existing Hl He. unfold learnOutputSchema.
    destruct (negb (truthy response) || is_false (get response "success")
              || truthy (get response "error")); [by exists existing|].
    rewrite Hl, He. cbn [negb orb].
    destruct (isMoreDetailed (inferSchema response 0) existing) eqn:Hmore;
      [|by exists existing].
    exists (inferSchema response 0). rewrite lookup_insert_eq.
    split; [reflexivity|]. split; [apply inferSchema_truthy|].
    apply isMoreDetailed_type; assumption.
Qed.

End BridgeMoreFacts.

Section BreakerFacts.
Context `{Platform}.

Lemma call_records (b : MCPToolBridge) (c : Request.t * (string -> value -> outcome)) :
  length (toolCallRecords (call b c).2)
  = (length (toolCallRecords b)
     + if Nat.leb MAX_RETRIES (failCountOf b (requestSignature b c.1)) then 0 else 1)%nat.
Proof.
  destruct c as [request exec]. unfold call, handleRequest, requestSignature, failCountOf.
  cbn [fst snd].
  set (n := requestNormalization b request).
  set (s := getCallSignature (Request.toolName request) (normalized n)).
  destruct (recordWarnings_keeps b (Request.toolName request) (warnings n))
    as (_ & _ & _ & Hr & Hf).
  set (b1 := recordWarnings b (Request.toolName request) (warnings n)) in *.
  rewrite Hf.
  destruct (Nat.leb MAX_RETRIES (default 0%nat (failedCallSignatures b !! s))).
  - cbn [interp snd]. rewrite Hr. lia.
  - assert (Hfail : forall msg k,
              length (toolCallRecords (handleFailure b1 request (normalized n) s k msg).2)
              = (length (toolCallRecords b) + 1)%nat).
    { intros msg k. cbn [handleFailure snd toolCallRecords]. unfold push.
      rewrite length_app, Hr. reflexivity. }
    destruct (mcpTools b1 !! Request.toolName request) as [tool|]; cbn [interp];
      [|apply Hfail].
    destruct (tool_has_execute tool); cbn [negb interp]; [|apply Hfail].
    destruct (exec _ _) as [rawResult|msg]; cbn [interp]; [|apply Hfail].
    unfold handleSuccess. destruct (transformMCPResponse rawResult); [|apply Hfail].
    cbn [snd toolCallRecords]. unfold push. rewrite length_app, Hr. reflexivity.
Qed.

Lemma failureStreak_exact (s : string)
    (calls : list (Request.t * (string -> value -> outcome)))
    (b : MCPToolBridge) (n : nat) :
  failCountOf b s = Nat.min n MAX_RETRIES ->
  failCountOf (runCalls b calls) s = Nat.min (failureStreak s b calls n) MAX_RETRIES.
Proof.
  revert b n. induction calls as [|c calls IH]; intros b n Hn; [exact Hn|].
  simpl. change (runCalls b (c :: calls)) with (runCalls (call b c).2 calls).
  apply IH.
  destruct (call_cases b c) as [_ Hcases]. cbv zeta in Hcases.
  unfold failCountOf in *. unfold MAX_RETRIES in *.
  destruct (String.eqb (requestSignature b c.1) s) eqn:Es.
  - apply String.eqb_eq in Es. rewrite Es in Hcases.
    destruct Hcases as [(Hle & -> & ->)|[(Hlt & -> & ->)|(Hlt & -> & ->)]].
    + revert Hn Hle. generalize (default 0%nat (failedCallSignatures b !! s)). lia.
    + rewrite lookup_insert_eq. cbn [from_option id].
      revert Hn Hlt. generalize (default 0%nat (failedCallSignatures b !! s)). lia.
    + rewrite lookup_delete_eq. reflexivity.
  - apply String.eqb_neq in Es.
    destruct Hcases as [(_ & _ & ->)|[(_ & _ & ->)|(_ & _ & ->)]].
    + exact Hn.
    + rewrite lookup_insert_ne by exact Es. exact Hn.
    + rewrite lookup_delete_ne by exact Es. exact Hn.
Qed.

(** X15: on a bridge without recorded failures, the failure count of a
    signature after any sequence of calls is the length of the current
    run of failures with that signature, capped at [MAX_RETRIES]; so the
    next call with that signature is answered without a call record
    exactly when the run has reached [MAX_RETRIES], and adds one record
    otherwise. *)
Theorem failure_count_is_streak (b : MCPToolBridge)
    (calls : list (Request.t * (string -> value -> outcome)))
    (c : Request.t * (string -> value -> outcome)) :
  failedCallSignatures b = ∅ ->
  let s := requestSignature b c.1 in
  let streak := failureStreak s b calls 0 in
  failCountOf (runCalls b calls) s = Nat.min streak MAX_RETRIES
  /\ length (toolCallRecords (call (runCalls b calls) c).2)
     = (length (toolCallRecords (runCalls b calls))
        + if Nat.leb MAX_RETRIES streak then 0 else 1)%nat.
Proof.
  intros Hempty s streak.
  assert (Hcount : failCountOf (runCalls b calls) s = Nat.min streak MAX_RETRIES).
  { apply failureStreak_exact. unfold failCountOf. rewrite Hempty, lookup_empty.
    reflexivity. }
  split; [exact Hcount|].
  rewrite call_records.
  rewrite (requestSignature_schemas b (runCalls b calls) c.1 (runCalls_schemas calls b)).
  fold s. rewrite Hcount. f_equal. unfold MAX_RETRIES.
  destruct (Nat.leb 3 streak) eqn:Hs.
  - apply Nat.leb_le in Hs. rewrite Nat.min_r by exact Hs. reflexivity.
  - pose proof Hs as Hlt. apply Nat.leb_gt in Hlt. rewrite Nat.min_l by lia.
    rewrite Hs. reflexivity.
Qed.

End BreakerFacts.

Lemma failure_count_is_streak_witness :
  failCountOf
    (@runCalls model_platform flakyBridge
       [(flakyRequest, alwaysRejects); (flakyRequest, alwaysRejects)])
    (@requestSignature model_platform flakyBridge flakyRequest) = 2%nat.
Proof.
  exact (proj1 (@failure_count_is_streak model_platform flakyBridge
                  [(flakyRequest, alwaysRejects); (flakyRequest, alwaysRejects)]
                  (flakyRequest, alwaysRejects) eq_refl)).
Defined.

(** ** Batches *)

Section BatchFacts.
Context `{Platform}.

(** The two halves make up [handleRequest]. *)
Lemma handleRequest_halves (tools : string -> value -> called) (b : MCPToolBridge)
    (request : Request.t) :
  interp (awaited tools) (handleRequest b request)
  = match handleRequest_start tools b request with
    | (Returned response, b') => (response, b')
    | (Awaiting p, b') => handleRequest_resume b' p
    end.
Proof.
  unfold handleRequest, handleRequest_start, handleRequest_resume.
  destruct (Nat.leb _ _); [reflexivity|].
  destruct (mcpTools _ !! _) as [tool|]; [|reflexivity].
  destruct (tool_has_execute tool); cbn [negb interp]; [|reflexivity].
  unfold awaited.
  destruct (tools _ _) as [message|[rawResult|message]]; reflexivity.
Qed.

(** A started call belongs to its request. *)
Lemma handleRequest_start_facts (tools : string -> value -> called) (b : MCPToolBridge)
    (request : Request.t) :
  toolSchemas (handleRequest_start tools b request).2 = toolSchemas b
  /\ mcpTools (handleRequest_start tools b request).2 = mcpTools b
  /\ match (handleRequest_start tools b request).1 with
     | Returned response => Response.callId response = Request.callId request
     | Awaiting p =>
         pending_request p = request
         /\ pending_normalized p = normalized (requestNormalization b request)
         /\ pending_callSignature p = requestSignature b request
         /\ pending_failCount p = failCountOf b (requestSignature b request)
         /\ tools (Request.toolName request) (normalized (requestNormalization b request))
            = Promised (pending_outcome p)
         /\ (failCountOf b (requestSignature b request) < MAX_RETRIES)%nat
         /\ failedCallSignatures (handleRequest_start tools b request).2
            = failedCallSignatures b
         /\ toolCallRecords (handleRequest_start tools b request).2 = toolCallRecords b
     end.
Proof.
  unfold handleRequest_start, requestSignature, failCountOf.
  destruct (recordWarnings_keeps b (Request.toolName request)
              (warnings (requestNormalization b request))) as (Hm & Hs & _ & Hr & Hf).
  rewrite Hf, Hm.
  destruct (Nat.leb _ _) eqn:Hle; [cbn [fst snd]; auto|].
  apply Nat.leb_gt in Hle.
  destruct (mcpTools b !! Request.toolName request) as [tool|];
    [|cbn [handleFailure fst snd toolSchemas mcpTools Response.callId]; auto].
  destruct (tool_has_execute tool);
    cbn [negb handleFailure fst snd toolSchemas mcpTools Response.callId]; [|auto].
  destruct (tools _ _) as [message|settles] eqn:Htools;
    cbn [handleFailure fst snd toolSchemas mcpTools Response.callId
         pending_request pending_normalized pending_callSignature pending_failCount
         pending_outcome]; [auto|].
  repeat split; auto.
Qed.

(** A call that has returned at its start is the call run to its end. *)
Lemma handleRequest_start_returned (tools : string -> value -> called)
    (b b' : MCPToolBridge) (request : Request.t) (response : Response.t) :
  handleRequest_start tools b request = (Returned response, b') ->
  call b (request, awaited tools) = (response, b').
Proof.
  intros Hstart. unfold call. cbn [fst snd]. by rewrite handleRequest_halves, Hstart.
Qed.

(** A call whose tool throws at the call has returned at its start. *)
Lemma handleRequest_start_threw (tools : string -> value -> called) (b : MCPToolBridge)
    (request : Request.t) (message : string) :
  tools (Request.toolName request) (normalized (requestNormalization b request))
  = Threw message ->
  exists response b', handleRequest_start tools b request = (Returned response, b').
Proof.
  intros Hthrew. unfold handleRequest_start.
  destruct (Nat.leb _ _); [by eexists _, _|].
  destruct (mcpTools _ !! _) as [tool|]; [|by eexists _, _].
  destruct (tool_has_execute tool); cbn [negb]; [|by eexists _, _].
  rewrite Hthrew. by eexists _, _.
Qed.

Lemma handleRequest_resume_callId (b : MCPToolBridge) (p : Pending) :
  Response.callId (handleRequest_resume b p).1 = Request.callId (pending_request p).
Proof.
  unfold handleRequest_resume, handleSuccess.
  destruct (pending_outcome p) as [rawResult|msg]; [|reflexivity].
  destruct (transformMCPResponse rawResult); reflexivity.
Qed.

Lemma batchStart_facts (tools : string -> value -> called) (requests : list Request.t)
    (calls0 : list started) (b0 : MCPToolBridge) :
  exists calls,
    (foldl (fun '(calls, b) request =>
              let '(s, b) := handleRequest_start tools b request in
              (push calls s, b))
           (calls0, b0) requests).1 = (calls0 ++ calls)%list
    /\ Forall2 startedFor requests calls.
Proof.
  revert calls0 b0. induction requests as [|request requests IH]; intros calls0 b0.
  - exists []. simpl. rewrite app_nil_r. split; [reflexivity|constructor].
  - simpl. destruct (handleRequest_start tools b0 request) as [s b1] eqn:Hstart.
    destruct (IH (push calls0 s) b1) as (calls & Hcalls & Hall).
    exists (s :: calls). split.
    + rewrite Hcalls. unfold push. by rewrite <- app_assoc.
    + constructor; [|exact Hall].
      pose proof (handleRequest_start_facts tools b0 request) as (_ & _ & Hs).
      rewrite Hstart in Hs. simpl in Hs. destruct s; [exact Hs|apply Hs].
Qed.

Lemma batchSettle_facts (settled : list (nat * Pending))
    (answers0 : list (nat * Response.t)) (b0 : MCPToolBridge) :
  exists answers,
    (foldl (fun '(answers, b) '(i, p) =>
              let '(response, b) := handleRequest_resume b p in
              (push answers (i, response), b))
           (answers0, b0) settled).1 = (answers0 ++ answers)%list
    /\ Forall2 (fun ip ir =>
                  ip.1 = ir.1
                  /\ Response.callId ir.2 = Request.callId (pending_request ip.2))
               settled answers.
Proof.
  revert answers0 b0. induction settled as [|[i p] settled IH]; intros answers0 b0.
  - exists []. simpl. rewrite app_nil_r. split; [reflexivity|constructor].
  - simpl. destruct (handleRequest_resume b0 p) as [response b1] eqn:Hresume.
    destruct (IH (push answers0 (i, response)) b1) as (answers & Hanswers & Hall).
    exists ((i, response) :: answers). split.
    + rewrite Hanswers. unfold push. by rewrite <- app_assoc.
    + constructor; [|exact Hall]. split; [reflexivity|]. simpl.
      pose proof (handleRequest_resume_callId b0 p) as Hid.
      rewrite Hresume in Hid. exact Hid.
Qed.

Lemma elem_of_pendingOf (calls : list started) (i : nat) (p : Pending) :
  (i, p) ∈ pendingOf calls <-> calls !! i = Some (Awaiting p).
Proof.
  unfold pendingOf. rewrite list_elem_of_omap. split.
  - intros (x & Hx & Hid). simpl in Hid. subst x.
    apply elem_of_lookup_imap in Hx as (j & s & Heq & Hj).
    destruct s as [r|q]; [discriminate Heq|]. injection Heq as <- <-. exact Hj.
  - intros Hi. exists (Some (i, p)). split; [|reflexivity].
    apply elem_of_lookup_imap. exists i, (Awaiting p). split; [reflexivity|exact Hi].
Qed.

Lemma answerOf_elem_of (i : nat) (answers : list (nat * Response.t)) :
  i ∈ answers.*1 ->
  exists response, answerOf i answers = Some response /\ (i, response) ∈ answers.
Proof.
  induction answers as [|[j r] answers IH]; simpl; [intros Hin; inversion Hin|].
  intros Hin. destruct (Nat.eqb j i) eqn:E.
  - apply Nat.eqb_eq in E. subst j. exists r. split; [reflexivity|left].
  - apply Nat.eqb_neq in E. apply elem_of_cons in Hin as [Heq|Hin]; [congruence|].
    destruct (IH Hin) as (response & Ha & Hr). exists response.
    split; [exact Ha|right; exact Hr].
Qed.

Lemma answerOf_Some (i : nat) (answers : list (nat * Response.t)) (response : Response.t) :
  answerOf i answers = Some response -> (i, response) ∈ answers.
Proof.
  induction answers as [|[j r] answers IH]; simpl; [discriminate|].
  destruct (Nat.eqb j i) eqn:E.
  - apply Nat.eqb_eq in E. subst j. intros [= ->]. left.
  - intros Ha. right. exact (IH Ha).
Qed.

(** X16: whatever the order in which the promises of a batch settle,
    [executeBatch] resolves, and to one response for each request, in the
    order of the requests: the response at a position carries the
    [callId] of the request at that position.  A batch of one request is
    [handleRequest]. *)
Theorem executeBatch_responses (tools : string -> value -> called) (b : MCPToolBridge)
    (requests : list Request.t) (settled : list (nat * Pending)) :
  settleOrder tools b requests settled ->
  (exists responses,
     (executeBatch tools b requests settled).1 = Some responses
     /\ Response.callId <$> responses = Request.callId <$> requests)
  /\ (forall request,
        requests = [request] ->
        executeBatch tools b requests settled
        = (Some [(call b (request, awaited tools)).1],
           (call b (request, awaited tools)).2)).
Proof.
  intros Horder. unfold settleOrder in Horder. split.
  - unfold executeBatch, batchStart, batchSettle in *.
    destruct (batchStart_facts tools requests [] b) as (calls & Hcalls & Hfor).
    destruct (foldl _ ([], b) requests) as [calls' b1]. simpl in Hcalls, Horder.
    subst calls'.
    destruct (batchSettle_facts settled [] b1) as (answers & Hanswers & Hsettled).
    destruct (foldl _ ([], b1) settled) as [answers' b2]. simpl in Hanswers.
    subst answers'. cbn [fst].
    assert (Hsome : is_Some (batchResponses calls answers)).
    { unfold batchResponses. apply mapM_is_Some, Forall_forall. intros x Hx.
      apply elem_of_lookup_imap in Hx as (i & s & -> & Hi).
      destruct s as [r|p]; [by eexists|]. simpl.
      apply elem_of_pendingOf in Hi. rewrite <- Horder in Hi.
      assert (Hin : i ∈ answers.*1).
      { apply list_elem_of_lookup in Hi as [k Hk].
        destruct (Forall2_lookup_l _ _ _ _ _ Hsettled Hk) as ([j r] & Hj & Heq & _).
        simpl in Heq. subst j. apply list_elem_of_fmap. exists (i, r).
        split; [reflexivity|]. by apply list_elem_of_lookup_2 in Hj. }
      destruct (answerOf_elem_of i answers Hin) as (response & -> & _). by eexists. }
    destruct Hsome as [responses Hresp]. exists responses. split; [exact Hresp|].
    unfold batchResponses in Hresp. apply mapM_Some in Hresp.
    apply list_eq. intros i. rewrite !list_lookup_fmap.
    destruct (requests !! i) as [request|] eqn:Hreq.
    + destruct (Forall2_lookup_l _ _ _ _ _ Hfor Hreq) as (s & Hs & Hstarted).
      assert (Himap : imap (fun i s => match s with
                                       | Returned response => Some response
                                       | Awaiting _ => answerOf i answers
                                       end) calls !! i
                      = Some (match s with
                              | Returned response => Some response
                              | Awaiting _ => answerOf i answers
                              end))
        by (rewrite list_lookup_imap, Hs; reflexivity).
      destruct (Forall2_lookup_l _ _ _ _ _ Hresp Himap) as (response & -> & Hid).
      simpl in *. f_equal. destruct s as [r|p]; simpl in *.
      * injection Hid as ->. exact Hstarted.
      * apply answerOf_Some in Hid.
        apply list_elem_of_lookup in Hid as [k Hk].
        destruct (Forall2_lookup_r _ _ _ _ _ Hsettled Hk) as ([j q] & Hj & Heq & Hcid).
        simpl in Heq, Hcid. subst j. rewrite Hcid.
        apply list_elem_of_lookup_2 in Hj. rewrite Horder in Hj.
        apply elem_of_pendingOf in Hj. rewrite Hs in Hj. injection Hj as <-.
        rewrite Hstarted. reflexivity.
    + apply Forall2_length in Hfor. apply Forall2_length in Hresp.
      rewrite length_imap in Hresp.
      apply lookup_ge_None in Hreq. rewrite (proj2 (lookup_ge_None _ _)); [reflexivity|].
      lia.
  - intros request ->. revert Horder. unfold call. cbn [fst snd].
    rewrite handleRequest_halves.
    unfold executeBatch, batchStart. cbn [foldl].
    destruct (handleRequest_start tools b request) as [[response|p] b1]; cbn [fst push app].
    + intros Horder. apply Permutation_nil_r in Horder. subst settled. reflexivity.
    + intros Horder. apply Permutation_singleton_r in Horder. subst settled.
      unfold batchSettle. cbn [foldl].
      destruct (handleRequest_resume b1 p) as [response b2]. reflexivity.
Qed.

Lemma batchStart_replicate (tools : string -> value -> called) (request : Request.t)
    (tool : Tool) (settles : outcome) (n : nat) (b : MCPToolBridge)
    (calls0 : list started) :
  mcpTools b !! Request.toolName request = Some tool ->
  tool_has_execute tool = true ->
  tools (Request.toolName request) (normalized (requestNormalization b request))
  = Promised settles ->
  (failCountOf b (requestSignature b request) < MAX_RETRIES)%nat ->
  exists b1,
    foldl (fun '(calls, b) request =>
             let '(s, b) := handleRequest_start tools b request in
             (push calls s, b))
          (calls0, b) (replicate n request)
    = ((calls0 ++ replicate n (Awaiting (pendingFor tools b request)))%list, b1)
    /\ failedCallSignatures b1 = failedCallSignatures b
    /\ toolCallRecords b1 = toolCallRecords b.
Proof.
  intros Htool Hexec Hpromised Hlt. revert b calls0 Htool Hpromised Hlt.
  induction n as [|n IH]; intros b calls0 Htool Hpromised Hlt.
  - exists b. simpl. rewrite app_nil_r. auto.
  - cbn [replicate foldl].
    pose proof (handleRequest_start_facts tools b request) as (Hs & Hm & Hfacts).
    destruct (handleRequest_start tools b request) as [s b'] eqn:Hstart.
    cbn [fst snd] in Hs, Hm, Hfacts.
    assert (Hawait : s = Awaiting (pendingFor tools b request)
              /\ failedCallSignatures b' = failedCallSignatures b
              /\ toolCallRecords b' = toolCallRecords b).
    { destruct s as [response|p].
      - exfalso. revert Hstart. unfold handleRequest_start.
        destruct (recordWarnings_keeps b (Request.toolName request)
                    (warnings (requestNormalization b request))) as (Hm' & _ & _ & _ & Hf').
        rewrite Hf', Hm', Htool, Hexec, Hpromised.
        unfold failCountOf, requestSignature in Hlt. apply Nat.leb_gt in Hlt.
        rewrite Hlt. discriminate.
      - destruct Hfacts as (H1 & H2 & H3 & H4 & H5 & _ & H7 & H8).
        split; [|auto]. unfold pendingFor. rewrite Hpromised in *.
        destruct p. simpl in *. congruence. }
    destruct Hawait as (-> & Hf & Hr).
    assert (Hnorm : requestNormalization b' request = requestNormalization b request).
    { unfold requestNormalization. by rewrite Hs. }
    assert (Hsame : pendingFor tools b' request = pendingFor tools b request).
    { unfold pendingFor, failCountOf, requestSignature. rewrite Hnorm, Hf. reflexivity. }
    destruct (IH b' (push calls0 (Awaiting (pendingFor tools b request))))
      as (b1 & Hfold & Hf1 & Hr1).
    + rewrite Hm. exact Htool.
    + rewrite Hnorm. exact Hpromised.
    + change (pending_failCount (pendingFor tools b' request) < MAX_RETRIES)%nat.
      rewrite Hsame. exact Hlt.
    + exists b1. rewrite Hfold, Hsame, Hf1, Hr1, Hf, Hr.
      split; [|auto]. f_equal. unfold push. rewrite <- app_assoc. reflexivity.
Qed.

Lemma batchSettle_rejected (p : Pending) (message : string)
    (settled : list (nat * Pending)) (b : MCPToolBridge)
    (answers0 : list (nat * Response.t)) :
  pending_outcome p = Rejected message ->
  Forall (fun ip => ip.2 = p) settled ->
  let result :=
    foldl (fun '(answers, b) '(i, p) =>
             let '(response, b) := handleRequest_resume b p in
             (push answers (i, response), b))
          (answers0, b) settled in
  toolCallRecords result.2
  = (toolCallRecords b
     ++ replicate (length settled)
          {| CallRecord.toolName := Request.toolName (pending_request p);
             CallRecord.args := Request.args (pending_request p);
             CallRecord.normalizedArgs := pending_normalized p;
             CallRecord.result := None;
             CallRecord.rawResult := None;
             CallRecord.error := Some message |})%list
  /\ failedCallSignatures result.2
     = (if settled is [] then failedCallSignatures b
        else <[pending_callSignature p := (pending_failCount p + 1)%nat]>
               (failedCallSignatures b)).
Proof.
  intros Hout Hall. revert b answers0.
  induction Hall as [|[i q] settled Hq Hall IH]; intros b answers0; cbv zeta.
  - simpl. rewrite app_nil_r. split; reflexivity.
  - simpl in Hq. subst q. cbn [foldl].
    destruct (handleRequest_resume b p) as [response b1] eqn:Hres.
    unfold handleRequest_resume in Hres. rewrite Hout in Hres.
    cbn [handleFailure] in Hres. injection Hres as Hresponse Hb1.
    destruct (IH b1 (push answers0 (i, response))) as (Hrec & Hf).
    split.
    + rewrite Hrec. subst b1. cbn [toolCallRecords length replicate]. unfold push.
      rewrite <- app_assoc. reflexivity.
    + rewrite Hf. subst b1. cbn [failedCallSignatures].
      destruct settled; [reflexivity|]. apply insert_insert_eq.
Qed.

(** X17: the circuit breaker does not count failures that overlap.  When a
    batch holds [n] copies of a request whose signature has fewer than
    [MAX_RETRIES] recorded failures, and the tool returns a promise that
    is rejected, every copy calls the tool and leaves its record, however
    large [n] is; and the failure count afterwards is one more than
    before, in whatever order the promises settle: each copy read the
    count before any was resumed. *)
Theorem executeBatch_bypasses_breaker (tools : string -> value -> called)
    (b : MCPToolBridge) (request : Request.t) (tool : Tool) (message : string)
    (n : nat) (settled : list (nat * Pending)) :
  mcpTools b !! Request.toolName request = Some tool ->
  tool_has_execute tool = true ->
  (failCountOf b (requestSignature b request) < MAX_RETRIES)%nat ->
  tools (Request.toolName request) (normalized (requestNormalization b request))
  = Promised (Rejected message) ->
  (0 < n)%nat ->
  settleOrder tools b (replicate n request) settled ->
  let b' := (executeBatch tools b (replicate n request) settled).2 in
  toolCallRecords b'
  = (toolCallRecords b
     ++ replicate n
          {| CallRecord.toolName := Request.toolName request;
             CallRecord.args := Request.args request;
             CallRecord.normalizedArgs := normalized (requestNormalization b request);
             CallRecord.result := None;
             CallRecord.rawResult := None;
             CallRecord.error := Some message |})%list
  /\ failCountOf b' (requestSignature b request)
     = (failCountOf b (requestSignature b request) + 1)%nat.
Proof.
  intros Htool Hexec Hlt Hrej Hn Horder. cbv zeta.
  unfold settleOrder, executeBatch, batchStart, batchSettle in *.
  destruct (batchStart_replicate tools request tool (Rejected message) n b []
              Htool Hexec Hrej Hlt) as (b1 & Hfold & Hf1 & Hr1).
  rewrite Hfold in *. cbn [fst app] in Horder.
  assert (Hall : Forall (fun ip : nat * Pending => ip.2 = pendingFor tools b request)
                        settled).
  { apply Forall_forall. intros [i p] Hin. rewrite Horder in Hin.
    apply elem_of_pendingOf in Hin. apply lookup_replicate in Hin as [Hp _].
    injection Hp as <-. reflexivity. }
  assert (Hlen : length settled = n).
  { rewrite Horder. unfold pendingOf. clear.
    generalize (pendingFor tools b request). intros p.
    assert (Hshift : forall (f : nat -> nat),
              length (omap id (imap (fun i s =>
                        match s with
                        | Awaiting p => Some (f i, p)
                        | Returned _ => None
                        end) (replicate n (Awaiting p)))) = n).
    { induction n as [|n IH]; intros f; [reflexivity|].
      simpl. f_equal. apply (IH (fun i => f (S i))). }
    apply (Hshift (fun i => i)). }
  assert (Hout : pending_outcome (pendingFor tools b request) = Rejected message).
  { cbn [pendingFor pending_outcome]. by rewrite Hrej. }
  pose proof (batchSettle_rejected (pendingFor tools b request) message settled b1 []
                Hout Hall) as (Hrec & Hf).
  cbv zeta in Hrec, Hf.
  destruct (foldl _ ([], b1) settled) as [answers b2]. cbn [fst snd] in *.
  split.
  - rewrite Hrec, Hr1, Hlen. reflexivity.
  - unfold failCountOf at 1. rewrite Hf, Hf1.
    destruct settled; [simpl in Hlen; lia|].
    cbn [pendingFor pending_callSignature pending_failCount].
    rewrite lookup_insert_eq. reflexivity.
Qed.

(** A call whose tool fails, run to its end: below [MAX_RETRIES] it is
    counted and leaves a record, from [MAX_RETRIES] on it changes neither. *)
Lemma call_failing (b : MCPToolBridge) (request : Request.t)
    (exec : string -> value -> outcome) (message : string) :
  exec (Request.toolName request) (normalized (requestNormalization b request))
  = Rejected message ->
  let s := requestSignature b request in
  let b' := (call b (request, exec)).2 in
  toolSchemas b' = toolSchemas b
  /\ isError (call b (request, exec)).1 = true
  /\ failCountOf b' s = (if Nat.leb MAX_RETRIES (failCountOf b s) then failCountOf b s
                         else failCountOf b s + 1)%nat
  /\ length (toolCallRecords b')
     = (length (toolCallRecords b)
        + if Nat.leb MAX_RETRIES (failCountOf b s) then 0 else 1)%nat.
Proof.
  intros Hrej. cbv zeta.
  split; [apply (call_cases b (request, exec))|].
  split; [|split; [|exact (call_records b (request, exec))]].
  - unfold call, handleRequest. cbn [fst snd].
    destruct (Nat.leb _ _); [reflexivity|].
    destruct (mcpTools _ !! _) as [tool|]; [|reflexivity].
    destruct (tool_has_execute tool); cbn [negb interp]; [|reflexivity].
    rewrite Hrej. reflexivity.
  - unfold call, handleRequest, requestSignature, failCountOf. cbn [fst snd].
    destruct (recordWarnings_keeps b (Request.toolName request)
                (warnings (requestNormalization b request))) as (_ & _ & _ & _ & Hf).
    rewrite Hf.
    destruct (Nat.leb _ _); [cbn [interp snd]; by rewrite Hf|].
    assert (Hfail : forall msg,
              default 0%nat
                (failedCallSignatures
                   (handleFailure
                      (recordWarnings b (Request.toolName request)
                         (warnings (requestNormalization b request)))
                      request (normalized (requestNormalization b request))
                      (getCallSignature (Request.toolName request)
                         (normalized (requestNormalization b request)))
                      (default 0%nat
                         (failedCallSignatures b
                            !! getCallSignature (Request.toolName request)
                                 (normalized (requestNormalization b request))))
                      msg).2
                 !! getCallSignature (Request.toolName request)
                      (normalized (requestNormalization b request)))
              = (default 0%nat
                   (failedCallSignatures b
                      !! getCallSignature (Request.toolName request)
                           (normalized (requestNormalization b request))) + 1)%nat).
    { intros msg. cbn [handleFailure snd failedCallSignatures].
      rewrite lookup_insert_eq. reflexivity. }
    destruct (mcpTools _ !! _) as [tool|]; cbn [interp]; [|apply Hfail].
    destruct (tool_has_execute tool); cbn [negb interp]; [|apply Hfail].
    rewrite Hrej. cbn [interp]. apply Hfail.
Qed.

Lemma runCalls_failing (exec : string -> value -> outcome) (request : Request.t)
    (message : string) (n : nat) (b : MCPToolBridge) :
  exec (Request.toolName request) (normalized (requestNormalization b request))
  = Rejected message ->
  let s := requestSignature b request in
  let b' := runCalls b (replicate n (request, exec)) in
  failCountOf b' s
  = Nat.max (failCountOf b s) (Nat.min (failCountOf b s + n) MAX_RETRIES)
  /\ length (toolCallRecords b')
     = (length (toolCallRecords b) + Nat.min n (MAX_RETRIES - failCountOf b s))%nat.
Proof.
  revert b. induction n as [|n IH]; intros b Hrej; cbv zeta.
  - cbn [replicate runCalls foldl]. unfold MAX_RETRIES. lia.
  - change (runCalls b (replicate (S n) (request, exec)))
      with (runCalls (call b (request, exec)).2 (replicate n (request, exec))).
    destruct (call_failing b request exec message Hrej) as (Hs & _ & Hcount & Hlen).
    cbv zeta in Hcount, Hlen.
    assert (Hnorm : requestNormalization (call b (request, exec)).2 request
                    = requestNormalization b request).
    { unfold requestNormalization. by rewrite Hs. }
    assert (Hsig : requestSignature (call b (request, exec)).2 request
                   = requestSignature b request)
      by (apply requestSignature_schemas; exact Hs).
    destruct (IH (call b (request, exec)).2) as (Hc & Hl).
    { rewrite Hnorm. exact Hrej. }
    cbv zeta in Hc, Hl. rewrite Hsig in Hc, Hl. rewrite Hc, Hl, Hcount, Hlen.
    unfold MAX_RETRIES.
    destruct (Nat.leb 3 (failCountOf b (requestSignature b request))) eqn:Hle;
      [apply Nat.leb_le in Hle|apply Nat.leb_gt in Hle]; lia.
Qed.

Lemma batchStart_threw (tools : string -> value -> called) (request : Request.t)
    (message : string) (n : nat) (b : MCPToolBridge) (calls0 : list started) :
  tools (Request.toolName request) (normalized (requestNormalization b request))
  = Threw message ->
  exists responses,
    foldl (fun '(calls, b) request =>
             let '(s, b) := handleRequest_start tools b request in
             (push calls s, b))
          (calls0, b) (replicate n request)
    = ((calls0 ++ (Returned <$> responses))%list,
       runCalls b (replicate n (request, awaited tools)))
    /\ length responses = n
    /\ Forall (fun response => isError response = true) responses.
Proof.
  revert b calls0. induction n as [|n IH]; intros b calls0 Hthrew.
  - exists []. cbn [replicate foldl fmap list_fmap]. rewrite app_nil_r.
    split; [reflexivity|]. split; [reflexivity|constructor].
  - cbn [replicate foldl].
    destruct (handleRequest_start_threw tools b request message Hthrew)
      as (response & b' & Hstart).
    rewrite Hstart.
    pose proof (handleRequest_start_returned tools b b' request response Hstart) as Hcall.
    assert (Hrej : awaited tools (Request.toolName request)
                     (normalized (requestNormalization b request)) = Rejected message).
    { unfold awaited. by rewrite Hthrew. }
    destruct (call_failing b request (awaited tools) message Hrej) as (Hs & Herr & _).
    rewrite Hcall in Hs, Herr. cbn [fst snd] in Hs, Herr.
    destruct (IH b' (push calls0 (Returned response))) as (responses & Hfold & Hlen & Hall).
    { unfold requestNormalization. rewrite Hs. exact Hthrew. }
    exists (response :: responses). rewrite Hfold. split.
    + unfold push. rewrite <- app_assoc. f_equal.
      unfold runCalls. cbn [foldl]. by rewrite Hcall.
    + split; [simpl; by rewrite Hlen|by constructor].
Qed.

Lemma pendingOf_returned (responses : list Response.t) :
  pendingOf (Returned <$> responses) = [].
Proof.
  unfold pendingOf.
  assert (Hshift : forall (f : nat -> nat),
            omap id (imap (fun i s => match s with
                                      | Awaiting p => Some (f i, p)
                                      | Returned _ => None
                                      end) (Returned <$> responses)) = []).
  { induction responses as [|r responses IH]; intros f; [reflexivity|].
    simpl. apply (IH (fun i => f (S i))). }
  apply (Hshift (fun i => i)).
Qed.

Lemma batchResponses_returned (responses : list Response.t) :
  batchResponses (Returned <$> responses) [] = Some responses.
Proof.
  unfold batchResponses.
  assert (Hall : forall (g : nat -> started -> option Response.t),
            (forall i r, g i (Returned r) = Some r) ->
            mapM id (imap g (Returned <$> responses)) = Some responses).
  { induction responses as [|r responses IH]; intros g Hg; [reflexivity|].
    cbn [fmap list_fmap imap mapM]. rewrite Hg, IH; [reflexivity|].
    intros i r'. apply Hg. }
  apply Hall. reflexivity.
Qed.

(** X27: failures that do not overlap are counted, also in a batch.  When
    the tool of a request throws at the call, before it returns a promise,
    a batch of [n] copies of the request waits for nothing: every copy is
    answered with an error when it is started, and the bridge afterwards is
    the bridge after the same calls one after the other.  The failure
    count rises by one for each copy up to [MAX_RETRIES], and only the
    copies below [MAX_RETRIES] call the tool and leave a record. *)
Theorem executeBatch_counts_throws (tools : string -> value -> called)
    (b : MCPToolBridge) (request : Request.t) (message : string) (n : nat)
    (settled : list (nat * Pending)) :
  tools (Request.toolName request) (normalized (requestNormalization b request))
  = Threw message ->
  settleOrder tools b (replicate n request) settled ->
  let s := requestSignature b request in
  let batch := executeBatch tools b (replicate n request) settled in
  settled = []
  /\ (exists responses,
        batch.1 = Some responses /\ length responses = n
        /\ Forall (fun response => isError response = true) responses)
  /\ batch.2 = runCalls b (replicate n (request, awaited tools))
  /\ failCountOf batch.2 s
     = Nat.max (failCountOf b s) (Nat.min (failCountOf b s + n) MAX_RETRIES)
  /\ length (toolCallRecords batch.2)
     = (length (toolCallRecords b) + Nat.min n (MAX_RETRIES - failCountOf b s))%nat.
Proof.
  intros Hthrew Horder. cbv zeta.
  unfold settleOrder, executeBatch, batchStart, batchSettle in *.
  destruct (batchStart_threw tools request message n b [] Hthrew)
    as (responses & Hfold & Hlen & Hall).
  rewrite Hfold in *. cbn [fst app] in Horder.
  rewrite pendingOf_returned in Horder. apply Permutation_nil_r in Horder.
  subst settled. cbn [foldl fst snd app].
  assert (Hrej : awaited tools (Request.toolName request)
                   (normalized (requestNormalization b request)) = Rejected message).
  { unfold awaited. by rewrite Hthrew. }
  destruct (runCalls_failing (awaited tools) request message n b Hrej) as (Hc & Hl).
  split; [reflexivity|]. split.
  - exists responses. by rewrite batchResponses_returned.
  - split; [reflexivity|]. split; [exact Hc|exact Hl].
Qed.

End BatchFacts.

Lemma executeBatch_responses_witness :
  exists responses,
    (@executeBatch model_platform (promised alwaysRejects) scrapeBridge
       [scrapeRecordRequest; scrapeStringRequest]
       (reverse (pendingOf (@batchStart model_platform (promised alwaysRejects)
                              scrapeBridge
                              [scrapeRecordRequest; scrapeStringRequest]).1))).1
    = Some responses
    /\ Response.callId <$> responses = [VStr "mcp_1_a"; VStr "mcp_2_b"].
Proof.
  exact (proj1 (@executeBatch_responses model_platform (promised alwaysRejects)
                  scrapeBridge [scrapeRecordRequest; scrapeStringRequest] _
                  (reverse_Permutation _))).
Defined.

Lemma executeBatch_bypasses_breaker_witness :
  failCountOf
    (@executeBatch model_platform (promised alwaysRejects) flakyBridge
       (replicate 5 flakyRequest)
       (reverse (pendingOf (@batchStart model_platform (promised alwaysRejects)
                              flakyBridge (replicate 5 flakyRequest)).1))).2
    (@requestSignature model_platform flakyBridge flakyRequest)
  = 1%nat.
Proof.
  refine (proj2 (@executeBatch_bypasses_breaker model_platform (promised alwaysRejects)
                   flakyBridge flakyRequest executableTool "boom" 5 _ eq_refl eq_refl _
                   eq_refl _ (reverse_Permutation _))).
  - vm_compute. lia.
  - lia.
Defined.

Lemma executeBatch_counts_throws_witness :
  failCountOf
    (@executeBatch model_platform alwaysThrows flakyBridge (replicate 5 flakyRequest) []).2
    (@requestSignature model_platform flakyBridge flakyRequest)
  = 3%nat
  /\ length (toolCallRecords
               (@executeBatch model_platform alwaysThrows flakyBridge
                  (replicate 5 flakyRequest) []).2)
     = 3%nat.
Proof.
  assert (Horder : @settleOrder model_platform alwaysThrows flakyBridge
                     (replicate 5 flakyRequest) []).
  { unfold settleOrder. vm_compute. constructor. }
  destruct (@executeBatch_counts_throws model_platform alwaysThrows flakyBridge
              flakyRequest "boom" 5 [] eq_refl Horder) as (_ & _ & _ & Hc & Hl).
  split; [exact Hc|exact Hl].
Defined.

(** ** A call from the worker and back *)

Section RoundTripFacts.
Context `{Platform}.

(** X18: a local call there and back.  When the worker's stub has
    written its request, one round of the monitor has run and the stub
    polls, the call returns what the tool resolved to, or throws the
    message the tool rejected with; a rejection with an empty message is
    not seen: the call returns [undefined].  Both files of the call are
    gone afterwards.  (For a platform whose [JSON.parse] reads back the
    request and the response envelope.) *)
Theorem local_call_round_trip (exec : string -> value -> outcome)
    (this : ToolOrchestrationSandbox) (fs : Files) (callId name : string)
    (argv : list value) :
  mcpBridge this = None ->
  quoteFree exec ->
  name ∈ toolRegistry this ->
  glob_match "/tmp/tool_call_" (callFile callId) = true ->
  JSON_parse (template (JSON_stringify (localRequest name (Arr argv))))
  = Some (localRequest name (Arr argv)) ->
  let st := tick exec (this, stubRequestLocal callId name (Arr argv) fs) in
  let answer := stubPollLocal callId st.2 in
  (forall result,
     exec name (Arr argv) = Resolved result ->
     JSON_parse (dataEnvelope result ++ newline) = Some (VObj [("data", result)]) ->
     answer.2 = Some (Normal result))
  /\ (forall message,
        exec name (Arr argv) = Rejected message ->
        JSON_parse (errorEnvelope message ++ newline)
        = Some (VObj [("error", VStr message)]) ->
        answer.2 = Some (if String.eqb message "" then Normal VUndefined
                         else Throw message))
  /\ answer.1 !! callFile callId = None
  /\ answer.1 !! resultFile callId = None.
Proof.
  intros Hnone Hquote Hreg Hglob Hparse st answer.
  assert (Hfile : st.2 !! resultFile callId
                  = Some (match exec name (Arr argv) with
                          | Resolved result => dataEnvelope result
                          | Rejected message => errorEnvelope message
                          end ++ newline)).
  { subst st. rewrite (tick_local exec this _ Hnone).
    change (resultFile callId)
      with (replace "tool_call_" "tool_result_" (callFile callId)).
    apply (forEach_local_response exec (stubRequestLocal callId name (Arr argv) fs)
             this (callFile callId) name (localRequest name (Arr argv)) (Arr argv)).
    - exact Hquote.
    - unfold cat, stubRequestLocal. fold (callFile callId).
      rewrite lookup_insert_eq. exact Hparse.
    - reflexivity.
    - exact Hreg.
    - reflexivity.
    - apply ls_glob.
    - apply NoDup_ls.
    - apply elem_of_ls. split; [exact Hglob|].
      unfold stubRequestLocal. fold (callFile callId). rewrite lookup_insert_eq.
      by eexists.
    - reflexivity.
    - reflexivity. }
  subst answer. unfold stubPollLocal.
  change ("/tmp/tool_call_" ++ callId ++ ".json") with (callFile callId).
  change ("/tmp/tool_result_" ++ callId ++ ".json") with (resultFile callId).
  rewrite Hfile. cbn [fst snd].
  split; [|split; [|split]].
  - intros result Hres Hround. rewrite Hres, Hround. reflexivity.
  - intros message Hrej Hround. rewrite Hrej, Hround.
    cbn [get_checked get assoc String.eqb Ascii.eqb Bool.eqb default from_option id
         mbind completion_bind truthy ToString].
    destruct (String.eqb message ""); reflexivity.
  - rewrite lookup_delete_ne, lookup_delete_eq; [reflexivity|].
    unfold resultFile, callFile. discriminate.
  - apply lookup_delete_eq.
Qed.

End RoundTripFacts.

Lemma local_call_round_trip_witness :
  (@stubPollLocal model_platform "17-abc"
     (@tick model_platform returnsUser
        (sandboxWith [],
         stubRequestLocal "17-abc" "getUser"
           (Arr [VObj [("id", VStr "1")]]) ∅)).2).2
  = Some (Normal (VObj [("id", VStr "1"); ("score", VInt 10)])).
Proof.
  refine (proj1 (@local_call_round_trip model_platform returnsUser (sandboxWith []) ∅
                   "17-abc" "getUser" [VObj [("id", VStr "1")]]
                   eq_refl _ _ eq_refl _) _ eq_refl _).
  - intros ? ? ? [=].
  - vm_compute. set_solver.
  - vm_compute. reflexivity.
  - vm_compute. reflexivity.
Defined.

Lemma ls_nil_insert_other (pre p x : string) (fs : Files) :
  ls pre fs = [] -> glob_match pre p = false -> ls pre (<[p := x]> fs) = [].
Proof.
  intros Hnil Hglob. apply Permutation_nil_r.
  rewrite <- Hnil. apply ls_Permutation. intros q Hq.
  apply lookup_insert_ne. intros ->. congruence.
Qed.

Lemma ls_nil_insert (pre p x : string) (fs : Files) :
  ls pre fs = [] -> glob_match pre p = true -> ls pre (<[p := x]> fs) = [p].
Proof.
  intros Hnil Hglob. apply Permutation_singleton_r.
  apply NoDup_Permutation; [apply NoDup_ls|apply NoDup_singleton|].
  intros q. rewrite elem_of_ls, list_elem_of_singleton. split.
  - intros [Hq Hsome]. destruct (decide (q = p)) as [->|Hne]; [reflexivity|].
    rewrite lookup_insert_ne in Hsome by congruence.
    assert (Hin : q ∈ ls pre fs) by (apply elem_of_ls; auto).
    rewrite Hnil in Hin. inversion Hin.
  - intros ->. split; [exact Hglob|]. rewrite lookup_insert_eq. by eexists.
Qed.

Section MCPRoundTripFacts.
Context `{Platform}.

(** One request of an MCP stub, serviced. *)
Lemma processMCPToolCall_request (exec : string -> value -> outcome)
    (this : ToolOrchestrationSandbox) (bridge : MCPToolBridge) (fs : Files)
    (callId name : string) (args : value) :
  mcpBridge this = Some bridge ->
  JSON_parse (cat fs (mcpCallFile callId)) = Some (mcpRequest callId name args) ->
  let handled := call bridge ({| Request.toolName := name;
                                 Request.args := args;
                                 Request.callId := VStr callId |}, exec) in
  let st := interp exec (processMCPToolCall (this, fs) (mcpCallFile callId)) in
  mcpBridge st.1 = Some handled.2
  /\ length (toolCalls st.1) = (length (toolCalls this) + 1)%nat
  /\ st.2 = match Response.error handled.1 with
            | Some message =>
                if String.eqb message ""
                then write_heredoc (mcpResultFile callId) (dataEnvelope VUndefined) fs
                else write_echo (errorEnvelope message) (mcpResultFile callId) fs
            | None =>
                write_heredoc (mcpResultFile callId)
                  (dataEnvelope (default VUndefined (Response.data handled.1))) fs
            end.
Proof.
  intros Hbridge Hparse handled st. subst st handled.
  unfold processMCPToolCall. rewrite Hbridge, Hparse.
  cbn [mcpRequest get_checked get assoc String.eqb Ascii.eqb Bool.eqb default
       from_option id ToString].
  change (replace "mcp_call_" "mcp_result_" (mcpCallFile callId))
    with (mcpResultFile callId).
  rewrite interp_bind. unfold call. cbn [fst snd].
  destruct (interp exec (handleRequest bridge _)) as [response bridge'].
  cbn [fst snd].
  destruct (Response.error response) as [message|]; [destruct (String.eqb message "")|];
    cbn [interp fst snd with_toolCalls with_mcpBridge mcpBridge toolCalls];
    unfold push; rewrite length_app; repeat split.
Qed.

(** X19: an MCP call there and back.  With no other request pending,
    when the stub of an MCP tool has written its request, one round of
    the monitor has run and the stub polls, the call returns the data of
    the response that [handleRequest] gave to that request, or throws its
    error, and both files of the call are gone; the monitor keeps the
    bridge as [handleRequest] left it and adds one call record.  (For a
    platform whose [JSON.parse] reads back the request and the response
    envelope; error texts without a single quote.) *)
Theorem mcp_call_round_trip (exec : string -> value -> outcome)
    (this : ToolOrchestrationSandbox) (bridge : MCPToolBridge) (fs : Files)
    (callId name : string) (args : value) :
  mcpBridge this = Some bridge ->
  ls "/tmp/tool_call_" fs = [] ->
  ls "/tmp/mcp_call_" fs = [] ->
  glob_match "/tmp/mcp_call_" (mcpCallFile callId) = true ->
  JSON_parse (template (JSON_stringify (mcpRequest callId name args)))
  = Some (mcpRequest callId name args) ->
  let handled := call bridge ({| Request.toolName := name;
                                 Request.args := args;
                                 Request.callId := VStr callId |}, exec) in
  let st := tick exec (this, stubRequestMCP callId name args fs) in
  let answer := stubPollMCP callId st.2 in
  mcpBridge st.1 = Some handled.2
  /\ length (toolCalls st.1) = (length (toolCalls this) + 1)%nat
  /\ (forall data,
        Response.error handled.1 = None ->
        Response.data handled.1 = Some data ->
        JSON_parse (dataEnvelope data ++ newline) = Some (VObj [("data", data)]) ->
        answer.2 = Some (Normal data)
        /\ answer.1 !! mcpCallFile callId = None
        /\ answer.1 !! mcpResultFile callId = None)
  /\ (forall message,
        Response.error handled.1 = Some message ->
        message <> "" ->
        includes (errorEnvelope message) "'" = false ->
        JSON_parse (errorEnvelope message ++ newline)
        = Some (VObj [("error", VStr message)]) ->
        answer.2 = Some (Throw message)
        /\ answer.1 !! mcpCallFile callId = None
        /\ answer.1 !! mcpResultFile callId = None).
Proof.
  intros Hbridge Hlocal Hmcp Hglob Hparse handled st answer.
  assert (Hglob' : glob_match "/tmp/tool_call_" (mcpCallFile callId) = false)
    by reflexivity.
  assert (Hst : st = interp exec (processMCPToolCall
                                    (this, stubRequestMCP callId name args fs)
                                    (mcpCallFile callId))).
  { subst st. unfold tick, monitorTick. rewrite interp_bind, interp_forEach.
    unfold stubRequestMCP. fold (mcpCallFile callId). cbn [snd].
    rewrite (ls_nil_insert_other _ _ _ _ Hlocal Hglob').
    cbn [foldl fst snd]. rewrite Hbridge, interp_forEach.
    rewrite (ls_nil_insert _ _ _ _ Hmcp Hglob). reflexivity. }
  pose proof (processMCPToolCall_request exec this bridge
                (stubRequestMCP callId name args fs) callId name args Hbridge)
    as Hreq.
  cbv zeta in Hreq. rewrite <- Hst in Hreq. fold handled in Hreq.
  destruct Hreq as (Hb & Hlen & Hfs).
  { unfold cat, stubRequestMCP. fold (mcpCallFile callId).
    rewrite lookup_insert_eq. exact Hparse. }
  split; [exact Hb|]. split; [exact Hlen|].
  subst answer. unfold stubPollMCP.
  change ("/tmp/mcp_call_" ++ callId ++ ".json") with (mcpCallFile callId).
  change ("/tmp/mcp_result_" ++ callId ++ ".json") with (mcpResultFile callId).
  assert (Hclean : forall (fs' : Files),
            delete (mcpResultFile callId) (delete (mcpCallFile callId) fs')
              !! mcpCallFile callId = None
            /\ delete (mcpResultFile callId) (delete (mcpCallFile callId) fs')
                 !! mcpResultFile callId = None).
  { intros fs'. split; [|apply lookup_delete_eq].
    rewrite lookup_delete_ne, lookup_delete_eq; [reflexivity|].
    unfold mcpResultFile, mcpCallFile. discriminate. }
  split.
  - intros data Herr Hdata Hround. rewrite Hfs, Herr, Hdata. cbn [default from_option id].
    unfold write_heredoc. rewrite lookup_insert_eq, Hround. cbn [fst snd].
    split; [reflexivity|apply Hclean].
  - intros message Herr Hne Hquote Hround. rewrite Hfs, Herr.
    apply String.eqb_neq in Hne. rewrite Hne.
    unfold write_echo. rewrite Hquote, lookup_insert_eq, Hround.
    cbn [get_checked get assoc String.eqb Ascii.eqb Bool.eqb default from_option id
         mbind completion_bind truthy ToString fst snd].
    rewrite Hne. split; [reflexivity|apply Hclean].
Qed.

End MCPRoundTripFacts.

Lemma mcp_call_round_trip_witness :
  (@stubPollMCP model_platform "mcp_1_a"
     (@tick model_platform answersFortyTwo
        (mcpSandbox,
         stubRequestMCP "mcp_1_a" "mcp_firecrawl_scrape" (VObj [("url", VStr "x")]) ∅)).2).2
  = Some (Normal (VInt 42)).
Proof.
  refine (proj1 (proj1 (proj2 (proj2 (@mcp_call_round_trip model_platform answersFortyTwo
            mcpSandbox scrapeBridge ∅ "mcp_1_a" "mcp_firecrawl_scrape"
            (VObj [("url", VStr "x")]) eq_refl eq_refl eq_refl eq_refl _)))
          (VInt 42) _ _ _)).
  all: vm_compute; reflexivity.
Defined.

(** ** More of the savings accountant *)

Lemma roundTripLoop_base (base : Z) (sizes : list Z) (numCalls : nat) :
  roundTripLoop base sizes numCalls
  = ((roundTripLoop 0 sizes numCalls).1 + Z.of_nat (numCalls - 1) * base,
     (roundTripLoop 0 sizes numCalls).2).
Proof.
  unfold roundTripLoop.
  assert (Hgen : forall (indices : list nat) (r a k : Z),
            foldl (fun '(roundTrip, accumulated) i =>
                     let accumulated := accumulated + sizeOr50 sizes i in
                     (roundTrip + (base + accumulated), accumulated))
                  (r + k * base, a) indices
            = ((foldl (fun '(roundTrip, accumulated) i =>
                         let accumulated := accumulated + sizeOr50 sizes i in
                         (roundTrip + (0 + accumulated), accumulated))
                      (r, a) indices).1 + (k + Z.of_nat (length indices)) * base,
               (foldl (fun '(roundTrip, accumulated) i =>
                         let accumulated := accumulated + sizeOr50 sizes i in
                         (roundTrip + (0 + accumulated), accumulated))
                      (r, a) indices).2)).
  { induction indices as [|i indices IH]; intros r a k.
    - simpl. f_equal. ring.
    - cbn [foldl length].
      replace (r + k * base + (base + (a + sizeOr50 sizes i)))
        with ((r + (0 + (a + sizeOr50 sizes i))) + (k + 1) * base) by ring.
      rewrite IH. f_equal. rewrite Nat2Z.inj_succ. ring. }
  specialize (Hgen (seq 1 (numCalls - 1)) 0 0 0).
  rewrite length_seq in Hgen. rewrite Z.mul_0_l, Z.add_0_l in Hgen. exact Hgen.
Qed.

Lemma estimate_is_sum (calls : list ToolCall.t) (start : Z) :
  foldl (fun estimate call =>
           if truthy (ToolCall.result call)
           then estimate + tokensOf (ToolCall.result call)
           else estimate) start calls
  = foldl Z.add start (resultSizesOf calls).
Proof.
  revert start. induction calls as [|call calls IH]; intros start; [reflexivity|].
  unfold resultSizesOf in *. simpl.
  destruct (truthy (ToolCall.result call)); simpl; apply IH.
Qed.

Section SavingsMoreFacts.
Context `{Platform}.

(** X20: the base context is credited once for every avoided round trip:
    with [n] calls the round-trip savings for a base estimate are those for
    the base [0] plus [(n - 1) * base], and so is the total; the other
    three categories do not depend on the base. *)
Theorem savings_linear_in_base (this : ToolOrchestrationSandbox) (base : Z) :
  let n := length (toolCalls this) in
  let savings := getComprehensiveTokenSavings this base in
  let savings0 := getComprehensiveTokenSavings this 0 in
  roundTripContextTokens savings
  = roundTripContextTokens savings0 + Z.of_nat (n - 1) * base
  /\ totalSaved savings = totalSaved savings0 + Z.of_nat (n - 1) * base
  /\ intermediateResultTokens savings = intermediateResultTokens savings0
  /\ toolCallOverheadTokens savings = toolCallOverheadTokens savings0
  /\ llmDecisionTokens savings = llmDecisionTokens savings0.
Proof.
  cbv zeta. unfold getComprehensiveTokenSavings.
  destruct (Nat.leb (length (toolCalls this)) 1) eqn:Hn.
  - apply Nat.leb_le in Hn. cbn [roundTripContextTokens totalSaved
      intermediateResultTokens toolCallOverheadTokens llmDecisionTokens].
    replace (length (toolCalls this) - 1)%nat with 0%nat by lia.
    repeat split; lia.
  - cbn [roundTripContextTokens totalSaved intermediateResultTokens
         toolCallOverheadTokens llmDecisionTokens].
    rewrite (roundTripLoop_base base). cbn [fst]. repeat split; lia.
Qed.

(** X21: the two accountants of the sandbox agree on the intermediate
    results: for two calls or more the first category of
    [getComprehensiveTokenSavings] is [getIntermedateTokenEstimate]; for a
    single call the former reports [0] whatever the result. *)
Theorem intermediate_estimates_agree (this : ToolOrchestrationSandbox) (base : Z) :
  ((1 < length (toolCalls this))%nat ->
   intermediateResultTokens (getComprehensiveTokenSavings this base)
   = getIntermedateTokenEstimate this)
  /\ ((length (toolCalls this) <= 1)%nat ->
      intermediateResultTokens (getComprehensiveTokenSavings this base) = 0)
  /\ 0 <= getIntermedateTokenEstimate this.
Proof.
  unfold getComprehensiveTokenSavings, getIntermedateTokenEstimate.
  rewrite estimate_is_sum. split; [|split].
  - intros Hn. apply Nat.leb_gt in Hn. rewrite Hn. reflexivity.
  - intros Hn. apply Nat.leb_le in Hn. rewrite Hn. reflexivity.
  - apply sum_nonneg; [apply resultSizesOf_nonneg|lia].
Qed.

End SavingsMoreFacts.

(** ** The wrapper and the MCP servers *)

Lemma startsWith_prefixedName (name : string) :
  startsWith (prefixedName name) "mcp_" = true.
Proof.
  unfold prefixedName. destruct (startsWith name "mcp_") eqn:E; [exact E|].
  unfold startsWith. destruct name; reflexivity.
Qed.

Lemma getMCPClientTools_keys (tools : list (string * Tool)) (k : string) (t : Tool) :
  getMCPClientTools tools !! k = Some t ->
  startsWith k "mcp_" = true /\ exists name, (name, t) ∈ tools /\ k = prefixedName name.
Proof.
  unfold getMCPClientTools.
  assert (Hgen : forall (m : gmap string Tool),
            foldl (fun prefixedTools nt => <[prefixedName nt.1 := nt.2]> prefixedTools)
                  m tools !! k = Some t ->
            m !! k = Some t
            \/ startsWith k "mcp_" = true
               /\ exists name, (name, t) ∈ tools /\ k = prefixedName name).
  { induction tools as [|[name tool] tools IH]; intros m Hk; [by left|].
    simpl in Hk. destruct (IH _ Hk) as [Hm|(Hs & name' & Hin & ->)].
    - destruct (decide (prefixedName name = k)) as [<-|Hne].
      + rewrite lookup_insert_eq in Hm. injection Hm as ->. right.
        split; [apply startsWith_prefixedName|]. exists name. split; [left|reflexivity].
      + rewrite lookup_insert_ne in Hm by exact Hne. by left.
    - right. split; [exact Hs|]. exists name'. split; [by right|reflexivity]. }
  intros Hk. destruct (Hgen ∅ Hk) as [Hm|Hk']; [|exact Hk'].
  rewrite lookup_empty in Hm. discriminate.
Qed.

Lemma getMCPClientTools_lookup (tools : list (string * Tool)) (name : string) (t : Tool) :
  NoDup (prefixedName <$> tools.*1) ->
  (name, t) ∈ tools ->
  getMCPClientTools tools !! prefixedName name = Some t.
Proof.
  unfold getMCPClientTools. generalize (∅ : gmap string Tool).
  induction tools as [|[name' tool] tools IH]; intros m Hnodup Hin; [inversion Hin|].
  simpl in *. apply NoDup_cons in Hnodup as [Hnot Hnodup].
  apply elem_of_cons in Hin as [[= -> ->]|Hin]; [|by apply IH].
  assert (Hkeep : forall (l : list (string * Tool)) (m' : gmap string Tool),
            prefixedName name' ∉ prefixedName <$> l.*1 ->
            foldl (fun prefixedTools nt => <[prefixedName nt.1 := nt.2]> prefixedTools)
                  m' l !! prefixedName name' = m' !! prefixedName name').
  { clear. induction l as [|[n t] l IH]; intros m' Hnot; [reflexivity|].
    simpl in *. apply not_elem_of_cons in Hnot as [Hne Hnot].
    rewrite IH by exact Hnot. apply lookup_insert_ne. congruence. }
  rewrite Hkeep by exact Hnot. apply lookup_insert_eq.
Qed.

Lemma NoDup_filter_names (entries : list (string * Tool)) :
  NoDup entries.*1 ->
  NoDup (List.filter (fun nt : string * Tool => startsWith nt.1 "mcp_") entries).*1.
Proof.
  intros Hnodup. induction entries as [|[n x] entries IH]; [constructor|].
  simpl in *. apply NoDup_cons in Hnodup as [Hnot Hnodup].
  destruct (startsWith n "mcp_"); simpl; [|by apply IH].
  apply NoDup_cons. split; [|by apply IH].
  intros Hin. apply Hnot. apply list_elem_of_fmap in Hin as ([n' x'] & -> & Hin).
  apply list_elem_of_In, filter_In in Hin as [Hin _]. apply list_elem_of_In in Hin.
  apply list_elem_of_fmap. by exists (n', x').
Qed.

Lemma new_MCPToolBridge_tools (entries : list (string * Tool)) :
  NoDup entries.*1 ->
  forall k t, mcpTools (new_MCPToolBridge entries) !! k = Some t
              <-> (k, t) ∈ entries /\ startsWith k "mcp_" = true.
Proof.
  intros Hnodup k t. unfold new_MCPToolBridge. cbn [mcpTools].
  pose proof (NoDup_filter_names entries Hnodup) as Hsub.
  rewrite <- elem_of_list_to_map
    by (rewrite fmap_reverse, reverse_Permutation; exact Hsub).
  rewrite elem_of_reverse, list_elem_of_In, filter_In, <- list_elem_of_In.
  reflexivity.
Qed.

(** X22: the wrapper splits its tools in two groups without a common
    name: the local tools are those with an [execute] function whose name
    does not start with [mcp_], the MCP tools are all those whose name
    starts with [mcp_], with or without an [execute] function.  The
    sandbox registers the former and gets a bridge exactly when there is
    one of the latter, which is when [hasMCPTools] holds. *)
Theorem wrapper_splits_tools (tools : list (string * Tool)) (timeout : Z) :
  NoDup tools.*1 ->
  let w := new_ProgrammaticToolCaller tools timeout in
  (forall name, name ∈ localToolNames w
      <-> exists tool, (name, tool) ∈ tools /\ tool_has_execute tool = true
                       /\ startsWith name "mcp_" = false)
  /\ (forall name, name ∈ mcpToolNames w
        <-> name ∈ tools.*1 /\ startsWith name "mcp_" = true)
  /\ (forall name, name ∈ localToolNames w -> name ∉ mcpToolNames w)
  /\ toolRegistry (sandbox w) = list_to_set (localToolNames w)
  /\ (hasMCPTools w = true <-> is_Some (getMCPBridge w))
  /\ (is_Some (getMCPBridge w)
      <-> exists name, name ∈ tools.*1 /\ startsWith name "mcp_" = true).
Proof.
  intros Hnodup w.
  assert (Hlocal : forall name, name ∈ localToolNames w
            <-> exists tool, (name, tool) ∈ tools /\ tool_has_execute tool = true
                             /\ startsWith name "mcp_" = false).
  { intros name. subst w. cbn [new_ProgrammaticToolCaller localToolNames].
    rewrite list_elem_of_fmap. split.
    - intros ([n tool] & -> & Hin). apply list_elem_of_In, filter_In in Hin as [Hin Hc].
      apply list_elem_of_In in Hin. apply andb_true_iff in Hc as [He Hp].
      apply negb_true_iff in Hp. by exists tool.
    - intros (tool & Hin & He & Hp). exists (name, tool). split; [reflexivity|].
      apply list_elem_of_In, filter_In. split; [by apply list_elem_of_In|].
      simpl. rewrite He, Hp. reflexivity. }
  assert (Hfilter : forall name,
            (exists tool, (name, tool) ∈ List.filter (fun nt : string * Tool =>
                                                        startsWith nt.1 "mcp_") tools)
            <-> name ∈ tools.*1 /\ startsWith name "mcp_" = true).
  { intros name. split.
    - intros [tool Hin]. apply list_elem_of_In, filter_In in Hin as [Hin Hp].
      apply list_elem_of_In in Hin. split; [|exact Hp].
      apply list_elem_of_fmap. by exists (name, tool).
    - intros [Hin Hp]. apply list_elem_of_fmap in Hin as ([n tool] & -> & Hin).
      exists tool. apply list_elem_of_In, filter_In. split; [by apply list_elem_of_In|exact Hp]. }
  pose proof (NoDup_filter_names tools Hnodup) as Hsub.
  assert (Hmcp : forall name, name ∈ mcpToolNames w
            <-> name ∈ tools.*1 /\ startsWith name "mcp_" = true).
  { intros name. rewrite <- Hfilter. subst w.
    cbn [new_ProgrammaticToolCaller mcpToolNames]. unfold createMCPBridge.
    destruct (List.filter _ tools) as [|nt kept] eqn:Hkept; cbn [length Nat.eqb].
    - split; [intros Hin; by apply not_elem_of_empty in Hin|].
      intros [tool Hin]. inversion Hin.
    - unfold getToolNames. rewrite elem_of_dom. unfold is_Some.
      setoid_rewrite (new_MCPToolBridge_tools (nt :: kept) Hsub name).
      split.
      + intros (tool & Hin & _). by exists tool.
      + intros [tool Hin]. exists tool. split; [exact Hin|].
        rewrite <- Hkept in Hin. apply list_elem_of_In, filter_In in Hin. apply Hin. }
  assert (Hbridge : is_Some (getMCPBridge w)
            <-> exists name, name ∈ tools.*1 /\ startsWith name "mcp_" = true).
  { setoid_rewrite <- Hfilter. subst w.
    unfold getMCPBridge. cbn [new_ProgrammaticToolCaller sandbox mcpBridge].
    unfold createMCPBridge.
    destruct (List.filter _ tools) as [|[n t] kept]; cbn [length Nat.eqb].
    - split; [intros [x Hx]; discriminate Hx|intros (name & tool & Hin); inversion Hin].
    - split; [intros _; exists n, t; left|by eexists]. }
  split; [exact Hlocal|]. split; [exact Hmcp|]. split; [|split; [reflexivity|split]].
  - intros name Hl Hm. apply Hlocal in Hl as (_ & _ & _ & Hp).
    apply Hmcp in Hm as [_ Hm]. congruence.
  - rewrite Hbridge. unfold hasMCPTools. rewrite bool_decide_eq_true. split.
    + intros Hne. apply set_choose_L in Hne as [name Hin]. exists name. by apply Hmcp.
    + intros (name & Hin) Hempty. apply Hmcp in Hin. rewrite Hempty in Hin.
      by apply not_elem_of_empty in Hin.
  - exact Hbridge.
Qed.

(** X23: every tool a client lists reaches the bridge.  The tools that
    [getMCPClientTools] returns all carry the prefix [mcp_], so a bridge
    created from them, in whatever order they are enumerated, holds each
    listed tool under its prefixed name and answers [isMCPTool] for it
    (for listed names that stay distinct once prefixed). *)
Theorem client_tools_reach_bridge (listed entries : list (string * Tool))
    (name : string) (tool : Tool) :
  NoDup (prefixedName <$> listed.*1) ->
  NoDup entries.*1 ->
  list_to_map entries = getMCPClientTools listed ->
  (name, tool) ∈ listed ->
  exists bridge,
    createMCPBridge entries = Some bridge
    /\ mcpTools bridge = getMCPClientTools listed
    /\ mcpTools bridge !! prefixedName name = Some tool
    /\ isMCPTool bridge (prefixedName name) = true.
Proof.
  intros Hlisted Hentries Hmap Hin.
  assert (Hall : forall k t, (k, t) ∈ entries -> startsWith k "mcp_" = true).
  { intros k t Hk. apply (elem_of_list_to_map (M := gmap string)) in Hk; [|exact Hentries].
    rewrite Hmap in Hk. by apply getMCPClientTools_keys in Hk as [Hs _]. }
  assert (Hlookup : getMCPClientTools listed !! prefixedName name = Some tool)
    by (by apply getMCPClientTools_lookup).
  assert (Hentry : (prefixedName name, tool) ∈ entries).
  { apply (elem_of_list_to_map (M := gmap string)); [exact Hentries|].
    rewrite Hmap. exact Hlookup. }
  assert (Hfilter : List.filter (fun nt : string * Tool => startsWith nt.1 "mcp_") entries
                    = entries).
  { clear -Hall. induction entries as [|[k t] entries IH]; [reflexivity|].
    simpl. rewrite (Hall k t) by left. f_equal. apply IH.
    intros k' t' Hk. apply (Hall k' t'). by right. }
  unfold createMCPBridge. rewrite Hfilter.
  destruct entries as [|entry entries'] eqn:He; [inversion Hentry|].
  rewrite <- He in *. cbn [length Nat.eqb].
  replace (Nat.eqb (length entries) 0) with false
    by (subst entries; reflexivity).
  exists (new_MCPToolBridge entries).
  assert (Htools : mcpTools (new_MCPToolBridge entries) = getMCPClientTools listed).
  { apply map_eq. intros k. apply option_eq. intros t.
    rewrite (new_MCPToolBridge_tools entries Hentries), <- Hmap.
    rewrite <- (elem_of_list_to_map (M := gmap string)) by exact Hentries.
    split; [by intros [Hk _]|]. intros Hk. split; [exact Hk|by apply (Hall k t)]. }
  split; [reflexivity|]. split; [exact Htools|]. split; [by rewrite Htools|].
  unfold isMCPTool. rewrite startsWith_prefixedName, Htools, Hlookup.
  reflexivity.
Qed.

(** What holds of a manager whatever calls it has seen. *)
Lemma managerStep_sound (this : MCPServerManager) (c : managerCall) :
  (forall server tools k,
     connections this !! server = Some tools -> is_Some (tools !! k) ->
     startsWith k "mcp_" = true) ->
  (forall k t, allTools this !! k = Some t ->
     exists server tools, connections this !! server = Some tools /\ tools !! k = Some t) ->
  (forall server tools k,
     connections (managerStep this c) !! server = Some tools -> is_Some (tools !! k) ->
     startsWith k "mcp_" = true)
  /\ (forall k t, allTools (managerStep this c) !! k = Some t ->
        exists server tools,
          connections (managerStep this c) !! server = Some tools /\ tools !! k = Some t).
Proof.
  assert (Hadd : forall (m : MCPServerManager) name conn,
            (forall server tools k,
               connections m !! server = Some tools -> is_Some (tools !! k) ->
               startsWith k "mcp_" = true) ->
            (forall k t, allTools m !! k = Some t ->
               exists server tools, connections m !! server = Some tools
                                    /\ tools !! k = Some t) ->
            (forall server tools k,
               connections (addServer m name conn).1 !! server = Some tools ->
               is_Some (tools !! k) -> startsWith k "mcp_" = true)
            /\ (forall k t, allTools (addServer m name conn).1 !! k = Some t ->
                  exists server tools,
                    connections (addServer m name conn).1 !! server = Some tools
                    /\ tools !! k = Some t)).
  { intros m name conn Hp Hs. unfold addServer.
    destruct (bool_decide (is_Some (connections m !! name))) eqn:Hhas; [by split|].
    apply bool_decide_eq_false in Hhas.
    assert (Hnone : connections m !! name = None)
      by (destruct (connections m !! name); [exfalso; apply Hhas; by eexists|reflexivity]).
    destruct conn as [listed|message]; [|by split]. cbn [fst connections allTools]. split.
    - intros server tools k Hc [t Hk].
      destruct (decide (server = name)) as [->|Hne].
      + rewrite lookup_insert_eq in Hc. injection Hc as <-.
        by apply getMCPClientTools_keys in Hk as [Hk _].
      + rewrite lookup_insert_ne in Hc by congruence. apply (Hp server tools k Hc).
        by eexists.
    - intros k t Hk. apply lookup_union_Some_raw in Hk as [Hk|[_ Hk]].
      + exists name, (getMCPClientTools listed). rewrite lookup_insert_eq. by split.
      + destruct (Hs k t Hk) as (server & tools & Hc & Ht).
        exists server, tools. split; [|exact Ht].
        rewrite lookup_insert_ne; [exact Hc|]. intros ->. congruence. }
  assert (Hinit : forall servers (m : MCPServerManager),
            (forall server tools k,
               connections m !! server = Some tools -> is_Some (tools !! k) ->
               startsWith k "mcp_" = true) ->
            (forall k t, allTools m !! k = Some t ->
               exists server tools, connections m !! server = Some tools
                                    /\ tools !! k = Some t) ->
            (forall server tools k,
               connections (initialize m servers) !! server = Some tools ->
               is_Some (tools !! k) -> startsWith k "mcp_" = true)
            /\ (forall k t, allTools (initialize m servers) !! k = Some t ->
                  exists server tools,
                    connections (initialize m servers) !! server = Some tools
                    /\ tools !! k = Some t)).
  { intros servers m Hp Hs. unfold initialize.
    destruct (initialized m); [by split|]. cbn [connections allTools].
    revert m Hp Hs. induction servers as [|[name conn] servers IH]; intros m Hp Hs;
      [by split|].
    simpl. destruct (Hadd m name conn Hp Hs) as [Hp' Hs']. by apply IH. }
  intros Hp Hs. destruct c as [servers|name conn|name| |servers]; cbn [managerStep].
  - by apply Hinit.
  - by apply Hadd.
  - unfold removeServer. destruct (connections this !! name) as [removed|] eqn:Hc;
      [|by split].
    cbn [connections allTools]. split.
    + intros server tools k Hs' Hk. apply lookup_delete_Some in Hs' as [_ Hs'].
      exact (Hp server tools k Hs' Hk).
    + intros k t Hk. apply lookup_difference_Some in Hk as [Hk Hnone].
      destruct (Hs k t Hk) as (server & tools & Hs' & Ht).
      exists server, tools. split; [|exact Ht].
      apply lookup_delete_Some. split; [|exact Hs'].
      intros ->. rewrite Hc in Hs'. injection Hs' as ->. congruence.
  - split; [intros server tools k Hc|intros k t Hk]; simpl in *;
      rewrite lookup_empty in *; discriminate.
  - unfold reload. apply Hinit.
    + intros server tools k Hc. simpl in Hc. rewrite lookup_empty in Hc. discriminate.
    + intros k t Hk. simpl in Hk. rewrite lookup_empty in Hk. discriminate.
Qed.

(** X24: whatever calls a manager has seen ([initialize], [addServer],
    [removeServer], [close], [reload], servers that connect and servers
    that fail), every tool it offers carries the prefix [mcp_] and is
    listed, with this value, by a server that is connected.  And removing
    a server that was just added, new and with tool names not yet
    offered, gives back the manager as it was. *)
Theorem manager_offers_connected_tools (calls : list managerCall) :
  let this := foldl managerStep new_MCPServerManager calls in
  (forall k t, allTools this !! k = Some t ->
     startsWith k "mcp_" = true
     /\ exists server tools, connections this !! server = Some tools
                             /\ tools !! k = Some t)
  /\ (forall name listed,
        connections this !! name = None ->
        (forall k, is_Some (getMCPClientTools listed !! k) -> allTools this !! k = None) ->
        removeServer (addServer this name (inl listed)).1 name = this).
Proof.
  cbv zeta. split.
  - assert (Hinv : (forall server tools k,
                      connections (foldl managerStep new_MCPServerManager calls) !! server
                      = Some tools -> is_Some (tools !! k) -> startsWith k "mcp_" = true)
                   /\ (forall k t,
                         allTools (foldl managerStep new_MCPServerManager calls) !! k = Some t ->
                         exists server tools,
                           connections (foldl managerStep new_MCPServerManager calls) !! server
                           = Some tools /\ tools !! k = Some t)).
    { induction calls as [|c calls IH] using rev_ind.
      - simpl. split; [intros server tools k Hc|intros k t Hk];
          rewrite lookup_empty in *; discriminate.
      - rewrite foldl_app. simpl. destruct IH as [Hp Hs]. by apply managerStep_sound. }
    destruct Hinv as [Hp Hs]. intros k t Hk.
    destruct (Hs k t Hk) as (server & tools & Hc & Ht).
    split; [|by eauto]. apply (Hp server tools k Hc). by eexists.
  - generalize (foldl managerStep new_MCPServerManager calls). intros this name listed Hnone Hnew.
    unfold addServer. rewrite Hnone.
    rewrite bool_decide_eq_false_2 by (intros [x Hx]; discriminate Hx).
    cbn [fst]. unfold removeServer. cbn [connections allTools initialized].
    rewrite lookup_insert_eq. destruct this as [conns tools init]. simpl in *. f_equal.
    + rewrite delete_insert_eq. by apply delete_id.
    + apply map_eq. intros k. apply option_eq. intros t.
      rewrite lookup_difference_Some, lookup_union_Some_raw. split.
      * intros [[Hk|[_ Hk]] Hn]; [congruence|exact Hk].
      * intros Hk. destruct (getMCPClientTools listed !! k) as [t'|] eqn:Hl.
        -- rewrite (Hnew k) in Hk by (by eexists). discriminate.
        -- split; [right; by split|reflexivity].
Qed.

Lemma wrapper_splits_tools_witness :
  hasMCPTools (new_ProgrammaticToolCaller mixedTools 30000) = true
  <-> is_Some (getMCPBridge (new_ProgrammaticToolCaller mixedTools 30000)).
Proof.
  assert (Hnodup : NoDup mixedTools.*1)
    by (apply (bool_decide_unpack _); vm_compute; reflexivity).
  exact (proj1 (proj2 (proj2 (proj2 (proj2
           (wrapper_splits_tools mixedTools 30000 Hnodup)))))).
Defined.

Lemma client_tools_reach_bridge_witness :
  exists bridge,
    createMCPBridge (map_to_list (getMCPClientTools listedTools)) = Some bridge
    /\ mcpTools bridge = getMCPClientTools listedTools
    /\ mcpTools bridge !! "mcp_firecrawl_scrape" = Some executableTool
    /\ isMCPTool bridge "mcp_firecrawl_scrape" = true.
Proof.
  refine (client_tools_reach_bridge listedTools
            (map_to_list (getMCPClientTools listedTools))
            "firecrawl_scrape" executableTool _ _ _ _).
  - apply (bool_decide_unpack _). vm_compute. reflexivity.
  - apply NoDup_fst_map_to_list.
  - apply list_to_map_to_list.
  - left.
Defined.

Section ExecuteFacts.
Context `{Platform}.

(** [handleRequest] adds at most one record, for the tool of the request. *)
Lemma handleRequest_record (exec : string -> value -> outcome) (b : MCPToolBridge)
    (request : Request.t) :
  let b' := (interp exec (handleRequest b request)).2 in
  toolCallRecords b' = toolCallRecords b
  \/ exists record, toolCallRecords b' = (toolCallRecords b ++ [record])%list
                    /\ CallRecord.toolName record = Request.toolName request.
Proof.
  cbv zeta. unfold handleRequest.
  set (n := requestNormalization b request).
  set (s := getCallSignature (Request.toolName request) (normalized n)).
  destruct (recordWarnings_keeps b (Request.toolName request) (warnings n))
    as (_ & _ & _ & Hr & _).
  set (b1 := recordWarnings b (Request.toolName request) (warnings n)) in *.
  destruct (Nat.leb MAX_RETRIES _).
  - left. cbn [interp snd]. exact Hr.
  - right.
    assert (Hfail : forall msg k,
              exists record,
                toolCallRecords (handleFailure b1 request (normalized n) s k msg).2
                = (toolCallRecords b ++ [record])%list
                /\ CallRecord.toolName record = Request.toolName request).
    { intros msg k. cbn [handleFailure snd toolCallRecords]. unfold push.
      rewrite Hr. eexists. split; reflexivity. }
    destruct (mcpTools b1 !! Request.toolName request) as [tool|]; cbn [interp];
      [|apply Hfail].
    destruct (tool_has_execute tool); cbn [negb interp]; [|apply Hfail].
    destruct (exec _ _) as [rawResult|msg]; cbn [interp]; [|apply Hfail].
    unfold handleSuccess. destruct (transformMCPResponse rawResult); [|apply Hfail].
    cbn [snd toolCallRecords]. unfold push. rewrite Hr. eexists. split; reflexivity.
Qed.

Lemma recordsCovered_more (this this' : ToolOrchestrationSandbox)
    (added : list ToolCall.t) :
  mcpBridge this' = mcpBridge this ->
  toolCalls this' = (toolCalls this ++ added)%list ->
  recordsCovered this -> recordsCovered this'.
Proof.
  intros Hb Hc Hinv bridge Hbridge. rewrite Hb in Hbridge.
  destruct (Hinv bridge Hbridge) as [Hlen Hcov]. rewrite Hc. split.
  - rewrite List.filter_app, length_app. lia.
  - intros record Hin. destruct (Hcov record Hin) as (tc & Htc & Hsame).
    exists tc. split; [|exact Hsame]. apply elem_of_app. by left.
Qed.

Lemma processLocalToolCall_calls (exec : string -> value -> outcome)
    (this : ToolOrchestrationSandbox) (fs : Files) (p : string) :
  let st := interp exec (processLocalToolCall (this, fs) p) in
  mcpBridge st.1 = mcpBridge this
  /\ exists added, toolCalls st.1 = (toolCalls this ++ added)%list
                   /\ List.filter ToolCall.isMCP added = [].
Proof.
  cbv zeta. unfold processLocalToolCall.
  assert (Hsame : mcpBridge this = mcpBridge this
                  /\ exists added, toolCalls this = (toolCalls this ++ added)%list
                                   /\ List.filter ToolCall.isMCP added = []).
  { split; [reflexivity|]. exists []. by rewrite app_nil_r. }
  destruct (JSON_parse _) as [callData|]; [|exact Hsame].
  destruct (get_checked callData "toolName") as [[]|]; try exact Hsame.
  destruct (bool_decide _); [|exact Hsame].
  destruct (spread_args _) as [args|]; cbn [interp].
  - destruct (exec _ _); cbn [interp fst with_toolCalls mcpBridge toolCalls];
      (split; [reflexivity|]); unfold push; eexists; split; reflexivity.
  - cbn [fst with_toolCalls mcpBridge toolCalls]. split; [reflexivity|].
    unfold push. eexists. split; reflexivity.
Qed.

Lemma processLocalToolCall_covered (exec : string -> value -> outcome)
    (st : ToolOrchestrationSandbox * Files) (p : string) :
  recordsCovered st.1 -> recordsCovered (interp exec (processLocalToolCall st p)).1.
Proof.
  destruct st as [this fs]. intros Hinv.
  destruct (processLocalToolCall_calls exec this fs p) as (Hb & added & Hc & _).
  exact (recordsCovered_more this _ added Hb Hc Hinv).
Qed.

Lemma processMCPToolCall_covered (exec : string -> value -> outcome)
    (st : ToolOrchestrationSandbox * Files) (p : string) :
  recordsCovered st.1 -> recordsCovered (interp exec (processMCPToolCall st p)).1.
Proof.
  destruct st as [this fs]. cbn [fst]. intros Hinv. unfold processMCPToolCall.
  destruct (mcpBridge this) as [bridge|] eqn:Hbridge; [|exact Hinv].
  destruct (JSON_parse _) as [callData|]; [|exact Hinv].
  destruct (get_checked callData "toolName") as [toolName|]; [|exact Hinv].
  rewrite interp_bind.
  set (request := {| Request.toolName := ToString toolName;
                     Request.args := get callData "args";
                     Request.callId := get callData "callId" |}).
  pose proof (handleRequest_record exec bridge request) as Hrec. cbv zeta in Hrec.
  destruct (interp exec (handleRequest bridge request)) as [response bridge'].
  cbn [snd] in Hrec. destruct (Hinv bridge Hbridge) as [Hlen Hcov].
  assert (Hgoal : forall tc,
            ToolCall.toolName tc = ToString toolName -> ToolCall.isMCP tc = true ->
            recordsCovered
              (with_toolCalls (with_mcpBridge this bridge') (push (toolCalls this) tc))).
  { intros tc Hname Hmcp b Hb.
    cbn [with_toolCalls with_mcpBridge mcpBridge toolCalls] in *.
    injection Hb as <-. unfold push. rewrite List.filter_app, length_app.
    cbn [List.filter]. rewrite Hmcp. cbn [length].
    split.
    - destruct Hrec as [->|(record & -> & _)]; [lia|]. rewrite length_app. simpl. lia.
    - intros record Hin.
      assert (Hcase : record ∈ toolCallRecords bridge
                      \/ CallRecord.toolName record = ToString toolName).
      { destruct Hrec as [Heq|(record' & Heq & Hname')]; rewrite Heq in Hin.
        - by left.
        - apply elem_of_app in Hin as [Hin|Hin]; [by left|].
          apply list_elem_of_singleton in Hin as ->. by right. }
      destruct Hcase as [Hold|Hnew].
      + destruct (Hcov record Hold) as (tc' & Htc' & Hsame).
        exists tc'. split; [|exact Hsame]. apply elem_of_app. by left.
      + exists tc. split; [apply elem_of_app; right; by apply list_elem_of_singleton|].
        unfold sameMCPTool. rewrite Hname, Hnew, Hmcp, String.eqb_refl. reflexivity. }
  cbn [fst snd].
  destruct (Response.error response) as [message|]; [destruct (String.eqb message "")|];
    cbn [interp fst]; apply Hgoal; reflexivity.
Qed.

Lemma foldl_covered {X} (exec : string -> value -> outcome)
    (body : ToolOrchestrationSandbox * Files -> X
            -> prog (ToolOrchestrationSandbox * Files))
    (xs : list X) (st : ToolOrchestrationSandbox * Files) :
  (forall st x, recordsCovered st.1 -> recordsCovered (interp exec (body st x)).1) ->
  recordsCovered st.1 ->
  recordsCovered (foldl (fun s x => interp exec (body s x)) st xs).1.
Proof.
  intros Hbody. revert st. induction xs as [|x xs IH]; intros st Hinv; [exact Hinv|].
  simpl. apply IH, Hbody, Hinv.
Qed.

Lemma tick_covered (exec : string -> value -> outcome)
    (st : ToolOrchestrationSandbox * Files) :
  recordsCovered st.1 -> recordsCovered (tick exec st).1.
Proof.
  intros Hinv. unfold tick, monitorTick. rewrite interp_bind, interp_forEach.
  set (st1 := foldl _ st _).
  assert (H1 : recordsCovered st1.1).
  { apply foldl_covered; [|exact Hinv]. intros. by apply processLocalToolCall_covered. }
  destruct (mcpBridge st1.1); [|exact H1].
  rewrite interp_forEach. apply foldl_covered; [|exact H1].
  intros. by apply processMCPToolCall_covered.
Qed.

Lemma monitored_covered (this : ToolOrchestrationSandbox)
    (rounds : list ((string -> value -> outcome) * Files)) :
  recordsCovered this -> recordsCovered (monitored this rounds).
Proof.
  revert this. induction rounds as [|round rounds IH]; intros this Hinv; [exact Hinv|].
  apply IH. apply (tick_covered round.1 (this, round.2)). exact Hinv.
Qed.

Lemma reset_covered (this : ToolOrchestrationSandbox) :
  recordsCovered (ToolOrchestrationSandbox_reset this).
Proof.
  intros bridge Hb. cbn [ToolOrchestrationSandbox_reset mcpBridge toolCalls] in *.
  destruct (mcpBridge this) as [b|]; [|discriminate]. injection Hb as <-.
  cbn [bridge_reset toolCallRecords]. split; [simpl; lia|].
  intros record Hin. by apply elem_of_nil in Hin.
Qed.

Lemma find_sameMCPTool (record : CallRecord.t) (calls : list ToolCall.t) :
  (exists tc, tc ∈ calls /\ sameMCPTool record tc = true) ->
  is_Some (List.find (sameMCPTool record) calls).
Proof.
  intros (tc & Hin & Hsame).
  destruct (List.find (sameMCPTool record) calls) as [found|] eqn:Hfind; [by eexists|].
  apply list_elem_of_In in Hin.
  pose proof (List.find_none _ _ Hfind tc Hin) as Hnone. congruence.
Qed.

Lemma merge_covered (calls : list ToolCall.t) (records : list CallRecord.t) :
  (forall record, record ∈ records ->
     exists tc, tc ∈ calls /\ sameMCPTool record tc = true) ->
  foldl mergeRecord calls records = calls.
Proof.
  induction records as [|record records IH]; intros Hcov; [reflexivity|].
  cbn [foldl]. unfold mergeRecord at 2.
  destruct (find_sameMCPTool record calls) as [found ->].
  { apply Hcov. by left. }
  apply IH. intros r Hr. apply Hcov. by right.
Qed.

(** What the merge adds: MCP calls, one for a tool name at most, and none
    for a tool that has an MCP call already. *)
Lemma merge_adds (records : list CallRecord.t) (calls : list ToolCall.t) :
  exists added,
    foldl mergeRecord calls records = (calls ++ added)%list
    /\ Forall (fun tc => ToolCall.isMCP tc = true) added
    /\ NoDup (ToolCall.toolName <$> added)
    /\ (forall tc tc', tc ∈ added -> tc' ∈ calls -> ToolCall.isMCP tc' = true ->
          ToolCall.toolName tc <> ToolCall.toolName tc')
    /\ (length added <= length records)%nat.
Proof.
  revert calls. induction records as [|record records IH]; intros calls.
  - exists []. rewrite app_nil_r. split; [reflexivity|]. split; [constructor|].
    split; [constructor|]. split; [|simpl; lia].
    intros tc tc' Hin. by apply elem_of_nil in Hin.
  - cbn [foldl]. unfold mergeRecord at 2.
    destruct (List.find (sameMCPTool record) calls) as [found|] eqn:Hfind.
    + destruct (IH calls) as (added & Heq & Hmcp & Hnd & Hfresh & Hlen).
      exists added. split; [exact Heq|]. split; [exact Hmcp|]. split; [exact Hnd|].
      split; [exact Hfresh|]. simpl. lia.
    + destruct (IH (push calls (mergedCall record)))
        as (added & Heq & Hmcp & Hnd & Hfresh & Hlen).
      exists (mergedCall record :: added). unfold push in *.
      rewrite Heq, <- app_assoc. repeat split.
      * constructor; [reflexivity|exact Hmcp].
      * rewrite fmap_cons. constructor; [|exact Hnd].
        intros Hin. apply list_elem_of_fmap in Hin as (tc & Hname & Hin).
        apply (Hfresh tc (mergedCall record)); [exact Hin| |reflexivity|by symmetry].
        apply elem_of_app. right. by apply list_elem_of_singleton.
      * intros tc tc' Hin Hin' Hmcp'.
        apply elem_of_cons in Hin as [->|Hin].
        -- apply list_elem_of_In in Hin'.
           pose proof (List.find_none _ _ Hfind tc' Hin') as Hnone.
           unfold sameMCPTool in Hnone. rewrite Hmcp', andb_true_r in Hnone.
           apply String.eqb_neq in Hnone. cbn [mergedCall ToolCall.toolName].
           congruence.
        -- apply (Hfresh tc tc'); [exact Hin| |exact Hmcp'].
           apply elem_of_app. by left.
      * simpl. lia.
Qed.

(** X25: every MCP call is counted once.  From the reset that [execute]
    starts with, whatever the rounds of the monitor find in the scratch
    directory, every record of the bridge has an MCP call of its tool among
    the calls of the sandbox and there are no more records than MCP calls;
    so the merge of the bridge's records at the end of [execute] adds
    nothing.  On any sandbox that merge keeps the calls there are and adds
    MCP calls only, one for a tool name at most and none for a tool that
    has an MCP call already: records of one tool are merged as one call. *)
Theorem merge_adds_nothing (this : ToolOrchestrationSandbox)
    (rounds : list ((string -> value -> outcome) * Files)) :
  let after := monitored (ToolOrchestrationSandbox_reset this) rounds in
  recordsCovered after
  /\ mergeBridgeRecords after = after
  /\ exists added,
       toolCalls (mergeBridgeRecords this) = (toolCalls this ++ added)%list
       /\ Forall (fun tc => ToolCall.isMCP tc = true) added
       /\ NoDup (ToolCall.toolName <$> added)
       /\ (forall tc tc', tc ∈ added -> tc' ∈ toolCalls this ->
             ToolCall.isMCP tc' = true ->
             ToolCall.toolName tc <> ToolCall.toolName tc').
Proof.
  cbv zeta.
  pose proof (monitored_covered _ rounds (reset_covered this)) as Hinv.
  split; [exact Hinv|]. split.
  - set (after := monitored _ rounds) in *. unfold mergeBridgeRecords.
    destruct (mcpBridge after) as [bridge|] eqn:Hbridge; [|reflexivity].
    rewrite merge_covered by apply (Hinv bridge Hbridge).
    by destruct after.
  - unfold mergeBridgeRecords. destruct (mcpBridge this) as [bridge|].
    + destruct (merge_adds (toolCallRecords bridge) (toolCalls this))
        as (added & Heq & Hmcp & Hnd & Hfresh & _).
      exists added. cbn [with_toolCalls toolCalls]. split; [exact Heq|].
      split; [exact Hmcp|]. split; [exact Hnd|exact Hfresh].
    + exists []. rewrite app_nil_r. split; [reflexivity|]. split; [constructor|].
      split; [constructor|]. intros tc tc' Hin. by apply elem_of_nil in Hin.
Qed.

(** The estimate of the bridge after a request. *)
Lemma handleRequest_estimate (exec : string -> value -> outcome) (b : MCPToolBridge)
    (request : Request.t) :
  let handled := interp exec (handleRequest b request) in
  bridge_getTokenEstimate handled.2
  = bridge_getTokenEstimate b
    + match Response.error handled.1 with
      | Some _ => 0
      | None =>
          let data := default VUndefined (Response.data handled.1) in
          if truthy data then tokensOf data else 0
      end.
Proof.
  cbv zeta. unfold handleRequest.
  set (n := requestNormalization b request).
  set (s := getCallSignature (Request.toolName request) (normalized n)).
  destruct (recordWarnings_keeps b (Request.toolName request) (warnings n))
    as (_ & _ & _ & Hr & _).
  set (b1 := recordWarnings b (Request.toolName request) (warnings n)) in *.
  assert (Hb1 : bridge_getTokenEstimate b1 = bridge_getTokenEstimate b).
  { unfold bridge_getTokenEstimate. by rewrite Hr. }
  destruct (Nat.leb MAX_RETRIES _).
  - cbn [interp fst snd Response.error]. rewrite Hb1. lia.
  - assert (Hfail : forall msg k,
              bridge_getTokenEstimate (handleFailure b1 request (normalized n) s k msg).2
              = bridge_getTokenEstimate b
                + match Response.error
                          (handleFailure b1 request (normalized n) s k msg).1 with
                  | Some _ => 0
                  | None =>
                      let data :=
                        default VUndefined
                          (Response.data
                             (handleFailure b1 request (normalized n) s k msg).1) in
                      if truthy data then tokensOf data else 0
                  end).
    { intros msg k. cbn [handleFailure fst snd Response.error].
      unfold bridge_getTokenEstimate in *. cbn [toolCallRecords]. unfold push.
      rewrite foldl_app. cbn [foldl CallRecord.result]. rewrite Hb1. lia. }
    destruct (mcpTools b1 !! Request.toolName request) as [tool|]; cbn [interp];
      [|apply Hfail].
    destruct (tool_has_execute tool); cbn [negb interp]; [|apply Hfail].
    destruct (exec _ _) as [rawResult|msg]; cbn [interp]; [|apply Hfail].
    unfold handleSuccess.
    destruct (transformMCPResponse rawResult) as [transformed|]; [|apply Hfail].
    cbn [fst snd Response.error Response.data default from_option id].
    unfold bridge_getTokenEstimate in *. cbn [toolCallRecords]. unfold push.
    rewrite foldl_app. cbn [foldl CallRecord.result]. rewrite Hb1.
    destruct (truthy transformed); lia.
Qed.

Lemma estimate_push (this : ToolOrchestrationSandbox) (tc : ToolCall.t) :
  getIntermedateTokenEstimate
    (onlyCalls ToolCall.isMCP (with_toolCalls this (push (toolCalls this) tc)))
  = getIntermedateTokenEstimate (onlyCalls ToolCall.isMCP this)
    + if ToolCall.isMCP tc && truthy (ToolCall.result tc)
      then tokensOf (ToolCall.result tc) else 0.
Proof.
  unfold getIntermedateTokenEstimate, onlyCalls, push.
  cbn [with_toolCalls toolCalls]. rewrite List.filter_app. cbn [List.filter].
  destruct (ToolCall.isMCP tc); cbn [andb].
  - rewrite foldl_app. cbn [foldl]. destruct (truthy (ToolCall.result tc)); lia.
  - rewrite app_nil_r. lia.
Qed.

Lemma processLocalToolCall_agree (exec : string -> value -> outcome)
    (st : ToolOrchestrationSandbox * Files) (p : string) :
  estimatesAgree st.1 -> estimatesAgree (interp exec (processLocalToolCall st p)).1.
Proof.
  destruct st as [this fs]. unfold estimatesAgree. cbn [fst]. intros Hinv.
  destruct (processLocalToolCall_calls exec this fs p) as (Hb & added & Hc & Hnone).
  rewrite Hb, <- Hinv. unfold getIntermedateTokenEstimate, onlyCalls.
  cbn [with_toolCalls toolCalls]. rewrite Hc, List.filter_app, Hnone, app_nil_r.
  reflexivity.
Qed.

Lemma processMCPToolCall_agree (exec : string -> value -> outcome)
    (st : ToolOrchestrationSandbox * Files) (p : string) :
  estimatesAgree st.1 -> estimatesAgree (interp exec (processMCPToolCall st p)).1.
Proof.
  destruct st as [this fs]. cbn [fst]. intros Hinv. unfold processMCPToolCall.
  destruct (mcpBridge this) as [bridge|] eqn:Hbridge; [|exact Hinv].
  destruct (JSON_parse _) as [callData|]; [|exact Hinv].
  destruct (get_checked callData "toolName") as [toolName|]; [|exact Hinv].
  rewrite interp_bind.
  set (request := {| Request.toolName := ToString toolName;
                     Request.args := get callData "args";
                     Request.callId := get callData "callId" |}).
  pose proof (handleRequest_estimate exec bridge request) as Hest. cbv zeta in Hest.
  destruct (interp exec (handleRequest bridge request)) as [response bridge'].
  cbn [fst snd] in Hest |- *.
  unfold estimatesAgree in Hinv. rewrite Hbridge in Hinv.
  cbn [fmap option_fmap option_map default from_option id] in Hinv.
  assert (Hgoal : forall tc,
            ToolCall.isMCP tc = true ->
            (if truthy (ToolCall.result tc) then tokensOf (ToolCall.result tc) else 0)
            = match Response.error response with
              | Some _ => 0
              | None =>
                  if truthy (default VUndefined (Response.data response))
                  then tokensOf (default VUndefined (Response.data response)) else 0
              end ->
            estimatesAgree
              (with_toolCalls (with_mcpBridge this bridge') (push (toolCalls this) tc))).
  { intros tc Hmcp Hresult. unfold estimatesAgree.
    change (mcpBridge (with_toolCalls (with_mcpBridge this bridge')
                         (push (toolCalls this) tc))) with (Some bridge').
    cbn [fmap option_fmap option_map default from_option id].
    change (with_toolCalls (with_mcpBridge this bridge') (push (toolCalls this) tc))
      with (with_toolCalls (with_mcpBridge this bridge')
              (push (toolCalls (with_mcpBridge this bridge')) tc)).
    rewrite estimate_push, Hmcp. cbn [andb]. rewrite Hresult, Hest.
    change (getIntermedateTokenEstimate
              (onlyCalls ToolCall.isMCP (with_mcpBridge this bridge')))
      with (getIntermedateTokenEstimate (onlyCalls ToolCall.isMCP this)).
    rewrite Hinv. reflexivity. }
  destruct (Response.error response) as [message|]; [destruct (String.eqb message "")|];
    cbn [interp fst]; apply Hgoal; reflexivity.
Qed.

Lemma foldl_agree {X} (exec : string -> value -> outcome)
    (body : ToolOrchestrationSandbox * Files -> X
            -> prog (ToolOrchestrationSandbox * Files))
    (xs : list X) (st : ToolOrchestrationSandbox * Files) :
  (forall st x, estimatesAgree st.1 -> estimatesAgree (interp exec (body st x)).1) ->
  estimatesAgree st.1 ->
  estimatesAgree (foldl (fun s x => interp exec (body s x)) st xs).1.
Proof.
  intros Hbody. revert st. induction xs as [|x xs IH]; intros st Hinv; [exact Hinv|].
  simpl. apply IH, Hbody, Hinv.
Qed.

Lemma tick_agree (exec : string -> value -> outcome)
    (st : ToolOrchestrationSandbox * Files) :
  estimatesAgree st.1 -> estimatesAgree (tick exec st).1.
Proof.
  intros Hinv. unfold tick, monitorTick. rewrite interp_bind, interp_forEach.
  set (st1 := foldl _ st _).
  assert (H1 : estimatesAgree st1.1).
  { apply foldl_agree; [|exact Hinv]. intros. by apply processLocalToolCall_agree. }
  destruct (mcpBridge st1.1); [|exact H1].
  rewrite interp_forEach. apply foldl_agree; [|exact H1].
  intros. by apply processMCPToolCall_agree.
Qed.

Lemma estimate_split (calls : list ToolCall.t) (start : Z) :
  foldl (fun estimate call =>
           if truthy (ToolCall.result call)
           then estimate + tokensOf (ToolCall.result call)
           else estimate) start calls
  = start
    + foldl (fun estimate call =>
               if truthy (ToolCall.result call)
               then estimate + tokensOf (ToolCall.result call)
               else estimate) 0 (List.filter ToolCall.isMCP calls)
    + foldl (fun estimate call =>
               if truthy (ToolCall.result call)
               then estimate + tokensOf (ToolCall.result call)
               else estimate) 0 (List.filter isLocal calls).
Proof.
  induction calls as [|call calls IH] using rev_ind; [simpl; lia|].
  rewrite !List.filter_app, !foldl_app. cbn [List.filter foldl]. unfold isLocal at 2.
  destruct (ToolCall.isMCP call); cbn [negb]; rewrite ?app_nil_r, ?foldl_app;
    cbn [foldl]; rewrite IH; destruct (truthy (ToolCall.result call)); lia.
Qed.

Lemma estimate_nonneg (calls : list ToolCall.t) (start : Z) :
  0 <= start ->
  0 <= foldl (fun estimate call =>
                if truthy (ToolCall.result call)
                then estimate + tokensOf (ToolCall.result call)
                else estimate) start calls.
Proof.
  revert start. induction calls as [|call calls IH]; intros start Hs; [exact Hs|].
  cbn [foldl]. apply IH. destruct (truthy _); [|exact Hs].
  pose proof (tokensOf_nonneg (ToolCall.result call)). lia.
Qed.

(** X26: the sandbox and its bridge agree on the tokens of the MCP
    results.  From the reset that [execute] starts with, whatever the
    rounds of the monitor find in the scratch directory,
    [getIntermedateTokenEstimate()] over the MCP calls of the sandbox is
    [getTokenEstimate()] of the bridge ([0] without a bridge); so the
    estimate of the sandbox is that of the bridge plus the estimate over
    the local calls, and never below that of the bridge. *)
Theorem estimates_agree_on_mcp_results (this : ToolOrchestrationSandbox)
    (rounds : list ((string -> value -> outcome) * Files)) :
  let after := monitored (ToolOrchestrationSandbox_reset this) rounds in
  let ofBridge := default 0 (bridge_getTokenEstimate <$> mcpBridge after) in
  getIntermedateTokenEstimate (onlyCalls ToolCall.isMCP after) = ofBridge
  /\ getIntermedateTokenEstimate after
     = ofBridge + getIntermedateTokenEstimate (onlyCalls isLocal after)
  /\ ofBridge <= getIntermedateTokenEstimate after.
Proof.
  cbv zeta.
  assert (Hinv : estimatesAgree (monitored (ToolOrchestrationSandbox_reset this) rounds)).
  { assert (Hstart : estimatesAgree (ToolOrchestrationSandbox_reset this)).
    { unfold estimatesAgree, ToolOrchestrationSandbox_reset, onlyCalls,
        getIntermedateTokenEstimate, bridge_getTokenEstimate.
      cbn [with_toolCalls toolCalls mcpBridge List.filter foldl].
      by destruct (mcpBridge this). }
    revert Hstart. generalize (ToolOrchestrationSandbox_reset this).
    induction rounds as [|round rounds IH]; intros start Hstart; [exact Hstart|].
    apply IH. apply (tick_agree round.1 (start, round.2)). exact Hstart. }
  set (after := monitored _ rounds) in *. unfold estimatesAgree in Hinv.
  split; [exact Hinv|].
  assert (Hsplit : getIntermedateTokenEstimate after
                   = getIntermedateTokenEstimate (onlyCalls ToolCall.isMCP after)
                     + getIntermedateTokenEstimate (onlyCalls isLocal after)).
  { unfold getIntermedateTokenEstimate, onlyCalls. cbn [with_toolCalls toolCalls].
    rewrite (estimate_split (toolCalls after) 0). lia. }
  rewrite Hsplit, Hinv. split; [reflexivity|].
  pose proof (estimate_nonneg (toolCalls (onlyCalls isLocal after)) 0 (Z.le_refl 0)).
  unfold getIntermedateTokenEstimate at 1. lia.
Qed.

End ExecuteFacts.

(** ** The two loops of the monitor *)

Lemma glob_match_mcp (p : string) :
  glob_match "/tmp/mcp_call_" p = true ->
  exists rest, p = "/tmp/mcp_call_" ++ rest.
Proof.
  unfold glob_match. destruct (strip_prefix _ p) as [rest|] eqn:Hp; [|discriminate].
  intros _. exists rest. by apply strip_prefix_app.
Qed.

Lemma replace_mcp_result (rest : string) :
  replace "mcp_call_" "mcp_result_" ("/tmp/mcp_call_" ++ rest)
  = "/tmp/mcp_result_" ++ rest.
Proof. reflexivity. Qed.

Section MixedMonitorFacts.
Context `{Platform}.

(** An MCP request leaves the files and the records of the local calls as
    they are. *)
Lemma processMCPToolCall_local (exec : string -> value -> outcome)
    (st : ToolOrchestrationSandbox * Files) (p : string) :
  glob_match "/tmp/mcp_call_" p = true ->
  toolRegistry (interp exec (processMCPToolCall st p)).1 = toolRegistry st.1
  /\ List.filter isLocal (toolCalls (interp exec (processMCPToolCall st p)).1)
     = List.filter isLocal (toolCalls st.1)
  /\ forall rest,
       (interp exec (processMCPToolCall st p)).2 !! ("/tmp/tool_" ++ rest)
       = st.2 !! ("/tmp/tool_" ++ rest).
Proof.
  intros Hp. destruct (glob_match_mcp p Hp) as [r ->]. destruct st as [this fs].
  cbn [fst snd]. unfold processMCPToolCall. rewrite replace_mcp_result.
  destruct (mcpBridge this) as [bridge|]; [|by auto].
  destruct (JSON_parse _) as [callData|]; [|by auto].
  destruct (get_checked callData "toolName") as [toolName|]; [|by auto].
  rewrite interp_bind.
  destruct (interp exec (handleRequest bridge _)) as [response bridge'].
  assert (Hpath : forall rest, "/tmp/tool_" ++ rest <> "/tmp/mcp_result_" ++ r)
    by (intros rest; discriminate).
  destruct (Response.error response) as [message|]; [destruct (String.eqb message "")|];
    cbn [interp fst snd with_toolCalls with_mcpBridge toolRegistry toolCalls];
    unfold push; rewrite List.filter_app; cbn [List.filter isLocal ToolCall.isMCP negb];
    rewrite app_nil_r; (split; [reflexivity|]); (split; [reflexivity|]); intros rest;
    first [by apply write_heredoc_other | by apply write_echo_other].
Qed.

Lemma forEach_mcp_local (exec : string -> value -> outcome) (paths : list string)
    (st : ToolOrchestrationSandbox * Files) :
  Forall (fun p => glob_match "/tmp/mcp_call_" p = true) paths ->
  let st' := foldl (fun s x => interp exec (processMCPToolCall s x)) st paths in
  toolRegistry st'.1 = toolRegistry st.1
  /\ List.filter isLocal (toolCalls st'.1) = List.filter isLocal (toolCalls st.1)
  /\ forall rest, st'.2 !! ("/tmp/tool_" ++ rest) = st.2 !! ("/tmp/tool_" ++ rest).
Proof.
  revert st. induction paths as [|p paths IH]; intros st Hall; cbv zeta; [by auto|].
  inversion Hall as [|? ? Hp Hrest]; subst. cbn [foldl].
  destruct (IH (interp exec (processMCPToolCall st p)) Hrest) as (Hr & Hc & Hf).
  destruct (processMCPToolCall_local exec st p Hp) as (Hr' & Hc' & Hf').
  cbv zeta in *. split; [by rewrite Hr|]. split; [by rewrite Hc|].
  intros rest. by rewrite Hf.
Qed.

(** The records that the loop over the local requests adds are local. *)
Lemma forEach_local_records (exec : string -> value -> outcome) (paths : list string)
    (st : ToolOrchestrationSandbox * Files) :
  let st' := foldl (fun s x => interp exec (processLocalToolCall s x)) st paths in
  exists added,
    toolCalls st'.1 = (toolCalls st.1 ++ added)%list
    /\ List.filter isLocal added = added.
Proof.
  revert st. induction paths as [|p paths IH]; intros [this fs]; cbv zeta.
  - exists []. by rewrite app_nil_r.
  - cbn [foldl].
    destruct (processLocalToolCall_calls exec this fs p) as (_ & added1 & Hc1 & Hm1).
    destruct (IH (interp exec (processLocalToolCall (this, fs) p))) as (added2 & Hc2 & Hl2).
    cbv zeta in *. cbn [fst] in *. exists (added1 ++ added2)%list.
    split; [by rewrite Hc2, Hc1, <- app_assoc|].
    rewrite List.filter_app, Hl2. f_equal.
    clear -Hm1. induction added1 as [|tc added1 IH]; [reflexivity|].
    cbn [List.filter] in *. unfold isLocal at 1.
    destruct (ToolCall.isMCP tc); [discriminate|]. cbn [negb]. f_equal. by apply IH.
Qed.

(** X28: with an MCP bridge too, a round of the monitor services the local
    requests as it does without one.  Every request file it lists that
    parses and names a registered tool gets one local record and its
    response under its own identifier, and the request files stay as they
    are: the loop over the MCP requests writes [mcp_result_] files and MCP
    records only.  (Tools whose error texts have no single quote.) *)
Theorem monitor_services_local_beside_mcp (exec : string -> value -> outcome)
    (this : ToolOrchestrationSandbox) (fs : Files) :
  quoteFree exec ->
  let pending :=
    length (List.filter (serviceable this fs) (ls "/tmp/tool_call_" fs)) in
  length (List.filter isLocal (toolCalls (tick exec (this, fs)).1))
  = (length (List.filter isLocal (toolCalls this)) + pending)%nat
  /\ (forall p callData name args,
        p ∈ ls "/tmp/tool_call_" fs ->
        JSON_parse (cat fs p) = Some callData ->
        get_checked callData "toolName" = Normal (VStr name) ->
        name ∈ toolRegistry this ->
        spread_args (get callData "args") = Some args ->
        (tick exec (this, fs)).2 !! replace "tool_call_" "tool_result_" p
        = Some (match exec name args with
                | Resolved result => dataEnvelope result
                | Rejected message => errorEnvelope message
                end ++ newline))
  /\ (forall q, glob_match "/tmp/tool_call_" q = true ->
        (tick exec (this, fs)).2 !! q = fs !! q)
  /\ toolRegistry (tick exec (this, fs)).1 = toolRegistry this.
Proof.
  intros Hquote pending.
  set (st1 := foldl (fun s x => interp exec (processLocalToolCall s x)) (this, fs)
                    (ls "/tmp/tool_call_" fs)).
  destruct (forEach_local exec fs this (ls "/tmp/tool_call_" fs) (this, fs)
              (ls_glob _ _) eq_refl (fun _ _ => eq_refl))
    as (Hr1 & _ & Hq1 & Hlen1).
  destruct (forEach_local_records exec (ls "/tmp/tool_call_" fs) (this, fs))
    as (added & Hadded & Hlocal).
  cbv zeta in Hr1, Hq1, Hlen1, Hadded. fold st1 in Hr1, Hq1, Hlen1, Hadded.
  cbn [fst snd] in Hr1, Hq1, Hlen1, Hadded.
  assert (Hlocal1 : length (List.filter isLocal (toolCalls st1.1))
                    = (length (List.filter isLocal (toolCalls this)) + pending)%nat).
  { rewrite Hadded, List.filter_app, Hlocal, length_app. f_equal.
    rewrite Hadded, length_app in Hlen1. subst pending. lia. }
  assert (Htick : exists st,
            tick exec (this, fs) = st
            /\ toolRegistry st.1 = toolRegistry st1.1
            /\ List.filter isLocal (toolCalls st.1) = List.filter isLocal (toolCalls st1.1)
            /\ forall rest, st.2 !! ("/tmp/tool_" ++ rest) = st1.2 !! ("/tmp/tool_" ++ rest)).
  { unfold tick, monitorTick. rewrite interp_bind, interp_forEach.
    cbn [fst snd]. fold st1.
    destruct (mcpBridge st1.1).
    - rewrite interp_forEach. eexists. split; [reflexivity|].
      apply forEach_mcp_local, ls_glob.
    - exists st1. repeat split. }
  destruct Htick as (st & -> & Hr & Hc & Hf).
  split; [by rewrite Hc|]. split; [|split].
  - intros p callData name args Hp Hparse Hname Hreg Hargs.
    pose proof Hp as Hglob. apply elem_of_ls in Hglob as [Hglob _].
    destruct (glob_match_call p Hglob) as [r ->]. rewrite replace_call_result.
    change ("/tmp/tool_result_" ++ r) with ("/tmp/tool_" ++ ("result_" ++ r)).
    rewrite Hf.
    change ("/tmp/tool_" ++ ("result_" ++ r))
      with (replace "tool_call_" "tool_result_" ("/tmp/tool_call_" ++ r)).
    apply (forEach_local_response exec fs this _ name callData args); auto.
    + apply ls_glob.
    + apply NoDup_ls.
  - intros q Hq. destruct (glob_match_call q Hq) as [r Heq].
    rewrite <- (Hq1 q Hq). subst q.
    change ("/tmp/tool_call_" ++ r) with ("/tmp/tool_" ++ ("call_" ++ r)). apply Hf.
  - by rewrite Hr.
Qed.

End MixedMonitorFacts.

Lemma monitor_services_local_beside_mcp_witness :
  let fs := stubRequestMCP "mcp_1_a" "mcp_firecrawl_scrape" (VObj [("url", VStr "x")])
              (stubRequestLocal "17-abc" "getUser" (Arr [VObj [("id", VStr "1")]]) ∅) in
  length (List.filter isLocal
            (toolCalls (@tick model_platform returnsUser (mixedSandbox, fs)).1)) = 1%nat
  /\ length (toolCalls (@tick model_platform returnsUser (mixedSandbox, fs)).1) = 2%nat.
Proof.
  intros fs. split; [|vm_compute; reflexivity].
  rewrite (proj1 (@monitor_services_local_beside_mcp model_platform returnsUser
                    mixedSandbox fs ltac:(intros ? ? ? [=]))).
  vm_compute. reflexivity.
Defined.
